(** * Contextual re-embedding and hybrid retrieval scripts of roofing-saas

    A shallow embedding of the knowledge-base scripts under
    [archive/archon-kb-work]: the contextualizers, the embedding client
    wrappers, the index writers, the batch loops and the retrieval and
    reranking functions, followed by the properties of the specification
    that concern them.

    The scripts talk to three outside parties: the embedding provider, the
    reranking provider and the Postgres store (through psycopg2 or through the
    REST gateway).  Their answers are not decided by the scripts, so they are
    fields of a [services] record that every run reads; the store itself, the
    console and the trace of outgoing calls are the mutable part of a
    [world]. *)

From Stdlib Require Import List String Ascii ZArith QArith Bool Arith Lia.
From Stdlib Require Import Qabs Lqa Permutation Sorted.
Import ListNotations.

Local Open Scope string_scope.
Local Open Scope nat_scope.
Local Open Scope list_scope.

Set Implicit Arguments.

(* ================================================================== *)
(** * Python values and operators used by the scripts *)
(* ================================================================== *)

Module Py.

(** [needle in hay] on strings. *)
Fixpoint contains (needle hay : string) : bool :=
  String.prefix needle hay
  || match hay with
     | EmptyString => false
     | String _ rest => contains needle rest
     end.

(** [s[:stop]] on a string: a negative [stop] counts from the end. *)
Definition slice_to (stop : Z) (s : string) : string :=
  if (stop <? 0)%Z
  then String.substring 0 (String.length s - Z.to_nat (- stop)) s
  else String.substring 0 (Z.to_nat stop) s.

Definition lower_ascii (c : ascii) : ascii :=
  let n := nat_of_ascii c in
  if (65 <=? n) && (n <=? 90) then ascii_of_nat (n + 32) else c.

(** [s.lower()], on the ASCII range. *)
Fixpoint lower (s : string) : string :=
  match s with
  | EmptyString => EmptyString
  | String c rest => String (lower_ascii c) (lower rest)
  end.

(** [l[:n]] for an integer [n]: a negative [n] counts from the end. *)
Definition take {A : Type} (n : Z) (l : list A) : list A :=
  if (n <? 0)%Z
  then firstn (List.length l - Z.to_nat (- n)) l
  else firstn (Z.to_nat n) l.

(** [l[i]]: a negative [i] counts from the end, [None] is [IndexError]. *)
Definition index {A : Type} (l : list A) (i : Z) : option A :=
  if (i <? 0)%Z
  then (if (Z.of_nat (List.length l) + i <? 0)%Z then None
        else nth_error l (Z.to_nat (Z.of_nat (List.length l) + i)))
  else nth_error l (Z.to_nat i).

(** [enumerate(l)]. *)
Definition enumerate {A : Type} (l : list A) : list (nat * A) :=
  combine (seq 0 (List.length l)) l.

End Py.

(* ================================================================== *)
(** * SQL operators used by the queries *)
(* ================================================================== *)

Module Sql.

(** [s LIKE pattern]: [%] matches any run of characters, [_] any single
    character. *)
Fixpoint like (pattern s : string) : bool :=
  match pattern with
  | EmptyString => match s with EmptyString => true | _ => false end
  | String p pattern' =>
      if Ascii.eqb p "%"%char then
        (fix any (t : string) : bool :=
           like pattern' t
           || match t with
              | EmptyString => false
              | String _ t' => any t'
              end) s
      else
        match s with
        | EmptyString => false
        | String c s' =>
            (Ascii.eqb p "_"%char || Ascii.eqb p c) && like pattern' s'
        end
  end.

(** Stable insertion sort: [ORDER BY] with the scan order deciding ties. *)
Fixpoint insert {A : Type} (leb : A -> A -> bool) (x : A) (l : list A)
  : list A :=
  match l with
  | [] => [x]
  | y :: l' => if leb x y then x :: l else y :: insert leb x l'
  end.

Fixpoint order_by {A : Type} (leb : A -> A -> bool) (l : list A) : list A :=
  match l with
  | [] => []
  | x :: l' => insert leb x (order_by leb l')
  end.

End Sql.

(* ================================================================== *)
(** * Data model *)
(* ================================================================== *)

(** A dense embedding.  Double precision is idealised by rationals. *)
Definition vector := list Q.

(** A lexical search vector ([tsvector]): its lexemes. *)
Definition tsvector := list string.

(** A row of [archon_crawled_pages] joined with its row of [archon_sources]
    on [source_id]. *)
Record page := mkPage {
  id : Z;
  content : string;
  url : string;
  chunk_number : Z;
  source_id : string;
  source_url : string;
  source_display_name : option string;   (* NULL when [None] *)
  embedding : option vector;             (* NULL until first embedded *)
  content_search_vector : option tsvector
}.

(** The dictionary a fetch hands to the batch loops: the selected columns. *)
Record chunk := mkChunk {
  c_id : Z;
  c_content : string;
  c_url : string;
  c_chunk_number : Z;
  c_source_id : string;
  c_source_url : string;
  c_source_display_name : option string
}.

Definition select_columns (p : page) : chunk :=
  mkChunk (id p) (content p) (url p) (chunk_number p) (source_id p)
          (source_url p) (source_display_name p).

(** [UPDATE archon_crawled_pages SET embedding = v WHERE id = chunk_id]. *)
Definition set_embedding (chunk_id : Z) (v : vector) (rows : list page)
  : list page :=
  map (fun p =>
         if (id p =? chunk_id)%Z
         then mkPage (id p) (content p) (url p) (chunk_number p) (source_id p)
                     (source_url p) (source_display_name p)
                     (Some v) (content_search_vector p)
         else p) rows.

(** [UPDATE ... SET content_search_vector = tsv WHERE id = chunk_id]. *)
Definition set_search_vector (chunk_id : Z) (tsv : tsvector)
  (rows : list page) : list page :=
  map (fun p =>
         if (id p =? chunk_id)%Z
         then mkPage (id p) (content p) (url p) (chunk_number p) (source_id p)
                     (source_url p) (source_display_name p)
                     (embedding p) (Some tsv)
         else p) rows.

(** [UPDATE ... SET content = text WHERE id = chunk_id].  The store keeps
    the search vector in step with the content by a trigger, which
    final_fix_rest_api.py relies on (lines 22-23 and 149): the search vector
    of the row becomes [to_tsvector] of the new content. *)
Definition set_content (to_tsvector : string -> tsvector) (chunk_id : Z)
  (text : string) (rows : list page) : list page :=
  map (fun p =>
         if (id p =? chunk_id)%Z
         then mkPage (id p) text (url p) (chunk_number p) (source_id p)
                     (source_url p) (source_display_name p)
                     (embedding p) (Some (to_tsvector text))
         else p) rows.

(* ================================================================== *)
(** * Exceptions, outside services, the world *)
(* ================================================================== *)

Inductive error_kind : Type :=
| Timeout | ServerError | RateLimited      (* transient *)
| AuthFailure | MalformedInput.            (* not transient *)

Definition transient (k : error_kind) : bool :=
  match k with
  | Timeout | ServerError | RateLimited => true
  | AuthFailure | MalformedInput => false
  end.

Inductive exn : Type :=
| APIError (kind : error_kind) (message : string)  (* provider clients *)
| TypeError                                        (* [x in None] *)
| IndexError
| ConnectionError                                  (* requests transport *)
| DatabaseError (message : string).                (* psycopg2 *)

Inductive outcome (A : Type) : Type :=
| Return (a : A)
| Raise (e : exn).
Arguments Return {A} a.
Arguments Raise {A} e.

(** Statements sent through the psycopg2 connection. *)
Inductive statement : Type :=
| Select
| UpdateEmbedding (chunk_id : Z)
| UpdateSearchVector (chunk_id : Z)
| Commit
| Rollback.

(** Every call that leaves the process, in the order made. *)
Inductive call : Type :=
| EmbeddingsCreate (input : string)
| Rerank (query : string) (documents : list string) (top_n : Z)
| Get (pattern : string)
| PatchEmbedding (chunk_id : Z)
| PatchContent (chunk_id : Z)
| Execute (s : statement)
| Input
| Sleep.

(** The answers of the outside parties.  The first argument is the number of
    calls made so far, so that an answer may change from one call to the
    next (a gateway that recovers, a store that refuses one statement).
    [embeddings_create] is the outcome of one call of
    [client.embeddings.create], whatever the client library does inside that
    call, its own retries included. *)
Record services := mkServices {
  embeddings_create : nat -> string -> outcome vector;
  cohere_rerank : nat -> string -> list string -> Z -> outcome (list (Z * Q));
  rest_get : nat -> string -> outcome nat;      (* HTTP status *)
  rest_patch : nat -> Z -> outcome nat;         (* HTTP status *)
  pg_fault : nat -> statement -> option exn;    (* [Some e]: it raises [e] *)
  stdin : nat -> string;
  to_tsvector : string -> tsvector;             (* to_tsvector('english', .) *)
  cosine_distance : vector -> vector -> Q;      (* pgvector [<=>] *)
  collate_leb : string -> string -> bool        (* the column collation *)
}.

(** Console lines, by the message they carry; [Message] is a line of fixed
    text. *)
Inductive line : Type :=
| Message (text : string)
| Error_generating_embedding (e : exn)
| Error_updating_embedding (chunk_id : Z) (e : exn)
| No_project_documentation_found
| Found (n : nat)
| Found_across (n documents : nat)
| Failed_to_fetch_documents (status : nat)
| Source_count (name : option string) (count : nat)
| Cancelled
| Postfix (ok err : nat)
| Progress (i n : nat) (doc_name : option string) (chunk_number : Z)
| Check_mark
| Update_failed
| Error_mark (e : exn)
| Embedding_error (e : exn)
| Successfully_reembedded (n : nat)
| Failed (n : nat)
| Processing (i n : nat) (doc_name : option string)
| Generating_embedding
| Embedding_failed (e : exn)
| Updating_database
| Successfully_updated
| Database_update_failed (e : exn)
| Reranking_failed (e : exn)
| Failed_to_generate_query_embedding
| Search_result (rank : nat) (name : option string) (similarity : Q)
                (source : string) (preview : string).

Record world := mkWorld {
  env : services;
  pages : list page;            (* committed rows, visible to every reader *)
  txn : option (list page);     (* rows as the open transaction sees them *)
  trace : list call;            (* outgoing calls, oldest first *)
  stdout : list line            (* console, oldest first *)
}.

(** The number of calls made so far. *)
Definition now (w : world) : nat := List.length (trace w).

(** The rows a statement of the connection reads. *)
Definition view (w : world) : list page :=
  match txn w with
  | Some rows => rows
  | None => pages w
  end.

(* ================================================================== *)
(** * The monad of the scripts: state and exceptions *)
(* ================================================================== *)

Definition io (A : Type) : Type := world -> outcome A * world.

Definition ret {A : Type} (a : A) : io A := fun w => (Return a, w).

Definition throw {A : Type} (e : exn) : io A := fun w => (Raise e, w).

Definition bind {A B : Type} (m : io A) (k : A -> io B) : io B :=
  fun w =>
    match m w with
    | (Return a, w') => k a w'
    | (Raise e, w') => (Raise e, w')
    end.

(** [try: body  except Exception as e: handler e]. *)
Definition try_except {A : Type} (body : io A) (handler : exn -> io A)
  : io A :=
  fun w =>
    match body w with
    | (Return a, w') => (Return a, w')
    | (Raise e, w') => handler e w'
    end.

Declare Scope io_scope.
Delimit Scope io_scope with io.
Notation "x <- m ;; k" := (bind m (fun x => k))
  (at level 61, m at next level, right associativity) : io_scope.
Notation "m ;; k" := (bind m (fun _ => k))
  (at level 61, right associativity) : io_scope.
Local Open Scope io_scope.

Definition lift {A : Type} (o : outcome A) : io A := fun w => (o, w).

(** The outside parties this run talks to. *)
Definition ask : io services := fun w => (Return (env w), w).

Definition print (l : line) : io unit :=
  fun w => (Return tt,
            mkWorld (env w) (pages w) (txn w) (trace w) (stdout w ++ [l])).

(** Record an outgoing call. *)
Definition record (c : call) (w : world) : world :=
  mkWorld (env w) (pages w) (txn w) (trace w ++ [c]) (stdout w).

(** [for x in l: state = body x state]. *)
Fixpoint for_each {A S : Type} (l : list A) (body : A -> S -> io S) (s : S)
  : io S :=
  match l with
  | [] => ret s
  | x :: l' => s' <- body x s ;; for_each l' body s'
  end.

(** [time.sleep]. *)
Definition sleep : io unit := fun w => (Return tt, record Sleep w).

(** [input(prompt)]. *)
Definition input : io string :=
  fun w => (Return (stdin (env w) (now w)), record Input w).

(** [client.embeddings.create(model=EMBEDDING_MODEL, input=text)] followed by
    [response.data[0].embedding]. *)
Definition client_embeddings_create (text : string) : io vector :=
  fun w => (embeddings_create (env w) (now w) text,
            record (EmbeddingsCreate text) w).

(** [cur.execute] of a statement that writes: it changes the rows of the open
    transaction, opening one when there is none, unless it raises. *)
Definition cur_execute (s : statement) (change : list page -> list page)
  : io unit :=
  fun w =>
    let w' := record (Execute s) w in
    match pg_fault (env w) (now w) s with
    | Some e => (Raise e, w')
    | None =>
        (Return tt,
         mkWorld (env w') (pages w') (Some (change (view w'))) (trace w')
                 (stdout w'))
    end.

(** [cur.execute] of a [SELECT] followed by [cur.fetchall()]. *)
Definition cur_fetchall {A : Type} (query : list page -> list A)
  : io (list A) :=
  fun w =>
    let w' := record (Execute Select) w in
    match pg_fault (env w) (now w) Select with
    | Some e => (Raise e, w')
    | None => (Return (query (view w)), w')
    end.

(** [cur.execute] of a [SELECT] followed by [cur.fetchone()], for a query
    that returns one row. *)
Definition cur_fetchone {A : Type} (query : list page -> A) : io A :=
  fun w =>
    let w' := record (Execute Select) w in
    match pg_fault (env w) (now w) Select with
    | Some e => (Raise e, w')
    | None => (Return (query (view w)), w')
    end.

(** [conn.commit()]: the rows of the open transaction become the committed
    rows, unless it raises. *)
Definition conn_commit : io unit :=
  fun w =>
    let w' := record (Execute Commit) w in
    match pg_fault (env w) (now w) Commit with
    | Some e => (Raise e, w')
    | None =>
        (Return tt,
         mkWorld (env w') (view w') None (trace w') (stdout w'))
    end.

(** [conn.rollback()]: the open transaction is dropped.  It raises on a
    connection that is closed or broken, which is how a refused statement or
    commit may have left it; the transaction is lost then as well. *)
Definition conn_rollback : io unit :=
  fun w =>
    let w' := record (Execute Rollback) w in
    (match pg_fault (env w) (now w) Rollback with
     | Some e => Raise e
     | None => Return tt
     end,
     mkWorld (env w') (pages w') None (trace w') (stdout w')).

(** The response of the REST gateway: status code and decoded body. *)
Record response (A : Type) := mkResponse {
  status_code : nat;
  json : A
}.

(** The rows the gateway returns for
    [archon_sources.source_url=like.<pattern>&order=chunk_number]. *)
Definition rest_select (pattern : string) (rows : list page) : list chunk :=
  map select_columns
      (Sql.order_by (fun a b => (chunk_number a <=? chunk_number b)%Z)
                    (filter (fun p => Sql.like pattern (source_url p)) rows)).

(** [requests.get(url, headers=headers, params=params)]. *)
Definition requests_get (pattern : string) : io (response (list chunk)) :=
  fun w =>
    let w' := record (Get pattern) w in
    match rest_get (env w) (now w) pattern with
    | Raise e => (Raise e, w')
    | Return status =>
        (Return (mkResponse status
                   (if status =? 200 then rest_select pattern (pages w)
                    else [])),
         w')
    end.

(** [requests.patch(url, headers=headers, params={id: eq.chunk_id}, json=data)]:
    the gateway applies the change exactly when it answers 204. *)
Definition requests_patch (c : call) (chunk_id : Z)
  (change : list page -> list page) : io (response unit) :=
  fun w =>
    let w' := record c w in
    match rest_patch (env w) (now w) chunk_id with
    | Raise e => (Raise e, w')
    | Return status =>
        (Return (mkResponse status tt),
         if status =? 204
         then mkWorld (env w') (change (pages w')) (txn w') (trace w')
                      (stdout w')
         else w')
    end.

(** A connection that has just been opened on a store. *)
Definition connect (sv : services) (rows : list page) : world :=
  mkWorld sv rows None [] [].

(** Truth value of [embedding] in [if embedding and ...]: [None] and the
    empty list are false. *)
Definition truthy (embedding : option vector) : bool :=
  match embedding with
  | Some (_ :: _) => true
  | _ => false
  end.

(** [sources[name] += 1] over the chunks, keys in first-seen order. *)
Fixpoint tally_add (name : option string) (counts : list (option string * nat))
  : list (option string * nat) :=
  match counts with
  | [] => [(name, 1)]
  | (k, n) :: rest =>
      if match k, name with
         | Some a, Some b => String.eqb a b
         | None, None => true
         | _, _ => false
         end
      then (k, S n) :: rest
      else (k, n) :: tally_add name rest
  end.

Definition tally (chunks : list chunk) : list (option string * nat) :=
  fold_left (fun counts c => tally_add (c_source_display_name c) counts)
            chunks [].

(* ================================================================== *)
(** * reembed_archon.py *)
(* ================================================================== *)

Module ReembedArchon.

(** The [WHERE] clause of [get_project_docs]. *)
Definition is_project_doc (p : page) : bool :=
  Sql.like "file://%.md" (source_url p)
  && (Sql.like "%prd%" (Py.lower (source_url p))
      || Sql.like "%claude%" (Py.lower (source_url p))
      || Sql.like "%roofing%" (Py.lower (source_url p))
      || Sql.like "%knowledge%" (Py.lower (source_url p))).

(** [NULL] sorts last in ascending order. *)
Definition name_leb (sv : services) (a b : option string) : bool :=
  match a, b with
  | Some x, Some y => collate_leb sv x y
  | Some _, None => true
  | None, Some _ => false
  | None, None => true
  end.

(** [ORDER BY s.source_display_name, cp.chunk_number]. *)
Definition doc_order (sv : services) (a b : page) : bool :=
  if name_leb sv (source_display_name a) (source_display_name b)
  then (if name_leb sv (source_display_name b) (source_display_name a)
        then (chunk_number a <=? chunk_number b)%Z
        else true)
  else false.

Definition get_project_docs : io (list chunk) :=
  sv <- ask ;;
  cur_fetchall
    (fun rows =>
       map select_columns
           (Sql.order_by (doc_order sv) (filter is_project_doc rows))).

Definition create_contextual_content (chunk : chunk) : outcome string :=
  let content := c_content chunk in
  match c_source_display_name chunk with
  | None => Raise TypeError
  | Some display_name =>
      Return
        (if Py.contains "PRD.md" display_name then
           "Project Requirements Document for Tennessee Roofing SaaS Platform: "
           ++ content
         else if Py.contains "CLAUDE.md" display_name then
           "Developer Implementation Guide for Roofing Project: " ++ content
         else if Py.contains "knowledge_base_roofing" display_name then
           "Roofing Industry Technical Knowledge Base: " ++ content
         else if Py.contains "roofing_industry_apis" display_name then
           "Roofing Industry API Integration Documentation: " ++ content
         else if Py.contains "TWILIO" display_name then
           "Twilio SMS Implementation Guide for Roofing Project: " ++ content
         else if Py.contains "ESIGNING" display_name then
           "E-Signature Options for Roofing Contracts: " ++ content
         else
           "Project Documentation: " ++ content)%string
  end.

Definition generate_embedding (text : string) : io (option vector) :=
  try_except
    (response <- client_embeddings_create (Py.slice_to 8000%Z text) ;;
     ret (Some response))
    (fun e => print (Error_generating_embedding e) ;; ret None).

Definition update_embedding (chunk_id : Z) (embedding : vector) : io bool :=
  try_except
    (cur_execute (UpdateEmbedding chunk_id)
                 (set_embedding chunk_id embedding) ;;
     conn_commit ;;
     ret true)
    (fun e =>
       print (Error_updating_embedding chunk_id e) ;;
       conn_rollback ;;
       ret false).

(** The body of the loop of [reembed_project_docs]; the state is
    [(success_count, error_count)]. *)
Definition reembed_chunk (chunk : chunk) (counts : nat * nat)
  : io (nat * nat) :=
  let '(success_count, error_count) := counts in
  contextual_content <- lift (create_contextual_content chunk) ;;
  embedding <- generate_embedding contextual_content ;;
  updated <- match embedding with
             | Some v => if truthy embedding
                         then update_embedding (c_id chunk) v
                         else ret false
             | None => ret false
             end ;;
  let counts' := if updated then (S success_count, error_count)
                 else (success_count, S error_count) in
  print (Postfix (fst counts') (snd counts')) ;;
  sleep ;;
  ret counts'.

Definition reembed_project_docs : io unit :=
  chunks <- get_project_docs ;;
  match chunks with
  | [] => print No_project_documentation_found
  | _ :: _ =>
      print (Found (List.length chunks)) ;;
      print (Message "Documents to process:") ;;
      for_each (tally chunks)
               (fun nc _ => print (Source_count (fst nc) (snd nc))) tt ;;
      response <- input ;;
      if negb (String.eqb (Py.lower response) "y") then print Cancelled
      else
        counts <- for_each chunks reembed_chunk (0, 0) ;;
        print (Successfully_reembedded (fst counts)) ;;
        if 0 <? snd counts then print (Failed (snd counts)) else ret tt
  end.

(** One row of the result of the query of [test_search]. *)
Record hit := mkHit {
  hit_id : Z;
  content_preview : string;
  hit_source_display_name : option string;
  hit_source_url : string;
  distance : Q;
  similarity : Q
}.

(** [WHERE cp.embedding IS NOT NULL ORDER BY cp.embedding <=> q LIMIT 10]:
    the rows that have an embedding, each with its distance to the query. *)
Definition embedded (sv : services) (q : vector) (rows : list page)
  : list (page * Q) :=
  flat_map (fun p => match embedding p with
                     | Some v => [(p, cosine_distance sv v q)]
                     | None => []
                     end) rows.

Definition nearest (sv : services) (q : vector) (rows : list page)
  : list hit :=
  map (fun pd => mkHit (id (fst pd)) (Py.slice_to 200%Z (content (fst pd)))
                       (source_display_name (fst pd)) (source_url (fst pd))
                       (snd pd) (1 - snd pd)%Q)
      (firstn 10
         (Sql.order_by (fun a b => Qle_bool (snd a) (snd b))
                       (embedded sv q rows))).

Definition test_search (query : string) : io unit :=
  print (Message ("Testing search for: " ++ query)) ;;
  let contextual_query :=
    ("Search for roofing project documentation about: " ++ query)%string in
  embedding <- generate_embedding contextual_query ;;
  match embedding with
  | Some q =>
      if truthy embedding then
        sv <- ask ;;
        results <- cur_fetchall (nearest sv q) ;;
        print (Message "Top 10 results:") ;;
        for_each (Py.enumerate results)
                 (fun ir _ =>
                    print (Search_result
                             (S (fst ir))
                             (hit_source_display_name (snd ir))
                             (similarity (snd ir))
                             (Py.slice_to 50%Z (hit_source_url (snd ir)))
                             (Py.slice_to 100%Z (content_preview (snd ir)))))
                 tt
      else print Failed_to_generate_query_embedding
  | None => print Failed_to_generate_query_embedding
  end.

(** The row of counts of [get_stats]. *)
Record stats := mkStats {
  total_chunks : nat;
  chunks_with_embeddings : nat;
  file_chunks : nat;
  web_chunks : nat
}.

(** The count of all rows, [COUNT(embedding)] and the two [COUNT(CASE WHEN
    source_url LIKE ... THEN 1 END)] over the joined rows. *)
Definition count_stats (rows : list page) : stats :=
  mkStats
    (List.length rows)
    (List.length (filter (fun p => match embedding p with
                                   | Some _ => true
                                   | None => false
                                   end) rows))
    (List.length (filter (fun p => Sql.like "file://%" (source_url p)) rows))
    (List.length (filter (fun p => Sql.like "http%" (source_url p)) rows)).

Definition get_stats : io stats := cur_fetchone count_stats.

End ReembedArchon.


(** The four patterns every REST fetch of the project documentation uses. *)
Definition doc_patterns : list string :=
  ["%PRD.md%"; "%CLAUDE.md%"; "%knowledge_base_roofing%";
   "%roofing_industry_apis%"].

(* ================================================================== *)
(** * fix_embeddings_properly.py *)
(* ================================================================== *)

Module FixEmbeddingsProperly.

Definition get_project_documents : io (list chunk) :=
  print (Message "Fetching project documentation...") ;;
  for_each doc_patterns
           (fun pattern all_chunks =>
              response <- requests_get pattern ;;
              if status_code response =? 200
              then ret (all_chunks ++ json response)
              else ret all_chunks)
           [].

Definition prd_prefix : string :=
"
        PROJECT REQUIREMENTS DOCUMENT (PRD) for Tennessee Roofing Company SaaS Platform.

        KEY SEARCH TERMS: PRD, requirements, Phase 1, Phase 2, Phase 3, Phase 4, Phase 5,
        Proline CRM replacement, Enzy app replacement, door knocking, door-to-door sales,
        Tennessee roofing company, local roofing contractor, roofing CRM, roofing software,
        Core CRM, weeks 1-4, contact management, pipeline management, QuickBooks integration,
        OAuth setup, basic lead management, CRUD operations, simple pipeline view,
        financial sync, invoicing, estimates, proposals, contracts, e-signing,
        Twilio SMS, text messaging, call recording, mobile app, PWA, photo upload,
        field operations, crew management, job scheduling, territory management,
        gamification, leaderboards, achievement badges, sales rep tracking,
        AI voice assistant, reporting, analytics, dashboard, KPIs, metrics.

        This document describes ALL requirements and phases for replacing Proline and Enzy.
        Developer: Solo automation agency using Claude Code and no/low-code tools.
        Client: Tennessee-based roofing company with field sales and installation crews.

        ACTUAL CONTENT: ".

Definition claude_prefix : string :=
"
        DEVELOPER IMPLEMENTATION GUIDE - CLAUDE.md - Instructions for Claude Code.

        KEY SEARCH TERMS: Claude Code, developer guide, implementation instructions,
        tech stack, Next.js 14, Supabase, PostgreSQL, Tailwind CSS, shadcn/ui,
        PWA, progressive web app, Twilio integration, QuickBooks API, OpenAI API,
        Resend, SendGrid, email automation, SMS automation, Vercel deployment,
        database schema, contacts table, projects table, activities table,
        Row Level Security, RLS, authentication, auth flow, API patterns,
        Tennessee roofing project, roofing SaaS, CRM development,
        solo developer, automation agency, no-code, low-code, MCP servers,
        Archon integration, dual Supabase architecture, knowledge base,
        project structure, development commands, quality checklist.

        This is THE developer guide for building the Tennessee roofing platform.

        ACTUAL CONTENT: ".

Definition kb_prefix : string :=
"
        TECHNICAL KNOWLEDGE BASE for Roofing Industry SaaS Platform Development.

        KEY SEARCH TERMS: roofing knowledge base, technical implementation,
        roofing CRM features, field operations, mobile app development,
        photo upload, offline sync, territory management, route optimization,
        crew scheduling, job management, QuickBooks integration details,
        financial sync, invoice generation, payment processing,
        Twilio SMS implementation, automated text messaging, appointment reminders,
        customer communications, two-way messaging, call recording setup,
        e-signature integration, contract management, proposal generation,
        reporting dashboards, KPI tracking, sales metrics, performance analytics,
        gamification system, achievement system, leaderboard implementation,
        door-to-door sales tracking, canvassing routes, lead capture,
        Tennessee roofing industry, local contractor needs, Proline alternative,
        Enzy replacement, mobile-first design, PWA implementation.

        Complete technical guide for roofing-specific features and integrations.

        ACTUAL CONTENT: ".

Definition apis_prefix : string :=
"
        ROOFING INDUSTRY API INTEGRATION DOCUMENTATION.

        KEY SEARCH TERMS: roofing APIs, industry integrations, third-party services,
        EagleView API, aerial measurements, roof measurements, property data,
        Hover API, 3D modeling, 3D measurements, visual estimates,
        Xactimate integration, insurance claims, ESX files, estimating,
        GAF API, manufacturer warranties, contractor portal, certifications,
        SRS Distribution API, ABC Supply API, Beacon API, material ordering,
        material delivery tracking, supply chain integration,
        QuickBooks API, accounting integration, financial sync, invoicing API,
        payment processing, accounts receivable, job costing,
        Twilio API, SMS API, voice API, call recording, messaging,
        Google Maps API, geocoding, route optimization, territory mapping,
        weather API integration, job scheduling, crew dispatch,
        photo storage API, damage documentation, before/after photos,
        e-signature API, SignWell, DocuSign, contract signing.

        Complete API documentation for roofing industry integrations.

        ACTUAL CONTENT: ".

Definition default_prefix : string :=
"
        TENNESSEE ROOFING PROJECT DOCUMENTATION.
        Project to replace Proline CRM and Enzy door-knocking app.
        Roofing company software requirements and implementation.
        ".

Definition closing : string :=
"
        ".

Definition create_AGGRESSIVE_contextual_content (chunk : chunk)
  : outcome string :=
  let content := c_content chunk in
  match c_source_display_name chunk with
  | None => Raise TypeError
  | Some display_name =>
      Return
        (if Py.contains "PRD.md" display_name then
           prd_prefix ++ content ++ closing
         else if Py.contains "CLAUDE.md" display_name then
           claude_prefix ++ content ++ closing
         else if Py.contains "knowledge_base_roofing" display_name then
           kb_prefix ++ content ++ closing
         else if Py.contains "roofing_industry_apis" display_name then
           apis_prefix ++ content ++ closing
         else
           default_prefix ++ content ++ closing)%string
  end.

Definition generate_embedding (text : string) : io (option vector) :=
  try_except
    (response <- client_embeddings_create (Py.slice_to 8000%Z text) ;;
     ret (Some response))
    (fun e => print (Embedding_error e) ;; ret None).

Definition update_embedding (chunk_id : Z) (embedding : vector) : io bool :=
  response <- requests_patch (PatchEmbedding chunk_id) chunk_id
                             (set_embedding chunk_id embedding) ;;
  ret (status_code response =? 204).

(** The body of the loop of [main] (lines 338-359); [n] is [len(chunks)] and
    the state is [(success, failed)]. *)
Definition reembed_chunk (n : nat) (ic : nat * chunk) (counts : nat * nat)
  : io (nat * nat) :=
  let '(i, chunk) := ic in
  let '(success, failed) := counts in
  print (Progress (i + 1) n (c_source_display_name chunk)
                  (c_chunk_number chunk)) ;;
  try_except
    (contextual_content <-
       lift (create_AGGRESSIVE_contextual_content chunk) ;;
     embedding <- generate_embedding contextual_content ;;
     updated <- match embedding with
                | Some v => if truthy embedding
                            then update_embedding (c_id chunk) v
                            else ret false
                | None => ret false
                end ;;
     counts' <- (if updated
                 then print Check_mark ;; ret (S success, failed)
                 else print Update_failed ;; ret (success, S failed)) ;;
     sleep ;;
     ret counts')
    (fun e => print (Error_mark e) ;; ret (success, S failed)).

(** The loop of [main] (lines 335-359): the final [(success, failed)]. *)
Definition reembed_chunks (chunks : list chunk) : io (nat * nat) :=
  for_each (Py.enumerate chunks) (reembed_chunk (List.length chunks)) (0, 0).

(** [main] from the fetch to the summary (lines 308-363).  The connection
    checks before it and the search checks after it leave the store alone. *)
Definition main : io unit :=
  chunks <- get_project_documents ;;
  match chunks with
  | [] => print No_project_documentation_found
  | _ :: _ =>
      print (Found (List.length chunks)) ;;
      print (Message "Documents to re-embed with AGGRESSIVE context:") ;;
      for_each (tally chunks)
               (fun nc _ => print (Source_count (fst nc) (snd nc))) tt ;;
      response <- input ;;
      if negb (String.eqb (Py.lower response) "y") then print Cancelled
      else
        print (Message
                 "Re-embedding with MASSIVE contextual enhancement...") ;;
        counts <- reembed_chunks chunks ;;
        print (Successfully_reembedded (fst counts)) ;;
        if 0 <? snd counts then print (Failed (snd counts)) else ret tt
  end.

End FixEmbeddingsProperly.

(* ================================================================== *)
(** * reembed_all_project_docs.py *)
(* ================================================================== *)

Module ReembedAllProjectDocs.

(** [None] when no chunk came back: the message then carries the status of
    the last response.  The state of the loop is [all_chunks] and the status
    of [response]. *)
Definition get_project_documents : io (option (list chunk)) :=
  print (Message "Fetching project documentation from Archon DB...") ;;
  fetched <- for_each doc_patterns
               (fun pattern state =>
                  response <- requests_get pattern ;;
                  if status_code response =? 200
                  then ret (fst state ++ json response, status_code response)
                  else ret (fst state, status_code response))
               ([], 0) ;;
  let chunks := fst fetched in
  match chunks with
  | [] => print (Failed_to_fetch_documents (snd fetched)) ;; ret None
  | _ :: _ =>
      print (Found_across (List.length chunks) (List.length (tally chunks))) ;;
      for_each (tally chunks)
               (fun nc _ => print (Source_count (fst nc) (snd nc))) tt ;;
      ret (Some chunks)
  end.

Definition prd_context : string :=
"Project Requirements Document (PRD) for Tennessee Roofing SaaS Platform.
        This describes requirements to replace Proline CRM and Enzy door-knocking app for a Tennessee roofing company.
        Developer: Solo automation agency using Claude Code. Content: ".

Definition claude_context : string :=
"Developer Implementation Guide for Tennessee Roofing SaaS Project.
        Instructions for Claude Code when building the roofing platform to replace Proline and Enzy.
        Tech stack: Next.js, Supabase, Twilio, QuickBooks integration. Content: ".

Definition kb_context : string :=
"Technical Knowledge Base for Roofing Industry Platform Development.
        Implementation details for roofing CRM, field operations, QuickBooks integration, Twilio SMS.
        Tennessee roofing company requirements and industry-specific features. Content: ".

Definition apis_context : string :=
"Roofing Industry API Integration Documentation.
        APIs for roofing software: EagleView measurements, Hover 3D modeling, Xactimate estimating,
        QuickBooks accounting, Twilio communications, GAF warranties. Content: ".

Definition default_context : string :=
"Tennessee Roofing Project Documentation: ".

Definition create_contextual_content (chunk : chunk) : outcome string :=
  let content := c_content chunk in
  match c_source_display_name chunk with
  | None => Raise TypeError
  | Some display_name =>
      Return
        (if Py.contains "PRD.md" display_name then prd_context ++ content
         else if Py.contains "CLAUDE.md" display_name
              then claude_context ++ content
         else if Py.contains "knowledge_base_roofing" display_name
              then kb_context ++ content
         else if Py.contains "roofing_industry_apis" display_name
              then apis_context ++ content
         else default_context ++ content)%string
  end.

Definition generate_embedding (text : string) : io (option vector) :=
  try_except
    (response <- client_embeddings_create (Py.slice_to 8000%Z text) ;;
     ret (Some response))
    (fun e => print (Embedding_error e) ;; ret None).

Definition update_embedding (chunk_id : Z) (embedding : vector) : io bool :=
  response <- requests_patch (PatchEmbedding chunk_id) chunk_id
                             (set_embedding chunk_id embedding) ;;
  ret (status_code response =? 204).

(** The body of the loop of [reembed_all_project_docs] (lines 154-175). *)
Definition reembed_chunk (n : nat) (ic : nat * chunk) (counts : nat * nat)
  : io (nat * nat) :=
  let '(i, chunk) := ic in
  let '(success, failed) := counts in
  print (Progress (i + 1) n (c_source_display_name chunk)
                  (c_chunk_number chunk)) ;;
  try_except
    (contextual_content <- lift (create_contextual_content chunk) ;;
     embedding <- generate_embedding contextual_content ;;
     updated <- match embedding with
                | Some v => if truthy embedding
                            then update_embedding (c_id chunk) v
                            else ret false
                | None => ret false
                end ;;
     counts' <- (if updated
                 then print Check_mark ;; ret (S success, failed)
                 else print Update_failed ;; ret (success, S failed)) ;;
     sleep ;;
     ret counts')
    (fun e => print (Error_mark e) ;; ret (success, S failed)).

(** [reembed_all_project_docs]: [True] when at least one chunk was
    re-embedded. *)
Definition reembed_all_project_docs : io bool :=
  fetched <- get_project_documents ;;
  match fetched with
  | None | Some [] => ret false
  | Some ((_ :: _) as chunks) =>
      response <- input ;;
      if negb (String.eqb (Py.lower response) "y")
      then print Cancelled ;; ret false
      else
        print (Message "Re-embedding project documentation...") ;;
        counts <- for_each (Py.enumerate chunks)
                           (reembed_chunk (List.length chunks)) (0, 0) ;;
        print (Successfully_reembedded (fst counts)) ;;
        (if 0 <? snd counts then print (Failed (snd counts)) else ret tt) ;;
        ret (0 <? fst counts)
  end.

End ReembedAllProjectDocs.

(* ================================================================== *)
(** * fix_search_properly_final.py *)
(* ================================================================== *)

Module FixSearchProperlyFinal.

Definition base_context : string :=
"
    Tennessee Roofing Company Project Documentation.
    Proline CRM replacement. Enzy door-knocking app replacement.
    Local Tennessee roofing contractor software requirements.
    Solo developer using Claude Code. No-code low-code automation.
    ".

Definition prd_keywords : string :=
"
        PROJECT REQUIREMENTS DOCUMENT PRD.md for Tennessee Roofing SaaS Platform.

        SEARCH KEYWORDS: PRD requirements document specification project Tennessee roofing
        Proline CRM replacement Enzy app door-knocking gamification sales reps
        Phase 1 Phase 2 Phase 3 Phase 4 Phase 5 Core CRM weeks 1-4
        contact management lead management pipeline stages QuickBooks integration
        OAuth financial sync invoicing estimates proposals contracts e-signing
        Twilio SMS text messaging call recording mobile app PWA photo upload
        field operations crew management job scheduling territory management
        gamification leaderboards achievement badges sales tracking door-to-door
        AI voice assistant reporting analytics dashboard KPIs metrics
        Claude Code developer solo automation agency implementation guide.

        PHASES:
        - Phase 1 Core CRM: contact management, pipeline, QuickBooks OAuth
        - Phase 2 Mobile Operations: PWA, photo upload, field tracking
        - Phase 3 Communications: Twilio SMS, email, call recording
        - Phase 4 Advanced Features: AI assistant, gamification
        - Phase 5 Optimization: reporting, analytics, performance

        ACTUAL CONTENT: ".

Definition claude_keywords : string :=
"
        CLAUDE.md Developer Implementation Guide Instructions for Claude Code.

        SEARCH KEYWORDS: Claude Code developer guide implementation instructions
        tech stack Next.js 14 Supabase PostgreSQL Tailwind CSS shadcn/ui
        PWA progressive web app Twilio integration QuickBooks API OpenAI
        Resend SendGrid email automation SMS Vercel deployment
        database schema contacts projects activities tables
        Row Level Security RLS authentication auth API patterns
        Tennessee roofing project CRM development solo developer
        automation agency no-code low-code MCP servers Archon integration
        dual Supabase architecture knowledge base project structure
        development commands quality checklist best practices.

        ACTUAL CONTENT: ".

Definition kb_keywords : string :=
"
        Technical Knowledge Base for Roofing Industry Platform Development.

        SEARCH KEYWORDS: roofing knowledge base technical implementation
        CRM features field operations mobile app photo upload offline sync
        territory management route optimization crew scheduling job management
        QuickBooks integration financial sync invoice generation payment
        Twilio SMS automated messaging appointment reminders customer communications
        two-way messaging call recording e-signature contract management
        proposal generation reporting dashboards KPI tracking sales metrics
        performance analytics gamification achievement system leaderboard
        door-to-door sales canvassing routes lead capture Tennessee roofing
        local contractor Proline alternative Enzy replacement mobile-first PWA.

        ACTUAL CONTENT: ".

Definition apis_keywords : string :=
"
        Roofing Industry API Integration Documentation.

        SEARCH KEYWORDS: roofing APIs industry integrations third-party services
        EagleView API aerial measurements roof property data
        Hover API 3D modeling visual estimates
        Xactimate integration insurance claims ESX files estimating
        GAF API manufacturer warranties contractor portal certifications
        SRS Distribution ABC Supply Beacon material ordering delivery tracking
        supply chain integration QuickBooks API accounting financial invoicing
        payment processing accounts receivable job costing
        Twilio API SMS voice call recording messaging
        Google Maps API geocoding route optimization territory mapping
        weather API job scheduling crew dispatch photo storage damage documentation
        e-signature API SignWell DocuSign contract signing.

        ACTUAL CONTENT: ".

Definition opening : string :=
"
        ".

Definition closing : string :=
"
        ".

Definition create_MAXIMUM_contextual_content (chunk : chunk)
  : outcome string :=
  let content := c_content chunk in
  match c_source_display_name chunk with
  | None => Raise TypeError
  | Some display_name =>
      Return
        (if Py.contains "PRD.md" display_name then
           opening ++ base_context ++ prd_keywords ++ content ++ closing
         else if Py.contains "CLAUDE.md" display_name then
           opening ++ base_context ++ claude_keywords ++ content ++ closing
         else if Py.contains "knowledge_base_roofing" display_name then
           opening ++ base_context ++ kb_keywords ++ content ++ closing
         else if Py.contains "roofing_industry_apis" display_name then
           opening ++ base_context ++ apis_keywords ++ content ++ closing
         else
           base_context ++ " " ++ content)%string
  end.

(** The [WHERE] clause of the fetch of [fix_everything]. *)
Definition is_project_doc (p : page) : bool :=
  Sql.like "file://%.md" (source_url p)
  && (Sql.like "%PRD.md%" (source_url p)
      || Sql.like "%CLAUDE.md%" (source_url p)
      || Sql.like "%knowledge_base_roofing%" (source_url p)
      || Sql.like "%roofing_industry_apis%" (source_url p)).

Definition fetch : io (list chunk) :=
  sv <- ask ;;
  cur_fetchall
    (fun rows =>
       map select_columns
           (Sql.order_by (ReembedArchon.doc_order sv)
                         (filter is_project_doc rows))).

(** The body of the loop of [fix_everything] (lines 157-203); the state is
    [(success, failed)].  [None] from the first [try] is its [continue]. *)
Definition fix_chunk (n : nat) (ic : nat * chunk) (counts : nat * nat)
  : io (nat * nat) :=
  let '(i, chunk) := ic in
  let '(success, failed) := counts in
  print (Processing (i + 1) n (c_source_display_name chunk)) ;;
  enhanced_content <- lift (create_MAXIMUM_contextual_content chunk) ;;
  print Generating_embedding ;;
  embedding <- try_except
                 (response <- client_embeddings_create
                                (Py.slice_to 8000%Z enhanced_content) ;;
                  ret (Some response))
                 (fun e => print (Embedding_failed e) ;; ret None) ;;
  match embedding with
  | None => ret (success, S failed)
  | Some v =>
      print Updating_database ;;
      try_except
        (cur_execute (UpdateEmbedding (c_id chunk))
                     (set_embedding (c_id chunk) v) ;;
         sv <- ask ;;
         cur_execute (UpdateSearchVector (c_id chunk))
                     (set_search_vector (c_id chunk)
                        (to_tsvector sv enhanced_content)) ;;
         conn_commit ;;
         print Successfully_updated ;;
         ret (S success, failed))
        (fun e =>
           print (Database_update_failed e) ;;
           conn_rollback ;;
           ret (success, S failed))
  end.

(** [fix_everything] from the fetch to the summary (lines 130-208).  The
    searches it then runs only read the store. *)
Definition fix_everything : io unit :=
  print (Message "FINAL FIX - WE WILL ACHIEVE 90%+ ACCURACY") ;;
  chunks <- fetch ;;
  print (Found (List.length chunks)) ;;
  counts <- for_each (Py.enumerate chunks) (fix_chunk (List.length chunks))
                     (0, 0) ;;
  print (Successfully_reembedded (fst counts)) ;;
  if 0 <? snd counts then print (Failed (snd counts)) else ret tt.

End FixSearchProperlyFinal.


(* ================================================================== *)
(** * final_fix_rest_api.py *)
(* ================================================================== *)

Module FinalFixRestApi.

Definition get_project_documents : io (list chunk) :=
  print (Message "Fetching project documentation...") ;;
  for_each doc_patterns
           (fun pattern all_chunks =>
              response <- requests_get pattern ;;
              if status_code response =? 200
              then ret (all_chunks ++ json response)
              else ret all_chunks)
           [].

Definition prd_search_prefix : string :=
"[SEARCHABLE: PRD Project Requirements Document Tennessee roofing Proline CRM Enzy
        door-knocking Phase 1 Phase 2 Phase 3 Core CRM weeks 1-4 contact management pipeline
        QuickBooks OAuth integration Twilio SMS gamification]

        ".

Definition claude_search_prefix : string :=
"[SEARCHABLE: Claude Code developer implementation guide Next.js Supabase
        Tennessee roofing tech stack PWA Twilio QuickBooks Vercel deployment database schema]

        ".

Definition kb_search_prefix : string :=
"[SEARCHABLE: roofing knowledge base technical CRM field operations
        mobile app photo upload QuickBooks Twilio SMS e-signature reporting Tennessee contractor]

        ".

Definition apis_search_prefix : string :=
"[SEARCHABLE: roofing APIs EagleView Hover Xactimate GAF QuickBooks
        Twilio Google Maps integration documentation Tennessee]

        ".


Definition create_searchable_content (chunk : chunk) : outcome string :=
  let original_content := c_content chunk in
  match c_source_display_name chunk with
  | None => Raise TypeError
  | Some display_name =>
      let search_prefix :=
        if Py.contains "PRD.md" display_name then prd_search_prefix
        else if Py.contains "CLAUDE.md" display_name then claude_search_prefix
        else if Py.contains "knowledge_base_roofing" display_name
             then kb_search_prefix
        else if Py.contains "roofing_industry_apis" display_name
             then apis_search_prefix
        else "" in
      Return (search_prefix ++ original_content)%string
  end.

Definition update_chunk_content (chunk_id : Z) (new_content : string)
  : io bool :=
  sv <- ask ;;
  response <- requests_patch (PatchContent chunk_id) chunk_id
                             (set_content (to_tsvector sv) chunk_id
                                          new_content) ;;
  ret (status_code response =? 204).

(** The body of the loop of [main] (lines 123-143). *)
Definition update_chunk (n : nat) (ic : nat * chunk) (counts : nat * nat)
  : io (nat * nat) :=
  let '(i, chunk) := ic in
  let '(success, failed) := counts in
  print (Progress (i + 1) n (c_source_display_name chunk)
                  (c_chunk_number chunk)) ;;
  try_except
    (new_content <- lift (create_searchable_content chunk) ;;
     updated <- update_chunk_content (c_id chunk) new_content ;;
     counts' <- (if updated
                 then print Check_mark ;; ret (S success, failed)
                 else print Update_failed ;; ret (success, S failed)) ;;
     sleep ;;
     ret counts')
    (fun e => print (Error_mark e) ;; ret (success, S failed)).

Definition main : io unit :=
  print (Message "FINAL FIX - Adding searchable terms to content") ;;
  chunks <- get_project_documents ;;
  match chunks with
  | [] => print No_project_documentation_found
  | _ :: _ =>
      print (Found (List.length chunks)) ;;
      response <- input ;;
      if negb (String.eqb (Py.lower response) "y") then print Cancelled
      else
        counts <- for_each (Py.enumerate chunks)
                           (update_chunk (List.length chunks)) (0, 0) ;;
        print (Successfully_reembedded (fst counts)) ;;
        (if 0 <? snd counts then print (Failed (snd counts)) else ret tt) ;;
        print (Message
                 "Note: Text search vectors will update automatically via database trigger") ;;
        print (Message
                 "Wait a few seconds then test with mcp__archon__rag_search_knowledge_base")
  end.

End FinalFixRestApi.

(* ================================================================== *)
(** * archon_reembedding_plan.py *)
(* ================================================================== *)

Module ArchonReembeddingPlan.

Definition generate_embedding (text : string) : io (option vector) :=
  try_except
    (response <- client_embeddings_create text ;;
     ret (Some response))
    (fun e => print (Error_generating_embedding e) ;; ret None).

(** A row of [ranked_results]; [rerank_score] is the key the reranker adds. *)
Record candidate := mkCandidate {
  cand_id : Z;
  cand_content : string;
  cand_url : string;
  cand_source_display_name : option string;
  cand_source_url : string;
  distance : Q;
  boost_factor : Q;
  rerank_score : option Q
}.

(** [doc = documents[i].copy(); doc['rerank_score'] = score]. *)
Definition with_score (doc : candidate) (score : Q) : candidate :=
  mkCandidate (cand_id doc) (cand_content doc) (cand_url doc)
              (cand_source_display_name doc) (cand_source_url doc)
              (distance doc) (boost_factor doc) (Some score).

(** [self.client.rerank(model=RERANK_MODEL, query=query, documents=doc_texts,
    top_n=top_n, return_documents=False).results] as (index, relevance_score)
    pairs. *)
Definition client_rerank (query : string) (doc_texts : list string)
  (top_n : Z) : io (list (Z * Q)) :=
  fun w => (cohere_rerank (env w) (now w) query doc_texts top_n,
            record (Rerank query doc_texts top_n) w).

Definition rerank_results (query : string) (documents : list candidate)
  (top_n : Z) : io (list candidate) :=
  match documents with
  | [] => ret []
  | _ :: _ =>
      let doc_texts := map cand_content documents in
      try_except
        (results <- client_rerank query doc_texts
                      (Z.min top_n (Z.of_nat (List.length documents))) ;;
         for_each results
                  (fun result reranked =>
                     match Py.index documents (fst result) with
                     | None => throw IndexError
                     | Some doc =>
                         ret (reranked ++ [with_score doc (snd result)])
                     end)
                  [])
        (fun e => print (Reranking_failed e) ;;
                  ret (Py.take top_n documents))
  end.

(** [CASE WHEN s.source_url LIKE 'file://%' THEN 0.8 ELSE 1.0 END]. *)
Definition boost (source_url : string) : Q :=
  if Sql.like "file://%" source_url then 0.8%Q else 1.0%Q.

(** The rows of the [FROM ... WHERE cp.embedding IS NOT NULL] of
    [ranked_results], with the computed columns. *)
Definition embedded (sv : services) (q : vector) (rows : list page)
  : list candidate :=
  flat_map (fun p => match embedding p with
                     | Some v =>
                         [mkCandidate (id p) (content p) (url p)
                                      (source_display_name p) (source_url p)
                                      (cosine_distance sv v q)
                                      (boost (source_url p)) None]
                     | None => []
                     end) rows.

(** The sort key [(cp.embedding <=> q) * CASE ... END]. *)
Definition score (c : candidate) : Q := (distance c * boost_factor c)%Q.

(** The query of [enhanced_rag_search]: Postgres refuses a negative
    [LIMIT]. *)
Definition ranked_results (sv : services) (q : vector) (limit : Z)
  (rows : list page) : outcome (list candidate) :=
  if (limit <? 0)%Z then Raise (DatabaseError "LIMIT must not be negative")
  else Return (firstn (Z.to_nat limit)
                 (Sql.order_by (fun a b => Qle_bool (score a) (score b))
                               (embedded sv q rows))).

(** [psycopg2.connect] then [cur.execute] and [cur.fetchall()] on the new
    connection: it reads the committed rows. *)
Definition connect_fetchall {A : Type}
  (query : list page -> outcome (list A)) : io (list A) :=
  fun w =>
    let w' := record (Execute Select) w in
    match pg_fault (env w) (now w) Select with
    | Some e => (Raise e, w')
    | None => (query (pages w), w')
    end.

Definition enhanced_rag_search (query : string) (match_count : Z)
  : io (list candidate) :=
  let contextual_query :=
    ("Search for project documentation about: " ++ query)%string in
  query_embedding <- client_embeddings_create contextual_query ;;
  sv <- ask ;;
  candidates <- connect_fetchall
                  (ranked_results sv query_embedding (match_count * 3)%Z) ;;
  rerank_results query candidates match_count.

(** [get_chunks_to_embed]: an empty or absent [source_filter] adds no
    condition.  The filter is pasted into the statement between quotes. *)
Definition get_chunks_to_embed (source_filter : option string)
  : io (list chunk) :=
  cur_fetchall
    (fun rows =>
       map select_columns
           (Sql.order_by
              (fun a b => (id a <=? id b)%Z)
              (filter (fun p =>
                         match source_filter with
                         | None | Some EmptyString => true
                         | Some pattern => Sql.like pattern (source_url p)
                         end) rows))).

Definition create_contextual_content (chunk : chunk) : outcome string :=
  let content := c_content chunk in
  if Py.contains "file://" (c_source_url chunk) then
    match c_source_display_name chunk with
    | None => Raise TypeError
    | Some display_name =>
        Return
          (if Py.contains "PRD" display_name then
             "Project Requirements Document (PRD): " ++ content
           else if Py.contains "CLAUDE" display_name then
             "Project Implementation Guide: " ++ content
           else if Py.contains "knowledge_base" display_name then
             "Technical Knowledge Base: " ++ content
           else if Py.contains "roofing" (Py.lower display_name) then
             "Roofing Industry Documentation: " ++ content
           else
             "Project Documentation: " ++ content)%string
    end
  else Return content.

(** [update_embedding]: no [try], no rollback. *)
Definition update_embedding (chunk_id : Z) (embedding : vector) : io unit :=
  cur_execute (UpdateEmbedding chunk_id) (set_embedding chunk_id embedding) ;;
  conn_commit.




End ArchonReembeddingPlan.

(* ================================================================== *)
(** * Sample stores and services *)
(* ================================================================== *)

Module Sample.

(** A provider that answers every text with a one-dimensional vector holding
    the length of the text. *)
Definition length_embedding (text : string) : vector :=
  [inject_Z (Z.of_nat (String.length text))].

(** Services that never fail: every fetch answers 200, every patch 204, the
    operator types [y], the reranker keeps the order it was given. *)
Definition steady : services :=
  mkServices
    (fun _ text => Return (length_embedding text))
    (fun _ _ docs top_n =>
       Return (map (fun i => (Z.of_nat i, 1%Q))
                   (seq 0 (Z.to_nat top_n))))
    (fun _ _ => Return 200)
    (fun _ _ => Return 204)
    (fun _ _ => None)
    (fun _ => "y")
    (fun text => [text])
    (fun v q => match v, q with
                | x :: _, y :: _ => Qabs (x - y)
                | _, _ => 2%Q
                end)
    String.leb.

(** The provider refuses the key. *)
Definition locked_out : services :=
  mkServices
    (fun _ _ => Raise (APIError AuthFailure "invalid api key"))
    (cohere_rerank steady) (rest_get steady) (rest_patch steady)
    (pg_fault steady) (stdin steady) (to_tsvector steady)
    (cosine_distance steady) (collate_leb steady).

(** The gateway answers every [PATCH] with [status]. *)
Definition patch_refused (status : nat) : services :=
  mkServices
    (embeddings_create steady) (cohere_rerank steady) (rest_get steady)
    (fun _ _ => Return status)
    (pg_fault steady) (stdin steady) (to_tsvector steady)
    (cosine_distance steady) (collate_leb steady).

(** The reranking provider is out of quota. *)
Definition no_rerank : services :=
  mkServices
    (embeddings_create steady)
    (fun _ _ _ _ => Raise (APIError RateLimited "quota"))
    (rest_get steady) (rest_patch steady)
    (pg_fault steady) (stdin steady) (to_tsvector steady)
    (cosine_distance steady) (collate_leb steady).

(** The provider refuses, as malformed, any text that mentions [#5#]. *)
Definition picky : services :=
  mkServices
    (fun _ text => if Py.contains "#5#" text
                   then Raise (APIError MalformedInput "malformed input")
                   else Return (length_embedding text))
    (cohere_rerank steady) (rest_get steady) (rest_patch steady)
    (pg_fault steady) (stdin steady) (to_tsvector steady)
    (cosine_distance steady) (collate_leb steady).

(** The gateway answers 503 to the fetch of the CLAUDE.md pattern. *)
Definition claude_fetch_down : services :=
  mkServices
    (embeddings_create steady) (cohere_rerank steady)
    (fun _ pattern => if String.eqb pattern "%CLAUDE.md%"
                      then Return 503 else Return 200)
    (rest_patch steady)
    (pg_fault steady) (stdin steady) (to_tsvector steady)
    (cosine_distance steady) (collate_leb steady).

Fixpoint replicate (n : nat) (c : ascii) : string :=
  match n with
  | 0 => EmptyString
  | S n' => String c (replicate n' c)
  end.

(** A text one character over the 8000 the wrappers keep. *)
Definition long_text : string := replicate (Z.to_nat 8001) "a"%char.

Definition prd_page (i : Z) (text : string) : page :=
  mkPage i text "file:///docs/PRD.md" i "src-prd" "file:///docs/PRD.md"
         (Some "PRD.md") None (Some [text]).

Definition web_page (i : Z) (text : string) (v : option vector) : page :=
  mkPage i text "https://example.com/a" i "src-web" "https://example.com/a"
         (Some "Example") v None.

Definition file_page (i : Z) (text : string) (v : option vector) : page :=
  mkPage i text "file:///docs/notes.md" i "src-file" "file:///docs/notes.md"
         (Some "notes.md") v None.

Definition claude_page (i : Z) (text : string) : page :=
  mkPage i text "file:///docs/CLAUDE.md" i "src-claude"
         "file:///docs/CLAUDE.md" (Some "CLAUDE.md") None (Some [text]).

Definition two_documents : list page :=
  [prd_page 1 "requirements"; claude_page 2 "guide"]%Z.

(** Two embedded rows and one that was never embedded. *)
Definition mixed_store : list page :=
  [file_page 1 "shingles" (Some [3%Q]); web_page 2 "gutters" None;
   web_page 3 "flashing" (Some [5%Q])]%Z.

(** Two rows of one source class at the same distance of the query [[4]],
    the larger identifier first in scan order. *)
Definition tied_store : list page :=
  [web_page 2 "ridge" (Some [6%Q]); web_page 1 "eave" (Some [6%Q])]%Z.

(** A file row and a web row at the same distance 2 of the query [[4]]. *)
Definition two_classes : list page :=
  [web_page 1 "eave" (Some [6%Q]); file_page 2 "ridge" (Some [2%Q])]%Z.

(** The candidates of [two_classes] for the query [[4]]. *)
Definition file_candidate : ArchonReembeddingPlan.candidate :=
  ArchonReembeddingPlan.mkCandidate
    2 "ridge" "file:///docs/notes.md" (Some "notes.md")
    "file:///docs/notes.md" 2 0.8 None.

Definition web_candidate : ArchonReembeddingPlan.candidate :=
  ArchonReembeddingPlan.mkCandidate
    1 "eave" "https://example.com/a" (Some "Example")
    "https://example.com/a" 2 1.0 None.

(** One chunk of the requirements document, embedded and indexed from its
    raw content. *)
Definition one_document : list page :=
  [mkPage 1 "requirements" "file:///docs/PRD.md" 1 "src-prd"
          "file:///docs/PRD.md" (Some "PRD.md") (Some [12%Q])
          (Some ["requirements"])]%Z.

(** A chunk of the requirements document whose source row has no display
    name. *)
Definition nameless_page (i : Z) (text : string) : page :=
  mkPage i text "file:///docs/PRD.md" i "src-nameless" "file:///docs/PRD.md"
         None None None.

(** One chunk of a named source, then two of a source without display
    name. *)
Definition nameless_last : list page :=
  [prd_page 1 "requirements"; nameless_page 2 "scope";
   nameless_page 3 "phases"]%Z.

Definition ten_pages : list page :=
  [prd_page 1 "#1# scope"; prd_page 2 "#2# phases"; prd_page 3 "#3# crm";
   prd_page 4 "#4# mobile"; prd_page 5 "#5# messaging";
   prd_page 6 "#6# voice"; prd_page 7 "#7# billing"; prd_page 8 "#8# maps";
   prd_page 9 "#9# reports"; prd_page 10 "#10# launch"]%Z.

End Sample.

(* ================================================================== *)
(** * Vocabulary of the properties *)
(* ================================================================== *)

(** What became of one chunk of a batch of fix_embeddings_properly.py, as
    its console line tells it. *)
Inductive verdict : Type :=
| Updated (v : vector)              (* check mark: [v] was written *)
| Not_updated (cause : option exn)  (* Update failed; [Some e]: the provider
                                       raised [e] *)
| Errored (e : exn).                (* Error: [e] *)

Definition succeeded (vd : verdict) : bool :=
  match vd with
  | Updated _ => true
  | _ => false
  end.

Definition count_succeeded (verdicts : list verdict) : nat :=
  List.length (filter succeeded verdicts).

Definition count_failed (verdicts : list verdict) : nat :=
  List.length (filter (fun vd => negb (succeeded vd)) verdicts).

(** The chunks of a batch that failed, each with its verdict.  The script
    keeps no such list: it is read off the console blocks, to state the
    count. *)
Definition failures (chunks : list chunk) (verdicts : list verdict)
  : list (chunk * verdict) :=
  filter (fun cv => negb (succeeded (snd cv))) (combine chunks verdicts).

(** The console lines of the chunk at position [i] of a batch of [n]. *)
Definition console_block (n i : nat) (c : chunk) (vd : verdict) : list line :=
  Progress (i + 1) n (c_source_display_name c) (c_chunk_number c)
  :: match vd with
     | Updated _ => [Check_mark]
     | Not_updated None => [Update_failed]
     | Not_updated (Some e) => [Embedding_error e; Update_failed]
     | Errored e => [Error_mark e]
     end.

Fixpoint console (n i : nat) (chunks : list chunk) (verdicts : list verdict)
  : list line :=
  match chunks, verdicts with
  | c :: chunks', vd :: verdicts' =>
      console_block n i c vd ++ console n (S i) chunks' verdicts'
  | _, _ => []
  end.

(** The store after the batch: the embeddings of the updated chunks are
    replaced, in order; nothing else changes. *)
Fixpoint written (chunks : list chunk) (verdicts : list verdict)
  (rows : list page) : list page :=
  match chunks, verdicts with
  | c :: chunks', vd :: verdicts' =>
      written chunks' verdicts'
              (match vd with
               | Updated v => set_embedding (c_id c) v rows
               | _ => rows
               end)
  | _, _ => rows
  end.

(** A verdict is backed by what the outside parties answered. *)
Definition justified (sv : services) (c : chunk) (vd : verdict) : Prop :=
  match vd with
  | Updated v =>
      exists text t t',
        FixEmbeddingsProperly.create_AGGRESSIVE_contextual_content c
        = Return text
        /\ embeddings_create sv t (Py.slice_to 8000%Z text) = Return v
        /\ v <> []
        /\ rest_patch sv t' (c_id c) = Return 204
  | Not_updated (Some e) =>
      exists text t,
        FixEmbeddingsProperly.create_AGGRESSIVE_contextual_content c
        = Return text
        /\ embeddings_create sv t (Py.slice_to 8000%Z text) = Raise e
  | Not_updated None =>
      exists text t,
        FixEmbeddingsProperly.create_AGGRESSIVE_contextual_content c
        = Return text
        /\ (embeddings_create sv t (Py.slice_to 8000%Z text) = Return []
            \/ exists v t' status,
                embeddings_create sv t (Py.slice_to 8000%Z text) = Return v
                /\ rest_patch sv t' (c_id c) = Return status
                /\ status <> 204)
  | Errored e =>
      FixEmbeddingsProperly.create_AGGRESSIVE_contextual_content c = Raise e
      \/ exists t', rest_patch sv t' (c_id c) = Raise e
  end.

(** A candidate that is a row of the store with a stored embedding. *)
Definition drawn_from (rows : list page) (r : ArchonReembeddingPlan.candidate)
  : Prop :=
  exists (p : page) (v : vector),
    In p rows
    /\ embedding p = Some v
    /\ ArchonReembeddingPlan.cand_id r = id p
    /\ ArchonReembeddingPlan.cand_content r = content p
    /\ ArchonReembeddingPlan.cand_url r = url p
    /\ ArchonReembeddingPlan.cand_source_url r = source_url p
    /\ ArchonReembeddingPlan.cand_source_display_name r
       = source_display_name p.

(** [embedding IS NOT NULL]. *)
Definition has_embedding (p : page) : bool :=
  match embedding p with
  | Some _ => true
  | None => false
  end.

(** [a] comes before [b] in [l]. *)
Definition ranks_before {A : Type} (a b : A) (l : list A) : Prop :=
  exists l1 l2 l3, l = l1 ++ a :: l2 ++ b :: l3.

(** A property of the store that a run may or may not keep: it speaks of
    the committed rows and of the rows of the open transaction. *)
Definition preserves {A : Type} (I : list page -> option (list page) -> Prop)
  (m : io A) : Prop :=
  forall w, I (pages w) (txn w) -> I (pages (snd (m w))) (txn (snd (m w))).

(** The raw content of every row, committed or pending, is that of
    [rows0]. *)
Definition content_kept (rows0 : list page) (rows : list page)
  (pending : option (list page)) : Prop :=
  map content rows = map content rows0
  /\ match pending with
     | Some rows' => map content rows' = map content rows0
     | None => True
     end.

(** The two index fields of the row [p], against the row [p0] it was before
    a pass over the rows [rows0]: nothing else differs, and either both
    fields are as they were, or both come from one augmented text, that of a
    chunk of [rows0] with the identifier of the row: the embedding from its
    first 8000 characters, the search vector from all of it. *)
Definition both_or_neither (sv : services) (rows0 : list page)
  (p0 p : page) : Prop :=
  select_columns p = select_columns p0
  /\ ((embedding p = embedding p0
       /\ content_search_vector p = content_search_vector p0)
      \/ exists (p1 : page) (text : string) (v : vector) (t : nat),
          In p1 rows0
          /\ id p1 = id p0
          /\ FixSearchProperlyFinal.create_MAXIMUM_contextual_content
               (select_columns p1) = Return text
          /\ embeddings_create sv t (Py.slice_to 8000%Z text) = Return v
          /\ embedding p = Some v
          /\ content_search_vector p = Some (to_tsvector sv text)).

(** Services whose answers do not depend on when they are asked: the
    provider is deterministic, the store and the operator behave the same
    on every run. *)
Definition time_independent (sv : services) : Prop :=
  (forall t t' text, embeddings_create sv t text = embeddings_create sv t' text)
  /\ (forall t t' s, pg_fault sv t s = pg_fault sv t' s)
  /\ (forall t t', stdin sv t = stdin sv t').

(** The row [p] with its embedding replaced by [v], when there is one. *)
Definition patch_embedding (o : option vector) (p : page) : page :=
  match o with
  | Some v => mkPage (id p) (content p) (url p) (chunk_number p)
                     (source_id p) (source_url p) (source_display_name p)
                     (Some v) (content_search_vector p)
  | None => p
  end.

(** What one turn of the loop of [reembed_project_docs] does with a chunk
    under time-independent services: [None] when the loop stops there (the
    contextualizer raises, or the write is refused and the rollback raises),
    else the vector it commits, if any. *)
Definition attempt (sv : services) (c : chunk) : option (option vector) :=
  match ReembedArchon.create_contextual_content c with
  | Raise _ => None
  | Return text =>
      match embeddings_create sv 0 (Py.slice_to 8000%Z text) with
      | Return (x :: v) =>
          match pg_fault sv 0 (UpdateEmbedding (c_id c)),
                pg_fault sv 0 Commit with
          | None, None => Some (Some (x :: v))
          | _, _ =>
              match pg_fault sv 0 Rollback with
              | None => Some None
              | Some _ => None
              end
          end
      | _ => Some None
      end
  end.

(** The last vector a pass over [chunks] commits for the identifier [i]. *)
Fixpoint last_write (sv : services) (chunks : list chunk) (i : Z)
  : option vector :=
  match chunks with
  | [] => None
  | c :: chunks' =>
      match attempt sv c with
      | None => None
      | Some o =>
          match last_write sv chunks' i with
          | Some v => Some v
          | None => if (i =? c_id c)%Z then o else None
          end
      end
  end.

(** The committed rows after [reembed_project_docs], as a function of the
    committed rows before it, under time-independent services. *)
Definition reembed_effect (sv : services) (rows : list page) : list page :=
  match pg_fault sv 0 Select with
  | Some _ => rows
  | None =>
      let chunks :=
        map select_columns
            (Sql.order_by (ReembedArchon.doc_order sv)
                          (filter ReembedArchon.is_project_doc rows)) in
      match chunks with
      | [] => rows
      | _ :: _ =>
          if negb (String.eqb (Py.lower (stdin sv 0)) "y") then rows
          else map (fun p => patch_embedding (last_write sv chunks (id p)) p)
                   rows
      end
  end.

(** How a run stops inside an [except] handler: the statement [st] was
    refused, the handler called [conn.rollback()], and the rollback raised
    [e].  These are the last two calls of the trace [tr]. *)
Definition rollback_raised (sv : services) (tr : list call) (e : exn)
  : Prop :=
  exists (tr0 : list call) (st : statement) (e0 : exn),
    tr = tr0 ++ [Execute st; Execute Rollback]
    /\ st <> Rollback
    /\ pg_fault sv (List.length tr0) st = Some e0
    /\ pg_fault sv (S (List.length tr0)) Rollback = Some e.



(* ================================================================== *)
(** * Running the monad *)
(* ================================================================== *)

Unset Implicit Arguments.

Lemma bind_run {A B : Type} (m : io A) (k : A -> io B) (w : world) :
  bind m k w = match m w with
               | (Return a, w') => k a w'
               | (Raise e, w') => (Raise e, w')
               end.
Proof. reflexivity. Qed.

Lemma substring_length (n : nat) (s : string) :
  String.length (String.substring 0 n s) = Nat.min n (String.length s).
Proof.
  revert n; induction s as [|c s IH]; intros [|n]; simpl; auto.
Qed.

Lemma slice_to_length (stop : Z) (s : string) :
  (0 <= stop)%Z ->
  String.length (Py.slice_to stop s) = Nat.min (Z.to_nat stop) (String.length s).
Proof.
  intros H. unfold Py.slice_to.
  destruct (Z.ltb_spec stop 0); [lia|]. apply substring_length.
Qed.

Lemma reembed_archon_generate_embedding_run (text : string) (w : world) :
  ReembedArchon.generate_embedding text w =
  match embeddings_create (env w) (now w) (Py.slice_to 8000%Z text) with
  | Return v =>
      (Return (Some v), record (EmbeddingsCreate (Py.slice_to 8000%Z text)) w)
  | Raise e =>
      (Return None,
       mkWorld (env w) (pages w) (txn w)
               (trace w ++ [EmbeddingsCreate (Py.slice_to 8000%Z text)])
               (stdout w ++ [Error_generating_embedding e]))
  end.
Proof.
  unfold ReembedArchon.generate_embedding, try_except, bind,
    client_embeddings_create, ret, print.
  destruct (embeddings_create _ _ _); reflexivity.
Qed.

Lemma fix_embeddings_generate_embedding_run (text : string) (w : world) :
  FixEmbeddingsProperly.generate_embedding text w =
  match embeddings_create (env w) (now w) (Py.slice_to 8000%Z text) with
  | Return v =>
      (Return (Some v), record (EmbeddingsCreate (Py.slice_to 8000%Z text)) w)
  | Raise e =>
      (Return None,
       mkWorld (env w) (pages w) (txn w)
               (trace w ++ [EmbeddingsCreate (Py.slice_to 8000%Z text)])
               (stdout w ++ [Embedding_error e]))
  end.
Proof.
  unfold FixEmbeddingsProperly.generate_embedding, try_except, bind,
    client_embeddings_create, ret, print.
  destruct (embeddings_create _ _ _); reflexivity.
Qed.

Lemma plan_generate_embedding_run (text : string) (w : world) :
  ArchonReembeddingPlan.generate_embedding text w =
  match embeddings_create (env w) (now w) text with
  | Return v => (Return (Some v), record (EmbeddingsCreate text) w)
  | Raise e =>
      (Return None,
       mkWorld (env w) (pages w) (txn w)
               (trace w ++ [EmbeddingsCreate text])
               (stdout w ++ [Error_generating_embedding e]))
  end.
Proof.
  unfold ArchonReembeddingPlan.generate_embedding, try_except, bind,
    client_embeddings_create, ret, print.
  destruct (embeddings_create _ _ _); reflexivity.
Qed.

Lemma substring_prefix (n : nat) (s : string) :
  String.prefix (String.substring 0 n s) s = true.
Proof.
  revert n; induction s as [|c s IH]; intros [|n]; simpl; auto.
  destruct (ascii_dec c c) as [_|Hc]; [apply IH | congruence].
Qed.

(* ================================================================== *)
(** * Embedding Generator: input length *)
(* ================================================================== *)

(** C4, as stated, fails: a text longer than the 8000 characters the wrappers
    keep is not rejected.  The call is made, with the text cut.  Input:
    [Sample.long_text], 8001 characters, with the services [Sample.steady]. *)
Lemma long_input_is_sent_not_rejected :
  ~ (forall (text : string) (w : world),
        (8000 < Z.of_nat (String.length text))%Z ->
        trace (snd (ReembedArchon.generate_embedding text w)) = trace w
        /\ forall v,
            fst (ReembedArchon.generate_embedding text w) <> Return (Some v)).
Proof.
  intros H.
  destruct (H Sample.long_text (connect Sample.steady [])) as [Htrace _].
  - vm_compute. reflexivity.
  - vm_compute in Htrace. discriminate Htrace.
Qed.

(** C4, amended: [generate_embedding] of reembed_archon.py and of
    fix_embeddings_properly.py never rejects a text for its length.  It sends
    the first 8000 characters of the text (the whole text when shorter) to
    the provider in one call, and returns what the provider answers for that
    prefix: the vector, or [None] when the call raises. *)
Theorem generate_embedding_truncates_to_8000 (text : string) (w : world) :
  let sent := Py.slice_to 8000%Z text in
  String.prefix sent text = true
  /\ String.length sent = Nat.min (Z.to_nat 8000) (String.length text)
  /\ trace (snd (ReembedArchon.generate_embedding text w))
     = trace w ++ [EmbeddingsCreate sent]
  /\ fst (ReembedArchon.generate_embedding text w)
     = match embeddings_create (env w) (now w) sent with
       | Return v => Return (Some v)
       | Raise _ => Return None
       end
  /\ trace (snd (FixEmbeddingsProperly.generate_embedding text w))
     = trace w ++ [EmbeddingsCreate sent]
  /\ fst (FixEmbeddingsProperly.generate_embedding text w)
     = match embeddings_create (env w) (now w) sent with
       | Return v => Return (Some v)
       | Raise _ => Return None
       end.
Proof.
  cbv zeta.
  rewrite reembed_archon_generate_embedding_run,
    fix_embeddings_generate_embedding_run.
  split; [apply substring_prefix|].
  split; [apply slice_to_length; lia|].
  destruct (embeddings_create _ _ _); simpl; auto.
Qed.

(* ================================================================== *)
(** * Embedding Generator: retries and errors *)
(* ================================================================== *)

(** C5, as stated, fails: an error of the provider does not propagate.
    The wrapper catches every exception of the client call, prints it and
    returns [None]; no error reaches the caller, and so no kind and no
    message, for an error that is not transient no more than for another.
    Input: the text [PRD] with the services [Sample.locked_out], whose
    provider refuses the key: the result is [None], not an exception. *)
Lemma provider_error_does_not_propagate :
  ~ (forall (text : string) (w : world) (k : error_kind) (msg : string),
        embeddings_create (env w) (now w) (Py.slice_to 8000%Z text)
        = Raise (APIError k msg) ->
        transient k = false ->
        exists e, fst (ReembedArchon.generate_embedding text w) = Raise e).
Proof.
  intros H.
  destruct (H "PRD"%string (connect Sample.locked_out []) AuthFailure
              "invalid api key"%string eq_refl eq_refl) as (e & He).
  vm_compute in He. discriminate He.
Qed.

(** C5, amended: [generate_embedding] of reembed_archon.py and of
    archon_reembedding_plan.py hands the text to the client in exactly one
    call of [client.embeddings.create]; what the client does inside that
    call, retries included, is the library's and shows here only as the
    outcome of the call.  A vector is returned as it is; any exception of
    the call, transient or not, is caught, printed, and turned into [None],
    so that nothing propagates and neither kind nor message reaches the
    caller. *)
Theorem generate_embedding_calls_once (text : string) (w : world) :
  let sent := Py.slice_to 8000%Z text in
  trace (snd (ReembedArchon.generate_embedding text w))
  = trace w ++ [EmbeddingsCreate sent]
  /\ match embeddings_create (env w) (now w) sent with
     | Return v =>
         fst (ReembedArchon.generate_embedding text w) = Return (Some v)
         /\ stdout (snd (ReembedArchon.generate_embedding text w)) = stdout w
     | Raise e =>
         fst (ReembedArchon.generate_embedding text w) = Return None
         /\ stdout (snd (ReembedArchon.generate_embedding text w))
            = stdout w ++ [Error_generating_embedding e]
     end
  /\ trace (snd (ArchonReembeddingPlan.generate_embedding text w))
     = trace w ++ [EmbeddingsCreate text]
  /\ match embeddings_create (env w) (now w) text with
     | Return v =>
         fst (ArchonReembeddingPlan.generate_embedding text w)
         = Return (Some v)
         /\ stdout (snd (ArchonReembeddingPlan.generate_embedding text w))
            = stdout w
     | Raise e =>
         fst (ArchonReembeddingPlan.generate_embedding text w) = Return None
         /\ stdout (snd (ArchonReembeddingPlan.generate_embedding text w))
            = stdout w ++ [Error_generating_embedding e]
     end.
Proof.
  cbv zeta.
  rewrite reembed_archon_generate_embedding_run, plan_generate_embedding_run.
  destruct (embeddings_create (env w) (now w) (Py.slice_to 8000%Z text));
    destruct (embeddings_create (env w) (now w) text); simpl; auto.
Qed.

(* ================================================================== *)
(** * Re-Embedding Orchestrator: failure isolation and counters *)
(* ================================================================== *)

Lemma count_succeeded_failed (verdicts : list verdict) :
  count_succeeded verdicts + count_failed verdicts = List.length verdicts.
Proof.
  unfold count_succeeded, count_failed.
  induction verdicts as [|vd vds IH]; simpl; auto.
  destruct (succeeded vd); simpl; lia.
Qed.

Lemma count_failed_failures (chunks : list chunk) (verdicts : list verdict) :
  List.length verdicts = List.length chunks ->
  count_failed verdicts = List.length (failures chunks verdicts).
Proof.
  unfold count_failed, failures.
  revert verdicts; induction chunks as [|c cs IH]; intros [|vd vds] H;
    simpl in *; try discriminate; auto.
  destruct (succeeded vd); simpl; auto.
Qed.

Lemma fix_embeddings_update_embedding_run (chunk_id : Z) (v : vector)
  (w : world) :
  FixEmbeddingsProperly.update_embedding chunk_id v w =
  match rest_patch (env w) (now w) chunk_id with
  | Raise e => (Raise e, record (PatchEmbedding chunk_id) w)
  | Return status =>
      (Return (status =? 204),
       if status =? 204
       then mkWorld (env w) (set_embedding chunk_id v (pages w)) (txn w)
                    (trace w ++ [PatchEmbedding chunk_id]) (stdout w)
       else record (PatchEmbedding chunk_id) w)
  end.
Proof.
  unfold FixEmbeddingsProperly.update_embedding, bind, requests_patch, ret.
  destruct (rest_patch _ _ _) as [status|e]; simpl; auto.
Qed.

Lemma reembed_chunk_run (n i : nat) (c : chunk) (s f : nat) (w : world) :
  exists (vd : verdict) (w' : world),
    FixEmbeddingsProperly.reembed_chunk n (i, c) (s, f) w
    = (Return (if succeeded vd then (S s, f) else (s, S f)), w')
    /\ env w' = env w
    /\ stdout w' = stdout w ++ console_block n i c vd
    /\ pages w' = match vd with
                  | Updated v => set_embedding (c_id c) v (pages w)
                  | _ => pages w
                  end
    /\ justified (env w) c vd.
Proof.
  unfold FixEmbeddingsProperly.reembed_chunk.
  rewrite bind_run. unfold print at 1. unfold try_except.
  rewrite bind_run. unfold lift at 1.
  destruct (FixEmbeddingsProperly.create_AGGRESSIVE_contextual_content c)
    as [text|e] eqn:Hctx.
  2:{ exists (Errored e). eexists. split; [reflexivity|].
      simpl. rewrite <- app_assoc. simpl. auto 6. }
  rewrite bind_run, fix_embeddings_generate_embedding_run. cbn [env now trace].
  destruct (embeddings_create (env w) _ (Py.slice_to 8000%Z text))
    as [v|e] eqn:Hemb.
  2:{ exists (Not_updated (Some e)). eexists. split; [reflexivity|].
      simpl. repeat rewrite <- app_assoc. simpl.
      repeat split; auto. exists text. eexists. eauto. }
  destruct v as [|x v].
  { exists (Not_updated None). eexists. split; [reflexivity|].
    simpl. repeat rewrite <- app_assoc. simpl.
    repeat split; auto. exists text. eexists. eauto. }
  rewrite bind_run. cbn [truthy].
  rewrite fix_embeddings_update_embedding_run. cbn [env now trace record].
  destruct (rest_patch (env w) _ (c_id c)) as [status|e] eqn:Hpatch.
  2:{ exists (Errored e). eexists. split; [reflexivity|].
      simpl. repeat rewrite <- app_assoc. simpl.
      repeat split; auto. right. eauto. }
  destruct (status =? 204) eqn:Hs.
  - exists (Updated (x :: v)). eexists. split; [reflexivity|].
    simpl. repeat rewrite <- app_assoc. simpl.
    repeat split; auto. apply Nat.eqb_eq in Hs; subst status.
    exists text. do 2 eexists. repeat split; eauto. discriminate.
  - exists (Not_updated None). eexists. split; [reflexivity|].
    simpl. repeat rewrite <- app_assoc. simpl.
    repeat split; auto. apply Nat.eqb_neq in Hs.
    exists text. eexists. split; auto. right. eauto 6.
Qed.

Lemma reembed_loop_run (n : nat) (chunks : list chunk) :
  forall (i s f : nat) (w : world),
  exists (verdicts : list verdict) (w' : world),
    for_each (combine (seq i (List.length chunks)) chunks)
             (FixEmbeddingsProperly.reembed_chunk n) (s, f) w
    = (Return (s + count_succeeded verdicts, f + count_failed verdicts), w')
    /\ List.length verdicts = List.length chunks
    /\ env w' = env w
    /\ stdout w' = stdout w ++ console n i chunks verdicts
    /\ pages w' = written chunks verdicts (pages w)
    /\ Forall2 (justified (env w)) chunks verdicts.
Proof.
  induction chunks as [|c chunks IH]; intros i s f w.
  - exists [], w. simpl. unfold ret, count_succeeded, count_failed. simpl.
    rewrite !Nat.add_0_r, app_nil_r. auto 7.
  - destruct (reembed_chunk_run n i c s f w)
      as (vd & w1 & Hrun & Henv & Hout & Hpages & Hj).
    destruct (succeeded vd) eqn:Hvd.
    + destruct (IH (S i) (S s) f w1)
        as (vds & w' & Hloop & Hlen & Henv' & Hout' & Hpages' & Hjs).
      exists (vd :: vds), w'.
      cbn [List.length seq combine for_each]. rewrite bind_run, Hrun, Hloop.
      unfold count_succeeded, count_failed in *.
      cbn [filter negb console written]. rewrite Hvd.
      cbn [List.length negb].
      repeat split.
      * do 3 f_equal; lia.
      * lia.
      * congruence.
      * rewrite Hout', Hout, <- app_assoc. reflexivity.
      * rewrite Hpages', Hpages. reflexivity.
      * constructor; [assumption | rewrite <- Henv; assumption].
    + destruct (IH (S i) s (S f) w1)
        as (vds & w' & Hloop & Hlen & Henv' & Hout' & Hpages' & Hjs).
      exists (vd :: vds), w'.
      cbn [List.length seq combine for_each]. rewrite bind_run, Hrun, Hloop.
      unfold count_succeeded, count_failed in *.
      cbn [filter negb console written]. rewrite Hvd.
      cbn [List.length negb].
      repeat split.
      * do 3 f_equal; lia.
      * lia.
      * congruence.
      * rewrite Hout', Hout, <- app_assoc. reflexivity.
      * rewrite Hpages', Hpages. reflexivity.
      * constructor; [assumption | rewrite <- Henv; assumption].
Qed.

Lemma reembed_chunks_returns (chunks : list chunk) (w : world) :
  exists (verdicts : list verdict) (w' : world),
    FixEmbeddingsProperly.reembed_chunks chunks w
    = (Return (count_succeeded verdicts, count_failed verdicts), w').
Proof.
  destruct (reembed_loop_run (List.length chunks) chunks 0 0 0 w)
    as (vds & w' & Hloop & _).
  exists vds, w'. exact Hloop.
Qed.

(** C1, as stated, fails on what is recorded for a failed chunk.  The
    scripts keep no list of failures; the record is the console.  In
    fix_embeddings_properly.py a chunk whose [PATCH] the gateway refuses
    leaves [Update failed] after its progress line and nothing else: neither
    the status nor any other reason, nor the identifier of the chunk.
    Input: the store [Sample.two_documents], once with a gateway that
    answers 500 to every [PATCH] and once with one that answers 403: the two
    runs print the same lines. *)
Lemma refused_update_is_recorded_without_reason :
  let w500 := connect (Sample.patch_refused 500) Sample.two_documents in
  let w403 := connect (Sample.patch_refused 403) Sample.two_documents in
  stdout (snd (FixEmbeddingsProperly.main w500))
  = stdout (snd (FixEmbeddingsProperly.main w403))
  /\ fst (FixEmbeddingsProperly.main w500) = Return tt
  /\ filter (fun l => match l with
                      | Progress _ _ _ _ | Check_mark | Update_failed
                      | Error_mark _ | Embedding_error _
                      | Successfully_reembedded _ | Failed _ => true
                      | _ => false
                      end) (stdout (snd (FixEmbeddingsProperly.main w500)))
     = [Progress 1 2 (Some "PRD.md") 1; Update_failed;
        Progress 2 2 (Some "CLAUDE.md") 2; Update_failed;
        Successfully_reembedded 0; Failed 2].
Proof. vm_compute. repeat split. Qed.

(** The loop of [reembed_project_docs] in reembed_archon.py has no
    [try] of its own: what the provider or the store raise is caught inside
    [generate_embedding] and [update_embedding] and counted.  Two things
    leave the loop: an exception of the contextualizer (a source without
    display name), and an exception of the rollback in the handler of
    [update_embedding]. *)
Lemma reembed_archon_chunk_counts (c : chunk) (s f : nat) (w : world) :
  env (snd (ReembedArchon.reembed_chunk c (s, f) w)) = env w
  /\ match fst (ReembedArchon.reembed_chunk c (s, f) w) with
     | Return (s', f') => s' + f' = S (s + f)
     | Raise e =>
         (e = TypeError /\ c_source_display_name c = None)
         \/ rollback_raised
              (env w) (trace (snd (ReembedArchon.reembed_chunk c (s, f) w))) e
     end.
Proof.
  remember (ReembedArchon.reembed_chunk c (s, f) w) as r eqn:Hr.
  destruct w as [sv rows pending tr out].
  unfold ReembedArchon.reembed_chunk, ReembedArchon.create_contextual_content
    in Hr.
  destruct (c_source_display_name c) as [name|];
    [|subst r; unfold bind, lift; cbn [fst snd env]; auto].
  unfold ReembedArchon.generate_embedding, ReembedArchon.update_embedding,
    bind, try_except, lift, print, client_embeddings_create, cur_execute,
    conn_commit, conn_rollback, sleep, ret, record, now in Hr.
  cbn [env pages txn trace stdout fst snd] in Hr.
  destruct (embeddings_create _ _ _) as [[|x v]|e];
    cbn [env pages txn trace stdout fst snd truthy] in Hr;
    try (subst r; cbn [fst snd env]; split; [reflexivity|simpl; lia]).
  destruct (pg_fault sv _ (UpdateEmbedding _)) as [e0|] eqn:Hupdate;
    cbn [env pages txn trace stdout fst snd] in Hr.
  { destruct (pg_fault sv _ Rollback) as [e|] eqn:Hrollback;
      cbn [env pages txn trace stdout fst snd] in Hr;
      subst r; cbn [fst snd env trace]; (split; [reflexivity|]);
      [|simpl; lia].
    right. eexists _, _, e0. rewrite <- app_assoc.
    split; [reflexivity|]. split; [discriminate|].
    split; [exact Hupdate|].
    rewrite length_app, Nat.add_1_r in Hrollback. exact Hrollback. }
  destruct (pg_fault sv _ Commit) as [e0|] eqn:Hcommit;
    cbn [env pages txn trace stdout fst snd] in Hr.
  { destruct (pg_fault sv _ Rollback) as [e|] eqn:Hrollback;
      cbn [env pages txn trace stdout fst snd] in Hr;
      subst r; cbn [fst snd env trace]; (split; [reflexivity|]);
      [|simpl; lia].
    right. eexists _, _, e0. rewrite <- app_assoc.
    split; [reflexivity|]. split; [discriminate|].
    split; [exact Hcommit|].
    rewrite length_app, Nat.add_1_r in Hrollback. exact Hrollback. }
  subst r. cbn [fst snd env]. split; [reflexivity|simpl; lia].
Qed.

Lemma reembed_archon_loop_returns :
  forall (chunks : list chunk) (s f : nat) (w : world),
    (forall c, In c chunks -> c_source_display_name c <> None) ->
    (forall t, pg_fault (env w) t Rollback = None) ->
    exists s' f' w',
      for_each chunks ReembedArchon.reembed_chunk (s, f) w
      = (Return (s', f'), w')
      /\ s' + f' = s + f + List.length chunks.
Proof.
  induction chunks as [|c chunks IH]; intros s f w Hnamed Hrollback.
  - exists s, f, w. simpl. split; [reflexivity|lia].
  - cbn [for_each]. rewrite bind_run.
    destruct (reembed_archon_chunk_counts c s f w) as [Henv Hc].
    destruct (ReembedArchon.reembed_chunk c (s, f) w) as [[[s1 f1]|e] w1];
      cbn [fst snd] in *.
    + destruct (IH s1 f1 w1) as (s2 & f2 & w2 & Hrun & Hsum).
      * intros c' Hc'. apply Hnamed. right. exact Hc'.
      * intros t. rewrite Henv. apply Hrollback.
      * exists s2, f2, w2. split; [exact Hrun|]. cbn [List.length]. lia.
    + exfalso. destruct Hc as [(_ & Hnone)|(tr0 & st & e0 & _ & _ & _ & Hr)].
      * apply (Hnamed c); [left; reflexivity|exact Hnone].
      * rewrite Hrollback in Hr. discriminate.
Qed.

(** C1, amended: the batch loop of [main] in fix_embeddings_properly.py
    never raises and never stops early.  Whatever the provider and the
    gateway answer, every chunk of the batch gets exactly one verdict and
    one console block: a line with its position, document and chunk number,
    then a check mark, or [Update failed], or [Error:] with the exception
    when the contextualizer or the transport raised.  The provider's
    exception is printed before [Update failed]; a refused [PATCH] or an
    empty vector leaves no reason on the console.  The counters the loop
    ends with are the number of updated chunks and the number of failed
    ones, their sum is the size of the batch, and the store differs from the
    initial one exactly by the embeddings of the updated chunks.

    In the loop of [reembed_project_docs] in reembed_archon.py the failures
    of the provider and of the store are caught inside [generate_embedding]
    and [update_embedding] and counted: over a batch whose sources all have
    a display name, and as long as the rollbacks go through, the loop
    returns with counters whose sum is the size of the batch. *)
Theorem reembed_isolates_chunk_failures (chunks : list chunk) (w : world) :
  (exists (verdicts : list verdict) (w' : world),
      FixEmbeddingsProperly.reembed_chunks chunks w
      = (Return (count_succeeded verdicts, count_failed verdicts), w')
      /\ List.length verdicts = List.length chunks
      /\ count_succeeded verdicts + count_failed verdicts
         = List.length chunks
      /\ count_failed verdicts = List.length (failures chunks verdicts)
      /\ stdout w'
         = stdout w ++ console (List.length chunks) 0 chunks verdicts
      /\ pages w' = written chunks verdicts (pages w)
      /\ Forall2 (justified (env w)) chunks verdicts)
  /\ ((forall c, In c chunks -> c_source_display_name c <> None) ->
      (forall t, pg_fault (env w) t Rollback = None) ->
      exists (success_count error_count : nat) (w' : world),
        for_each chunks ReembedArchon.reembed_chunk (0, 0) w
        = (Return (success_count, error_count), w')
        /\ success_count + error_count = List.length chunks).
Proof.
  split.
  - destruct (reembed_loop_run (List.length chunks) chunks 0 0 0 w)
      as (vds & w' & Hloop & Hlen & _ & Hout & Hpages & Hjs).
    exists vds, w'. unfold FixEmbeddingsProperly.reembed_chunks, Py.enumerate.
    rewrite Hloop. simpl. repeat split; auto.
    + rewrite count_succeeded_failed. assumption.
    + apply count_failed_failures. assumption.
  - intros Hnamed Hrollback.
    destruct (reembed_archon_loop_returns chunks 0 0 w Hnamed Hrollback)
      as (s' & f' & w' & Hrun & Hsum).
    exists s', f', w'. split; [exact Hrun|exact Hsum].
Qed.

(** The case the loop of reembed_archon.py misses and the loop of
    fix_embeddings_properly.py covers: the contextualizer is called outside
    any [try].  On the store [Sample.nameless_last] with the services
    [Sample.steady] the first chunk is re-embedded; at the second, whose
    source has no display name, the run raises [TypeError]: the third chunk
    is never attempted and no summary is printed. *)
Example nameless_source_aborts_reembed_archon :
  let w := connect Sample.steady Sample.nameless_last in
  let w' := snd (ReembedArchon.reembed_project_docs w) in
  fst (ReembedArchon.reembed_project_docs w) = Raise TypeError
  /\ filter (fun l => match l with
                      | Successfully_reembedded _ | Failed _ => true
                      | _ => false
                      end) (stdout w') = []
  /\ List.length (filter (fun c => match c with
                                   | EmbeddingsCreate _ => true
                                   | _ => false
                                   end) (trace w')) = 1
  /\ map (fun p => (id p, truthy (embedding p))) (pages w')
     = [(1, true); (2, false); (3, false)]%Z.
Proof. vm_compute. repeat split. Qed.

(** The scenario of the specification: ten chunks, the provider refuses the
    fifth with an error that is not transient.  The run ends normally with 9
    updated and 1 failed, the console names the fifth chunk with the reason,
    and the nine others carry their new embedding. *)
Example ten_chunks_one_refused :
  let w := connect Sample.picky Sample.ten_pages in
  let w' := snd (FixEmbeddingsProperly.main w) in
  fst (FixEmbeddingsProperly.main w) = Return tt
  /\ filter (fun l => match l with
                      | Successfully_reembedded _ | Failed _
                      | Embedding_error _ => true
                      | _ => false
                      end) (stdout w')
     = [Embedding_error (APIError MalformedInput "malformed input");
        Successfully_reembedded 9; Failed 1]
  /\ map (fun p => (id p, truthy (embedding p))) (pages w')
     = [(1, true); (2, true); (3, true); (4, true); (5, false); (6, true);
        (7, true); (8, true); (9, true); (10, true)]%Z.
Proof. vm_compute. repeat split. Qed.

(* ================================================================== *)
(** * Re-Embedding Orchestrator: a fetch that fails *)
(* ================================================================== *)

(** The chunks the fetch loop collects, given the status of each request. *)
Lemma fetch_loop_run :
  forall (patterns : list string) (statuses : list nat) (acc : list chunk)
         (w : world),
    List.length statuses = List.length patterns ->
    (forall k pattern status,
        nth_error patterns k = Some pattern ->
        nth_error statuses k = Some status ->
        rest_get (env w) (now w + k) pattern = Return status) ->
    for_each patterns
             (fun pattern all_chunks =>
                response <- requests_get pattern ;;
                if status_code response =? 200
                then ret (all_chunks ++ json response)
                else ret all_chunks)
             acc w
    = (Return (acc ++ flat_map
                        (fun ps => if snd ps =? 200
                                   then rest_select (fst ps) (pages w)
                                   else [])
                        (combine patterns statuses)),
       mkWorld (env w) (pages w) (txn w) (trace w ++ map Get patterns)
               (stdout w)).
Proof.
  induction patterns as [|p patterns IH]; intros statuses acc w Hlen H.
  - destruct w; simpl. unfold ret. rewrite !app_nil_r. reflexivity.
  - destruct statuses as [|status statuses]; [discriminate|].
    cbn [for_each]. rewrite bind_run, bind_run. unfold requests_get at 1.
    rewrite <- (Nat.add_0_r (now w)), (H 0 p status eq_refl eq_refl).
    cbn [status_code json combine flat_map fst snd].
    assert (Hnext :
              forall k pattern st,
                nth_error patterns k = Some pattern ->
                nth_error statuses k = Some st ->
                rest_get (env (record (Get p) w))
                         (now (record (Get p) w) + k) pattern = Return st).
    { intros k pattern st Hp Hs. unfold now, record. cbn [env trace].
      rewrite length_app. cbn [List.length].
      replace (List.length (trace w) + 1 + k) with (now w + S k)
        by (unfold now; lia).
      apply H; assumption. }
    destruct (status =? 200); unfold ret at 1;
      rewrite (IH statuses _ (record (Get p) w)); auto;
      unfold record; cbn [env pages txn trace stdout map];
      rewrite <- !app_assoc; reflexivity.
Qed.

Lemma last_cons {A : Type} (a d : A) (l : list A) :
  last (a :: l) d = last l a.
Proof.
  revert a d. induction l as [|b l IH]; intros a d; [reflexivity|].
  change (last (a :: b :: l) d) with (last (b :: l) d).
  rewrite (IH b d), (IH b a). reflexivity.
Qed.

(** The same loop in reembed_all_project_docs.py, which also keeps the
    status of the last response. *)
Lemma fetch_status_loop_run :
  forall (patterns : list string) (statuses : list nat) (acc : list chunk)
         (status0 : nat) (w : world),
    List.length statuses = List.length patterns ->
    (forall k pattern status,
        nth_error patterns k = Some pattern ->
        nth_error statuses k = Some status ->
        rest_get (env w) (now w + k) pattern = Return status) ->
    for_each patterns
             (fun pattern state =>
                response <- requests_get pattern ;;
                if status_code response =? 200
                then ret (fst state ++ json response, status_code response)
                else ret (fst state, status_code response))
             (acc, status0) w
    = (Return (acc ++ flat_map
                        (fun ps => if snd ps =? 200
                                   then rest_select (fst ps) (pages w)
                                   else [])
                        (combine patterns statuses),
               last statuses status0),
       mkWorld (env w) (pages w) (txn w) (trace w ++ map Get patterns)
               (stdout w)).
Proof.
  induction patterns as [|p patterns IH];
    intros statuses acc status0 w Hlen H.
  - destruct statuses; [|discriminate].
    destruct w; simpl. unfold ret. rewrite !app_nil_r. reflexivity.
  - destruct statuses as [|status statuses]; [discriminate|].
    cbn [for_each]. rewrite bind_run, bind_run. unfold requests_get at 1.
    rewrite <- (Nat.add_0_r (now w)), (H 0 p status eq_refl eq_refl).
    cbn [status_code json combine flat_map fst snd]. rewrite last_cons.
    assert (Hnext :
              forall k pattern st,
                nth_error patterns k = Some pattern ->
                nth_error statuses k = Some st ->
                rest_get (env (record (Get p) w))
                         (now (record (Get p) w) + k) pattern = Return st).
    { intros k pattern st Hp Hs. unfold now, record. cbn [env trace].
      rewrite length_app. cbn [List.length].
      replace (List.length (trace w) + 1 + k) with (now w + S k)
        by (unfold now; lia).
      apply H; assumption. }
    destruct (status =? 200); unfold ret at 1;
      rewrite (IH statuses _ _ (record (Get p) w)); auto;
      unfold record; cbn [env pages txn trace stdout map];
      rewrite <- !app_assoc; reflexivity.
Qed.

Lemma get_project_documents_run (w : world) (statuses : list nat) :
  List.length statuses = List.length doc_patterns ->
  (forall k pattern status,
      nth_error doc_patterns k = Some pattern ->
      nth_error statuses k = Some status ->
      rest_get (env w) (now w + k) pattern = Return status) ->
  FixEmbeddingsProperly.get_project_documents w
  = (Return (flat_map
               (fun ps => if snd ps =? 200
                          then rest_select (fst ps) (pages w) else [])
               (combine doc_patterns statuses)),
     mkWorld (env w) (pages w) (txn w) (trace w ++ map Get doc_patterns)
             (stdout w ++ [Message "Fetching project documentation..."])).
Proof.
  intros Hlen Hget. unfold FixEmbeddingsProperly.get_project_documents.
  rewrite bind_run. unfold print at 1.
  rewrite (fetch_loop_run doc_patterns statuses []); auto.
Qed.

Lemma print_each_run {A : Type} (f : A -> line) :
  forall (l : list A) (w : world),
    for_each l (fun a _ => print (f a)) tt w
    = (Return tt,
       mkWorld (env w) (pages w) (txn w) (trace w) (stdout w ++ map f l)).
Proof.
  induction l as [|a l IH]; intros w.
  - destruct w; simpl. unfold ret. rewrite app_nil_r. reflexivity.
  - cbn [for_each]. rewrite bind_run. unfold print at 1. rewrite IH.
    cbn [env pages txn trace stdout map]. rewrite <- app_assoc. reflexivity.
Qed.

Lemma fix_embeddings_main_returns (w w1 : world) (batch : list chunk) :
  FixEmbeddingsProperly.get_project_documents w = (Return batch, w1) ->
  fst (FixEmbeddingsProperly.main w) = Return tt.
Proof.
  intros Hfetch. unfold FixEmbeddingsProperly.main.
  rewrite bind_run, Hfetch. destruct batch as [|c batch]; [reflexivity|].
  rewrite bind_run. unfold print at 1.
  rewrite bind_run. unfold print at 1. rewrite bind_run.
  rewrite (print_each_run (fun nc => Source_count (fst nc) (snd nc))).
  rewrite bind_run. unfold input at 1.
  match goal with |- context [if ?b then _ else _] => destruct b end;
    [reflexivity|].
  rewrite bind_run. unfold print at 1. rewrite bind_run.
  match goal with
  | |- context [FixEmbeddingsProperly.reembed_chunks ?cs ?w0] =>
      destruct (reembed_chunks_returns cs w0)
        as (vds & w2 & Hrun)
  end.
  rewrite Hrun. rewrite bind_run. unfold print at 1.
  match goal with |- context [if ?b then _ else _] => destruct b end;
    reflexivity.
Qed.

Lemma in_fetched_batch (rows : list page) (c : chunk) :
  forall (responses : list (string * nat)),
    In c (flat_map (fun ps => if snd ps =? 200
                              then rest_select (fst ps) rows else [])
                   responses) ->
    exists pattern, In (pattern, 200) responses
                    /\ In c (rest_select pattern rows).
Proof.
  induction responses as [|[pattern status] responses IH]; simpl;
    [contradiction|].
  intros Hin. apply in_app_or in Hin. destruct Hin as [Hin|Hin].
  - destruct (Nat.eqb_spec status 200) as [->|_]; [|contradiction].
    exists pattern. auto.
  - destruct (IH Hin) as (pattern' & Hp & Hc). exists pattern'. auto.
Qed.

(** C10: when the gateway answers a fetch of [get_project_documents] with a
    status other than 200, the fetch does not raise and prints nothing about
    it: the batch is made of the rows of the patterns that were answered 200
    and of nothing else.  The run goes on over that batch alone and reaches
    its summary; its counters add up to the size of that batch, and its
    console blocks and its writes are those of that batch. *)
Theorem failed_fetch_is_silently_omitted (w : world) (statuses : list nat) :
  List.length statuses = List.length doc_patterns ->
  (forall k pattern status,
      nth_error doc_patterns k = Some pattern ->
      nth_error statuses k = Some status ->
      rest_get (env w) (now w + k) pattern = Return status) ->
  let batch :=
    flat_map (fun ps => if snd ps =? 200
                        then rest_select (fst ps) (pages w) else [])
             (combine doc_patterns statuses) in
  exists w1 : world,
    FixEmbeddingsProperly.get_project_documents w = (Return batch, w1)
    /\ pages w1 = pages w
    /\ stdout w1 = stdout w ++ [Message "Fetching project documentation..."]
    /\ (forall c, In c batch ->
                  exists pattern,
                    In (pattern, 200) (combine doc_patterns statuses)
                    /\ In c (rest_select pattern (pages w)))
    /\ fst (ReembedAllProjectDocs.get_project_documents w)
       = Return (match batch with [] => None | _ :: _ => Some batch end)
    /\ fst (FixEmbeddingsProperly.main w) = Return tt
    /\ exists (verdicts : list verdict) (w2 : world),
        FixEmbeddingsProperly.reembed_chunks batch w1
        = (Return (count_succeeded verdicts, count_failed verdicts), w2)
        /\ count_succeeded verdicts + count_failed verdicts
           = List.length batch
        /\ count_failed verdicts = List.length (failures batch verdicts)
        /\ stdout w2
           = stdout w1 ++ console (List.length batch) 0 batch verdicts
        /\ pages w2 = written batch verdicts (pages w).
Proof.
  intros Hlen Hget batch.
  pose proof (get_project_documents_run w statuses Hlen Hget) as Hfetch.
  fold batch in Hfetch.
  eexists. split; [exact Hfetch|].
  split; [reflexivity|]. split; [reflexivity|].
  split; [intros c Hc; apply (in_fetched_batch _ _ _ Hc)|].
  split.
  { unfold ReembedAllProjectDocs.get_project_documents.
    rewrite bind_run. unfold print at 1. rewrite bind_run.
    rewrite (fetch_status_loop_run doc_patterns statuses [] 0); auto.
    cbn [app fst snd pages]. fold batch.
    destruct batch as [|c cs]; [reflexivity|].
    rewrite bind_run. unfold print at 1. rewrite bind_run.
    rewrite (print_each_run (fun nc => Source_count (fst nc) (snd nc))).
    reflexivity. }
  split; [exact (fix_embeddings_main_returns w _ _ Hfetch)|].
  match goal with
  | |- context [FixEmbeddingsProperly.reembed_chunks batch ?w1] =>
      destruct (reembed_loop_run (List.length batch) batch 0 0 0 w1)
        as (vds & w2 & Hrun & Hlen' & _ & Hout & Hpages & _)
  end.
  exists vds, w2.
  unfold FixEmbeddingsProperly.reembed_chunks, Py.enumerate.
  rewrite Hrun. cbn [Nat.add]. repeat split; auto.
  - rewrite count_succeeded_failed. assumption.
  - apply count_failed_failures. assumption.
Qed.

Lemma failed_fetch_is_silently_omitted_witness :
  exists w1 : world,
    FixEmbeddingsProperly.get_project_documents
      (connect Sample.claude_fetch_down Sample.two_documents)
    = (Return [select_columns (Sample.prd_page 1 "requirements")], w1)
    /\ fst (FixEmbeddingsProperly.main
              (connect Sample.claude_fetch_down Sample.two_documents))
       = Return tt.
Proof.
  destruct (failed_fetch_is_silently_omitted
              (connect Sample.claude_fetch_down Sample.two_documents)
              [200; 503; 200; 200] eq_refl)
    as (w1 & Hfetch & _ & _ & _ & _ & Hmain & _).
  - intros [|[|[|[|k]]]] pattern status Hp Hs; simpl in Hp, Hs;
      try (destruct k; discriminate);
      inversion Hp; inversion Hs; reflexivity.
  - exists w1. split; [exact Hfetch | exact Hmain].
Defined.

(* ================================================================== *)
(** * Reranker: degradation *)
(* ================================================================== *)

Lemma rerank_results_raise_run (query : string)
  (documents : list ArchonReembeddingPlan.candidate) (top_n : Z) (w : world)
  (e : exn) :
  documents <> [] ->
  cohere_rerank (env w) (now w) query
                (map ArchonReembeddingPlan.cand_content documents)
                (Z.min top_n (Z.of_nat (List.length documents)))
  = Raise e ->
  ArchonReembeddingPlan.rerank_results query documents top_n w
  = (Return (Py.take top_n documents),
     mkWorld (env w) (pages w) (txn w)
             (trace w
              ++ [Rerank query
                         (map ArchonReembeddingPlan.cand_content documents)
                         (Z.min top_n (Z.of_nat (List.length documents)))])
             (stdout w ++ [Reranking_failed e])).
Proof.
  intros Hne Hraise. destruct documents as [|d ds]; [congruence|].
  unfold ArchonReembeddingPlan.rerank_results, try_except.
  rewrite bind_run. unfold ArchonReembeddingPlan.client_rerank at 1.
  rewrite Hraise. reflexivity.
Qed.

Lemma firstn_nonempty {A : Type} (n : nat) (l : list A) :
  l <> [] -> 0 < n -> firstn n l <> [].
Proof.
  destruct l as [|a l]; [congruence|].
  destruct n as [|n]; [lia|]. discriminate.
Qed.

(** C6: when the call to the reranking provider raises, [rerank_results]
    does not raise: it returns the first [top_n] documents in the order it
    was given them, that is min([top_n], number of documents) of them, so at
    least one as soon as there is a document and [top_n] is at least 1.  For
    an empty list of documents it returns the empty list and leaves the world
    as it was: no call is made. *)
Theorem rerank_degrades_to_input_order (query : string)
  (documents : list ArchonReembeddingPlan.candidate) (top_n : Z) (w : world)
  (e : exn) :
  (0 <= top_n)%Z ->
  cohere_rerank (env w) (now w) query
                (map ArchonReembeddingPlan.cand_content documents)
                (Z.min top_n (Z.of_nat (List.length documents)))
  = Raise e ->
  fst (ArchonReembeddingPlan.rerank_results query documents top_n w)
  = Return (firstn (Z.to_nat top_n) documents)
  /\ List.length (firstn (Z.to_nat top_n) documents)
     = Nat.min (Z.to_nat top_n) (List.length documents)
  /\ (documents <> [] -> (1 <= top_n)%Z ->
      firstn (Z.to_nat top_n) documents <> [])
  /\ ArchonReembeddingPlan.rerank_results query [] top_n w = (Return [], w).
Proof.
  intros Hpos Hraise. split; [|split; [|split]].
  - destruct documents as [|d ds] eqn:Hd.
    + rewrite firstn_nil. reflexivity.
    + rewrite <- Hd in *.
      rewrite (rerank_results_raise_run query documents top_n w e); auto.
      * unfold Py.take. destruct (Z.ltb_spec top_n 0); [lia|]. reflexivity.
      * rewrite Hd. discriminate.
  - apply length_firstn.
  - intros Hne H1. apply firstn_nonempty; [assumption | lia].
  - reflexivity.
Qed.

Lemma rerank_degrades_to_input_order_witness :
  fst (ArchonReembeddingPlan.rerank_results
         "ridge vent"
         (ArchonReembeddingPlan.embedded Sample.no_rerank [4%Q]
                                         Sample.mixed_store)
         1 (connect Sample.no_rerank Sample.mixed_store))
  = Return (firstn 1 (ArchonReembeddingPlan.embedded Sample.no_rerank [4%Q]
                                                     Sample.mixed_store)).
Proof.
  apply (rerank_degrades_to_input_order
           "ridge vent"
           (ArchonReembeddingPlan.embedded Sample.no_rerank [4%Q]
                                           Sample.mixed_store)
           1 (connect Sample.no_rerank Sample.mixed_store)
           (APIError RateLimited "quota")).
  - vm_compute. discriminate.
  - reflexivity.
Defined.

(* ================================================================== *)
(** * Hybrid Retrieval Engine: only embedded chunks are candidates *)
(* ================================================================== *)

Lemma in_insert {A : Type} (leb : A -> A -> bool) (x y : A) (l : list A) :
  In x (Sql.insert leb y l) <-> x = y \/ In x l.
Proof.
  induction l as [|z l IH]; simpl.
  - intuition.
  - destruct (leb y z); simpl; rewrite ?IH; intuition.
Qed.

Lemma in_order_by {A : Type} (leb : A -> A -> bool) (x : A) (l : list A) :
  In x (Sql.order_by leb l) <-> In x l.
Proof.
  induction l as [|y l IH]; simpl; [tauto|].
  rewrite in_insert, IH. intuition.
Qed.

Lemma in_firstn {A : Type} (x : A) :
  forall (n : nat) (l : list A), In x (firstn n l) -> In x l.
Proof.
  induction n as [|n IH]; intros [|a l]; simpl; try tauto.
  intros [H|H]; auto.
Qed.

Lemma in_take {A : Type} (n : Z) (x : A) (l : list A) :
  In x (Py.take n l) -> In x l.
Proof.
  unfold Py.take. destruct (n <? 0)%Z; intros H; eapply in_firstn; eauto.
Qed.

Lemma index_in {A : Type} (l : list A) (i : Z) (x : A) :
  Py.index l i = Some x -> In x l.
Proof.
  unfold Py.index.
  destruct (i <? 0)%Z; [destruct (_ <? 0)%Z; [discriminate|]|];
    apply nth_error_In.
Qed.

Lemma embedded_drawn_from (sv : services) (q : vector) (rows : list page)
  (c : ArchonReembeddingPlan.candidate) :
  In c (ArchonReembeddingPlan.embedded sv q rows) -> drawn_from rows c.
Proof.
  unfold ArchonReembeddingPlan.embedded. rewrite in_flat_map.
  intros (p & Hp & Hc). destruct (embedding p) as [v|] eqn:Hv;
    [|contradiction].
  destruct Hc as [<-|[]]. exists p, v. simpl. auto 8.
Qed.

Lemma ranked_results_drawn_from (sv : services) (q : vector) (limit : Z)
  (rows : list page) (pool : list ArchonReembeddingPlan.candidate) :
  ArchonReembeddingPlan.ranked_results sv q limit rows = Return pool ->
  forall c, In c pool -> drawn_from rows c.
Proof.
  unfold ArchonReembeddingPlan.ranked_results.
  destruct (limit <? 0)%Z; [discriminate|].
  intros [= <-] c Hc. apply in_firstn in Hc. apply in_order_by in Hc.
  eapply embedded_drawn_from; eauto.
Qed.

Lemma with_score_drawn_from (rows : list page)
  (c : ArchonReembeddingPlan.candidate) (score : Q) :
  drawn_from rows c ->
  drawn_from rows (ArchonReembeddingPlan.with_score c score).
Proof. intros (p & v & H). exists p, v. exact H. Qed.

Lemma rerank_loop_drawn_from (rows : list page)
  (documents : list ArchonReembeddingPlan.candidate) :
  (forall c, In c documents -> drawn_from rows c) ->
  forall (results : list (Z * Q))
         (acc out : list ArchonReembeddingPlan.candidate) (w w' : world),
    (forall c, In c acc -> drawn_from rows c) ->
    for_each results
             (fun result reranked =>
                match Py.index documents (fst result) with
                | None => throw IndexError
                | Some doc =>
                    ret (reranked
                         ++ [ArchonReembeddingPlan.with_score doc
                                                              (snd result)])
                end)
             acc w
    = (Return out, w') ->
    forall c, In c out -> drawn_from rows c.
Proof.
  intros Hdocs. induction results as [|r results IH];
    intros acc out w w' Hacc Hrun.
  - inversion Hrun; subst. assumption.
  - cbn [for_each] in Hrun. rewrite bind_run in Hrun.
    destruct (Py.index documents (fst r)) as [doc|] eqn:Hidx.
    + unfold ret at 1 in Hrun. eapply IH; [|exact Hrun].
      intros c Hc. apply in_app_or in Hc. destruct Hc as [Hc|[<-|[]]].
      * auto.
      * apply with_score_drawn_from, Hdocs. eapply index_in; eauto.
    + discriminate Hrun.
Qed.

Lemma rerank_results_drawn_from (rows : list page) (query : string)
  (documents out : list ArchonReembeddingPlan.candidate) (top_n : Z)
  (w w' : world) :
  (forall c, In c documents -> drawn_from rows c) ->
  ArchonReembeddingPlan.rerank_results query documents top_n w
  = (Return out, w') ->
  forall c, In c out -> drawn_from rows c.
Proof.
  intros Hdocs Hrun. destruct documents as [|d ds] eqn:Hd.
  - inversion Hrun; subst. intros c [].
  - rewrite <- Hd in *. assert (Hshape : ArchonReembeddingPlan.rerank_results
                                  query documents top_n w
                                = ArchonReembeddingPlan.rerank_results
                                  query (d :: ds) top_n w) by congruence.
    rewrite Hshape in Hrun.
    unfold ArchonReembeddingPlan.rerank_results, try_except in Hrun.
    rewrite bind_run in Hrun.
    unfold ArchonReembeddingPlan.client_rerank at 1 in Hrun.
    rewrite <- Hd in Hrun.
    destruct (cohere_rerank _ _ _ _ _) as [results|e].
    + match type of Hrun with
      | context [for_each results ?body ?acc ?w0] =>
          destruct (for_each results body acc w0) as [[out'|e] w1] eqn:Hloop
      end.
      * inversion Hrun; subst.
        eapply rerank_loop_drawn_from; [exact Hdocs| |exact Hloop].
        intros c [].
      * inversion Hrun; subst. intros c Hc. eapply Hdocs, in_take; eauto.
    + inversion Hrun; subst. intros c Hc. eapply Hdocs, in_take; eauto.
Qed.

(** C9: every candidate [enhanced_rag_search] returns is a row of the store
    whose embedding is not NULL, and so is every candidate of the pool it
    ranks and boosts; the same holds for the hits of the query of
    [test_search].  A row without an embedding is never a candidate. *)
Theorem retrieval_returns_embedded_chunks_only (query : string)
  (match_count : Z) (w w' : world)
  (results : list ArchonReembeddingPlan.candidate) :
  ArchonReembeddingPlan.enhanced_rag_search query match_count w
  = (Return results, w') ->
  (forall r, In r results -> drawn_from (pages w) r)
  /\ (forall sv q limit pool,
         ArchonReembeddingPlan.ranked_results sv q limit (pages w)
         = Return pool ->
         forall c, In c pool -> drawn_from (pages w) c)
  /\ (forall sv q h,
         In h (ReembedArchon.nearest sv q (pages w)) ->
         exists p v, In p (pages w) /\ embedding p = Some v
                     /\ ReembedArchon.hit_id h = id p).
Proof.
  intros Hrun. split; [|split].
  - unfold ArchonReembeddingPlan.enhanced_rag_search in Hrun.
    rewrite bind_run in Hrun. unfold client_embeddings_create at 1 in Hrun.
    destruct (embeddings_create _ _ _) as [q|e]; [|discriminate].
    rewrite bind_run in Hrun. unfold ask at 1 in Hrun.
    rewrite bind_run in Hrun.
    unfold ArchonReembeddingPlan.connect_fetchall at 1 in Hrun.
    destruct (pg_fault _ _ _); [discriminate|].
    cbn [pages record env] in Hrun.
    destruct (ArchonReembeddingPlan.ranked_results _ _ _ _) as [pool|e]
      eqn:Hpool; [|discriminate].
    eapply rerank_results_drawn_from; [|exact Hrun].
    eapply ranked_results_drawn_from; eauto.
  - intros sv q limit pool Hpool. eapply ranked_results_drawn_from; eauto.
  - intros sv q h Hh. unfold ReembedArchon.nearest in Hh.
    apply in_map_iff in Hh. destruct Hh as ([p d] & <- & Hin).
    apply in_firstn, in_order_by in Hin.
    unfold ReembedArchon.embedded in Hin. apply in_flat_map in Hin.
    destruct Hin as (p' & Hp' & Hin).
    destruct (embedding p') as [v|] eqn:Hv; [|contradiction].
    destruct Hin as [[= <- <-]|[]]. exists p', v. auto.
Qed.

Lemma retrieval_returns_embedded_chunks_only_witness :
  Forall (drawn_from Sample.mixed_store)
         (match fst (ArchonReembeddingPlan.enhanced_rag_search
                       "flashing" 1
                       (connect Sample.steady Sample.mixed_store)) with
          | Return results => results
          | Raise _ => []
          end).
Proof.
  apply Forall_forall.
  apply (retrieval_returns_embedded_chunks_only
           "flashing" 1 (connect Sample.steady Sample.mixed_store)
           (snd (ArchonReembeddingPlan.enhanced_rag_search
                   "flashing" 1 (connect Sample.steady Sample.mixed_store)))).
  vm_compute. reflexivity.
Defined.

(* ================================================================== *)
(** * Hybrid Retrieval Engine: the boosted order of the pool *)
(* ================================================================== *)

Section OrderBy.

Context {A : Type} (leb : A -> A -> bool).
Hypothesis leb_total : forall a b, leb a b = false -> leb b a = true.
Hypothesis leb_trans :
  forall a b c, leb a b = true -> leb b c = true -> leb a c = true.

Lemma insert_sorted (x : A) (l : list A) :
  StronglySorted (fun a b => leb a b = true) l ->
  StronglySorted (fun a b => leb a b = true) (Sql.insert leb x l).
Proof.
  induction 1 as [|y l Hsorted IH Hall]; simpl.
  - repeat constructor.
  - destruct (leb x y) eqn:Hxy.
    + constructor; [constructor; assumption|].
      constructor; [assumption|].
      rewrite Forall_forall in *. intros z Hz. eauto.
    + constructor; [assumption|].
      rewrite Forall_forall in *. intros z Hz.
      apply in_insert in Hz. destruct Hz as [->|Hz]; auto.
Qed.

Lemma order_by_sorted (l : list A) :
  StronglySorted (fun a b => leb a b = true) (Sql.order_by leb l).
Proof.
  induction l as [|x l IH]; simpl; [constructor|].
  apply insert_sorted, IH.
Qed.

Lemma length_insert (x : A) (l : list A) :
  List.length (Sql.insert leb x l) = S (List.length l).
Proof.
  induction l as [|y l IH]; simpl; auto.
  destruct (leb x y); simpl; auto.
Qed.

Lemma length_order_by (l : list A) :
  List.length (Sql.order_by leb l) = List.length l.
Proof.
  induction l as [|x l IH]; simpl; auto.
  rewrite length_insert, IH. reflexivity.
Qed.

(** In a sorted list cut after [n] rows, a row that sorts strictly before a
    row that made the cut made the cut too, ahead of it. *)
Lemma strictly_smaller_ranks_before (l : list A) (n : nat) (a b : A) :
  StronglySorted (fun a b => leb a b = true) l ->
  In a l -> In b (firstn n l) -> leb b a = false ->
  ranks_before a b (firstn n l).
Proof.
  intros Hsorted Ha Hb Hstrict.
  destruct (in_split _ _ Hb) as (p1 & p2 & Hpool).
  assert (Hl : l = p1 ++ b :: (p2 ++ skipn n l)).
  { rewrite <- (firstn_skipn n l) at 1. rewrite Hpool, <- app_assoc.
    reflexivity. }
  assert (Hin : In a p1).
  { rewrite Hl in Ha. apply in_app_or in Ha. destruct Ha as [Ha|[Ha|Ha]].
    - assumption.
    - subst a. pose proof (leb_total _ _ Hstrict). congruence.
    - exfalso. rewrite Hl in Hsorted. clear Hl Hpool Hb.
      induction p1 as [|z p1 IH]; simpl in Hsorted.
      + inversion Hsorted as [|? ? _ Hall]; subst.
        rewrite Forall_forall in Hall. specialize (Hall a Ha). congruence.
      + inversion Hsorted; subst. auto. }
  destruct (in_split _ _ Hin) as (l1 & l2 & ->).
  exists l1, l2, p2. rewrite Hpool, <- app_assoc. reflexivity.
Qed.

End OrderBy.

Lemma Qle_bool_total (x y : Q) : Qle_bool x y = false -> Qle_bool y x = true.
Proof.
  intros H. apply Qle_bool_iff. destruct (Qlt_le_dec y x) as [Hlt|Hle].
  - apply Qlt_le_weak; assumption.
  - apply Qle_bool_iff in Hle. congruence.
Qed.

Lemma Qle_bool_trans (x y z : Q) :
  Qle_bool x y = true -> Qle_bool y z = true -> Qle_bool x z = true.
Proof.
  rewrite !Qle_bool_iff. apply Qle_trans.
Qed.

Lemma length_embedded (sv : services) (q : vector) (rows : list page) :
  List.length (ArchonReembeddingPlan.embedded sv q rows)
  = List.length (filter has_embedding rows).
Proof.
  unfold ArchonReembeddingPlan.embedded, has_embedding.
  induction rows as [|p rows IH]; simpl; auto.
  destruct (embedding p); simpl; auto.
Qed.

Lemma embedded_boost_factor (sv : services) (q : vector) (rows : list page)
  (c : ArchonReembeddingPlan.candidate) :
  In c (ArchonReembeddingPlan.embedded sv q rows) ->
  ArchonReembeddingPlan.boost_factor c
  = ArchonReembeddingPlan.boost (ArchonReembeddingPlan.cand_source_url c).
Proof.
  unfold ArchonReembeddingPlan.embedded. rewrite in_flat_map.
  intros (p & _ & Hc). destruct (embedding p); [|contradiction].
  destruct Hc as [<-|[]]. reflexivity.
Qed.

(** C7, as stated, fails: the query orders by the boosted distance alone.
    Two rows with the same boosted distance come out in scan order, here the
    larger identifier first.  Input: the store [Sample.tied_store] (rows 2
    and 1 of one web source, both with embedding [[6]]), the query vector
    [[4]] and [k = 2]: the pool is row 2, then row 1. *)
Lemma ties_are_not_broken_by_identifier :
  ~ (forall (sv : services) (q : vector) (k : Z) (rows : list page)
            (pool : list ArchonReembeddingPlan.candidate),
        ArchonReembeddingPlan.ranked_results sv q (k * 3)%Z rows
        = Return pool ->
        forall a b,
          ranks_before a b pool ->
          (ArchonReembeddingPlan.score a == ArchonReembeddingPlan.score b)%Q ->
          (ArchonReembeddingPlan.cand_id a
           <= ArchonReembeddingPlan.cand_id b)%Z).
Proof.
  intros H.
  pose proof (H Sample.steady [4%Q] 2%Z Sample.tied_store) as H'.
  vm_compute in H'.
  match type of H' with
  | forall pool, Return [?x; ?y] = Return pool -> _ =>
      specialize (H' [x; y] eq_refl x y
                     (ex_intro _ [] (ex_intro _ [] (ex_intro _ [] eq_refl))))
  end.
  apply H'; reflexivity.
Qed.

Lemma StronglySorted_firstn {A : Type} (R : A -> A -> Prop) (n : nat) :
  forall l, StronglySorted R l -> StronglySorted R (firstn n l).
Proof.
  induction n as [|n IH]; intros l Hsorted; [constructor|].
  destruct Hsorted as [|a l Hsorted Hall]; simpl; constructor; auto.
  rewrite Forall_forall in *. intros x Hx. eapply Hall, in_firstn; eauto.
Qed.

Lemma StronglySorted_impl {A : Type} (R S : A -> A -> Prop) (l : list A) :
  (forall a b, R a b -> S a b) -> StronglySorted R l -> StronglySorted S l.
Proof.
  intros HRS. induction 1 as [|a l Hsorted IH Hall]; constructor; auto.
  rewrite Forall_forall in *. auto.
Qed.

(** C7, amended: for a count [k] that is not negative the query of
    [enhanced_rag_search] returns the [k * 3] best rows that have an
    embedding (all of them when there are fewer), in ascending order of the
    raw distance multiplied by the weight of the source class, 0.8 for
    [file://] sources and 1.0 for the others: a row with a strictly smaller
    product than a row of the pool is in the pool, ahead of it.  So of two
    candidates at the same positive raw distance, the [file://] one ranks
    ahead of the other.  The order among equal products is not fixed by the
    query. *)
Theorem candidate_pool_is_boost_ordered (sv : services) (q : vector) (k : Z)
  (rows : list page) (pool : list ArchonReembeddingPlan.candidate) :
  ArchonReembeddingPlan.ranked_results sv q (k * 3)%Z rows = Return pool ->
  (0 <= k)%Z
  /\ (k * 3 = Z.max (k * 3) k)%Z
  /\ List.length pool
     = Nat.min (Z.to_nat (k * 3)) (List.length (filter has_embedding rows))
  /\ StronglySorted
       (fun a b => (ArchonReembeddingPlan.score a
                    <= ArchonReembeddingPlan.score b)%Q) pool
  /\ (forall c,
         In c pool ->
         ArchonReembeddingPlan.score c
         = (ArchonReembeddingPlan.distance c
            * (if Sql.like "file://%" (ArchonReembeddingPlan.cand_source_url c)
               then 0.8 else 1.0))%Q)
  /\ (forall a b,
         In a (ArchonReembeddingPlan.embedded sv q rows) ->
         In b pool ->
         (ArchonReembeddingPlan.score a < ArchonReembeddingPlan.score b)%Q ->
         ranks_before a b pool)
  /\ (forall a b,
         In a (ArchonReembeddingPlan.embedded sv q rows) ->
         In b pool ->
         (ArchonReembeddingPlan.distance a
          == ArchonReembeddingPlan.distance b)%Q ->
         (0 < ArchonReembeddingPlan.distance a)%Q ->
         Sql.like "file://%" (ArchonReembeddingPlan.cand_source_url a) = true ->
         Sql.like "file://%" (ArchonReembeddingPlan.cand_source_url b) = false ->
         ranks_before a b pool).
Proof.
  unfold ArchonReembeddingPlan.ranked_results.
  destruct (Z.ltb_spec (k * 3) 0) as [|Hk]; [discriminate|].
  intros [= <-].
  set (leb := fun a b => Qle_bool (ArchonReembeddingPlan.score a)
                                  (ArchonReembeddingPlan.score b)).
  assert (Hsorted :
            StronglySorted (fun a b => leb a b = true)
              (Sql.order_by leb (ArchonReembeddingPlan.embedded sv q rows))).
  { apply order_by_sorted; unfold leb; intros.
    - apply Qle_bool_total; assumption.
    - eapply Qle_bool_trans; eauto. }
  assert (Hbest :
            forall a b,
              In a (ArchonReembeddingPlan.embedded sv q rows) ->
              In b (firstn (Z.to_nat (k * 3))
                      (Sql.order_by leb
                         (ArchonReembeddingPlan.embedded sv q rows))) ->
              (ArchonReembeddingPlan.score a
               < ArchonReembeddingPlan.score b)%Q ->
              ranks_before a b
                (firstn (Z.to_nat (k * 3))
                   (Sql.order_by leb
                      (ArchonReembeddingPlan.embedded sv q rows)))).
  { intros a b Ha Hb Hlt.
    apply (strictly_smaller_ranks_before leb); auto.
    - unfold leb; intros; apply Qle_bool_total; assumption.
    - apply in_order_by; assumption.
    - unfold leb. destruct (Qle_bool _ _) eqn:Hle; [|reflexivity].
      apply Qle_bool_iff in Hle. exfalso. lra. }
  split; [lia|]. split; [lia|]. split; [|split; [|split; [|split]]].
  - rewrite length_firstn, length_order_by, length_embedded. reflexivity.
  - apply StronglySorted_firstn.
    eapply StronglySorted_impl; [|exact Hsorted].
    unfold leb. intros a b Hab. apply Qle_bool_iff. exact Hab.
  - intros c Hc. apply in_firstn, in_order_by in Hc.
    unfold ArchonReembeddingPlan.score.
    rewrite (embedded_boost_factor sv q rows c Hc). reflexivity.
  - exact Hbest.
  - intros a b Ha Hb Hdist Hpos Hfile Hweb. apply Hbest; auto.
    assert (Hb' : In b (ArchonReembeddingPlan.embedded sv q rows))
      by (apply in_firstn, in_order_by in Hb; exact Hb).
    unfold ArchonReembeddingPlan.score.
    rewrite (embedded_boost_factor sv q rows a Ha),
      (embedded_boost_factor sv q rows b Hb').
    unfold ArchonReembeddingPlan.boost. rewrite Hfile, Hweb. lra.
Qed.

Lemma candidate_pool_is_boost_ordered_witness :
  ranks_before Sample.file_candidate Sample.web_candidate
               [Sample.file_candidate; Sample.web_candidate].
Proof.
  destruct (candidate_pool_is_boost_ordered
              Sample.steady [4%Q] 1%Z Sample.two_classes
              [Sample.file_candidate; Sample.web_candidate])
    as (_ & _ & _ & _ & _ & _ & Hboost).
  - vm_compute. reflexivity.
  - apply Hboost.
    + vm_compute. auto.
    + simpl. auto.
    + reflexivity.
    + reflexivity.
    + reflexivity.
    + reflexivity.
Defined.

(* ================================================================== *)
(** * Properties of the store that the runs keep *)
(* ================================================================== *)

Section Preservation.

Variable I : list page -> option (list page) -> Prop.

(** The changes of rows that keep [I]. *)
Variable good : (list page -> list page) -> Prop.

Hypothesis I_execute :
  forall rows pending change,
    good change -> I rows pending ->
    I rows (Some (change (match pending with
                          | Some rows' => rows'
                          | None => rows
                          end))).
Hypothesis I_commit :
  forall rows pending,
    I rows pending ->
    I (match pending with Some rows' => rows' | None => rows end) None.
Hypothesis I_rollback : forall rows pending, I rows pending -> I rows None.
Hypothesis I_patch :
  forall rows pending change,
    good change -> I rows pending -> I (change rows) pending.

Lemma preserves_ret {A : Type} (a : A) : preserves I (ret a).
Proof. intros w H. exact H. Qed.

Lemma preserves_throw {A : Type} (e : exn) : preserves I (@throw A e).
Proof. intros w H. exact H. Qed.

Lemma preserves_lift {A : Type} (o : outcome A) : preserves I (lift o).
Proof. intros w H. exact H. Qed.

Lemma preserves_ask : preserves I ask.
Proof. intros w H. exact H. Qed.

Lemma preserves_print (l : line) : preserves I (print l).
Proof. intros w H. exact H. Qed.

Lemma preserves_sleep : preserves I sleep.
Proof. intros w H. exact H. Qed.

Lemma preserves_input : preserves I input.
Proof. intros w H. exact H. Qed.

Lemma preserves_client_embeddings_create (text : string) :
  preserves I (client_embeddings_create text).
Proof. intros w H. exact H. Qed.

Lemma preserves_bind {A B : Type} (m : io A) (k : A -> io B) :
  preserves I m -> (forall a, preserves I (k a)) -> preserves I (bind m k).
Proof.
  intros Hm Hk w H. unfold bind. specialize (Hm w H).
  destruct (m w) as [[a|e] w1]; simpl in *; auto.
  apply Hk. exact Hm.
Qed.

Lemma preserves_try_except {A : Type} (body : io A) (handler : exn -> io A) :
  preserves I body -> (forall e, preserves I (handler e)) ->
  preserves I (try_except body handler).
Proof.
  intros Hm Hk w H. unfold try_except. specialize (Hm w H).
  destruct (body w) as [[a|e] w1]; simpl in *; auto.
  apply Hk. exact Hm.
Qed.

Lemma preserves_for_each {A S : Type} (body : A -> S -> io S) (l : list A) :
  (forall a s, preserves I (body a s)) ->
  forall s, preserves I (for_each l body s).
Proof.
  intros Hbody. induction l as [|a l IH]; intros s; simpl.
  - apply preserves_ret.
  - apply preserves_bind; auto.
Qed.

Lemma preserves_cur_fetchall {A : Type} (query : list page -> list A) :
  preserves I (cur_fetchall query).
Proof.
  intros w H. unfold cur_fetchall. destruct (pg_fault _ _ _); exact H.
Qed.

Lemma preserves_cur_execute (s : statement)
  (change : list page -> list page) :
  good change -> preserves I (cur_execute s change).
Proof.
  intros Hgood w H. unfold cur_execute.
  destruct (pg_fault _ _ _); simpl; [exact H|].
  apply (I_execute _ _ _ Hgood H).
Qed.

Lemma preserves_conn_commit : preserves I conn_commit.
Proof.
  intros w H. unfold conn_commit.
  destruct (pg_fault _ _ _); simpl; [exact H|].
  apply (I_commit _ _ H).
Qed.

Lemma preserves_conn_rollback : preserves I conn_rollback.
Proof. intros w H. apply (I_rollback _ _ H). Qed.

Lemma preserves_requests_get (pattern : string) :
  preserves I (requests_get pattern).
Proof.
  intros w H. unfold requests_get. destruct (rest_get _ _ _); exact H.
Qed.

Lemma preserves_requests_patch (c : call) (chunk_id : Z)
  (change : list page -> list page) :
  good change -> preserves I (requests_patch c chunk_id change).
Proof.
  intros Hgood w H. unfold requests_patch.
  destruct (rest_patch _ _ _) as [status|e]; simpl; [|exact H].
  destruct (status =? 204); simpl; [|exact H].
  apply (I_patch _ _ _ Hgood H).
Qed.

Hypothesis good_set_embedding :
  forall chunk_id v, good (set_embedding chunk_id v).

Lemma preserves_reembed_archon_generate_embedding (text : string) :
  preserves I (ReembedArchon.generate_embedding text).
Proof.
  apply preserves_try_except.
  - apply preserves_bind; [apply preserves_client_embeddings_create|].
    intros; apply preserves_ret.
  - intros; apply preserves_bind; [apply preserves_print|].
    intros; apply preserves_ret.
Qed.

Lemma preserves_reembed_archon_update_embedding (chunk_id : Z) (v : vector) :
  preserves I (ReembedArchon.update_embedding chunk_id v).
Proof.
  apply preserves_try_except.
  - apply preserves_bind; [apply preserves_cur_execute; auto|].
    intros; apply preserves_bind; [apply preserves_conn_commit|].
    intros; apply preserves_ret.
  - intros; apply preserves_bind; [apply preserves_print|].
    intros; apply preserves_bind; [apply preserves_conn_rollback|].
    intros; apply preserves_ret.
Qed.

Lemma preserves_reembed_archon_chunk (c : chunk) (counts : nat * nat) :
  preserves I (ReembedArchon.reembed_chunk c counts).
Proof.
  unfold ReembedArchon.reembed_chunk. destruct counts as [s f].
  apply preserves_bind; [apply preserves_lift|]. intros text.
  apply preserves_bind;
    [apply preserves_reembed_archon_generate_embedding|].
  intros [v|].
  - apply preserves_bind.
    + destruct (truthy (Some v));
        [apply preserves_reembed_archon_update_embedding
        |apply preserves_ret].
    + intros b. apply preserves_bind; [apply preserves_print|].
      intros; apply preserves_bind; [apply preserves_sleep|].
      intros; apply preserves_ret.
  - apply preserves_bind; [apply preserves_ret|].
    intros b. apply preserves_bind; [apply preserves_print|].
    intros; apply preserves_bind; [apply preserves_sleep|].
    intros; apply preserves_ret.
Qed.

Lemma preserves_reembed_project_docs :
  preserves I ReembedArchon.reembed_project_docs.
Proof.
  unfold ReembedArchon.reembed_project_docs, ReembedArchon.get_project_docs.
  apply preserves_bind.
  { apply preserves_bind; [apply preserves_ask|].
    intros; apply preserves_cur_fetchall. }
  intros [|c chunks]; [apply preserves_print|].
  apply preserves_bind; [apply preserves_print|]. intros _.
  apply preserves_bind; [apply preserves_print|]. intros _.
  apply preserves_bind.
  { apply preserves_for_each. intros; apply preserves_print. }
  intros _. apply preserves_bind; [apply preserves_input|]. intros answer.
  destruct (negb _); [apply preserves_print|].
  apply preserves_bind.
  { apply preserves_for_each. intros; apply preserves_reembed_archon_chunk. }
  intros counts. apply preserves_bind; [apply preserves_print|]. intros _.
  destruct (0 <? snd counts); [apply preserves_print|apply preserves_ret].
Qed.

Lemma preserves_get_project_documents :
  preserves I FixEmbeddingsProperly.get_project_documents.
Proof.
  apply preserves_bind; [apply preserves_print|]. intros _.
  apply preserves_for_each. intros pattern acc.
  apply preserves_bind; [apply preserves_requests_get|].
  intros r. destruct (status_code r =? 200); apply preserves_ret.
Qed.

Lemma preserves_fix_embeddings_chunk (n : nat) (ic : nat * chunk)
  (counts : nat * nat) :
  preserves I (FixEmbeddingsProperly.reembed_chunk n ic counts).
Proof.
  unfold FixEmbeddingsProperly.reembed_chunk.
  destruct ic as [i c], counts as [s f].
  apply preserves_bind; [apply preserves_print|]. intros _.
  apply preserves_try_except.
  - apply preserves_bind; [apply preserves_lift|]. intros text.
    apply preserves_bind.
    { apply preserves_try_except.
      - apply preserves_bind; [apply preserves_client_embeddings_create|].
        intros; apply preserves_ret.
      - intros; apply preserves_bind; [apply preserves_print|].
        intros; apply preserves_ret. }
    intros embedding. apply preserves_bind.
    { destruct embedding as [v|]; [|apply preserves_ret].
      destruct (truthy (Some v)); [|apply preserves_ret].
      apply preserves_bind;
        [apply preserves_requests_patch; auto|].
      intros; apply preserves_ret. }
    intros updated. apply preserves_bind.
    { destruct updated;
        (apply preserves_bind; [apply preserves_print|]);
        intros; apply preserves_ret. }
    intros; apply preserves_bind; [apply preserves_sleep|].
    intros; apply preserves_ret.
  - intros e. apply preserves_bind; [apply preserves_print|].
    intros; apply preserves_ret.
Qed.

Lemma preserves_fix_embeddings_main : preserves I FixEmbeddingsProperly.main.
Proof.
  unfold FixEmbeddingsProperly.main.
  apply preserves_bind; [apply preserves_get_project_documents|].
  intros [|c chunks]; [apply preserves_print|].
  apply preserves_bind; [apply preserves_print|]. intros _.
  apply preserves_bind; [apply preserves_print|]. intros _.
  apply preserves_bind.
  { apply preserves_for_each. intros; apply preserves_print. }
  intros _. apply preserves_bind; [apply preserves_input|]. intros answer.
  destruct (negb _); [apply preserves_print|].
  apply preserves_bind; [apply preserves_print|]. intros _.
  apply preserves_bind.
  { apply preserves_for_each. intros; apply preserves_fix_embeddings_chunk. }
  intros counts. apply preserves_bind; [apply preserves_print|]. intros _.
  destruct (0 <? snd counts); [apply preserves_print|apply preserves_ret].
Qed.

Hypothesis good_set_search_vector :
  forall chunk_id tsv, good (set_search_vector chunk_id tsv).

Lemma preserves_fix_chunk (n : nat) (ic : nat * chunk) (counts : nat * nat) :
  preserves I (FixSearchProperlyFinal.fix_chunk n ic counts).
Proof.
  unfold FixSearchProperlyFinal.fix_chunk.
  destruct ic as [i c], counts as [s f].
  apply preserves_bind; [apply preserves_print|]. intros _.
  apply preserves_bind; [apply preserves_lift|]. intros text.
  apply preserves_bind; [apply preserves_print|]. intros _.
  apply preserves_bind.
  { apply preserves_try_except.
    - apply preserves_bind; [apply preserves_client_embeddings_create|].
      intros; apply preserves_ret.
    - intros; apply preserves_bind; [apply preserves_print|].
      intros; apply preserves_ret. }
  intros [v|]; [|apply preserves_ret].
  apply preserves_bind; [apply preserves_print|]. intros _.
  apply preserves_try_except.
  - apply preserves_bind; [apply preserves_cur_execute; auto|]. intros _.
    apply preserves_bind; [apply preserves_ask|]. intros sv.
    apply preserves_bind; [apply preserves_cur_execute; auto|]. intros _.
    apply preserves_bind; [apply preserves_conn_commit|]. intros _.
    apply preserves_bind; [apply preserves_print|].
    intros; apply preserves_ret.
  - intros e. apply preserves_bind; [apply preserves_print|]. intros _.
    apply preserves_bind; [apply preserves_conn_rollback|].
    intros; apply preserves_ret.
Qed.

Lemma preserves_fix_everything :
  preserves I FixSearchProperlyFinal.fix_everything.
Proof.
  unfold FixSearchProperlyFinal.fix_everything, FixSearchProperlyFinal.fetch.
  apply preserves_bind; [apply preserves_print|]. intros _.
  apply preserves_bind.
  { apply preserves_bind; [apply preserves_ask|].
    intros; apply preserves_cur_fetchall. }
  intros chunks. apply preserves_bind; [apply preserves_print|]. intros _.
  apply preserves_bind.
  { apply preserves_for_each. intros; apply preserves_fix_chunk. }
  intros counts. apply preserves_bind; [apply preserves_print|]. intros _.
  destruct (0 <? snd counts); [apply preserves_print|apply preserves_ret].
Qed.

End Preservation.

(* ================================================================== *)
(** * Index Writer: the raw content *)
(* ================================================================== *)

Lemma content_set_embedding (chunk_id : Z) (v : vector) (rows : list page) :
  map content (set_embedding chunk_id v rows) = map content rows.
Proof.
  unfold set_embedding. rewrite map_map. apply map_ext.
  intros p. destruct (id p =? chunk_id)%Z; reflexivity.
Qed.

Lemma content_set_search_vector (chunk_id : Z) (tsv : tsvector)
  (rows : list page) :
  map content (set_search_vector chunk_id tsv rows) = map content rows.
Proof.
  unfold set_search_vector. rewrite map_map. apply map_ext.
  intros p. destruct (id p =? chunk_id)%Z; reflexivity.
Qed.

Lemma content_kept_preserved {A : Type} (m : io A) (rows0 : list page) :
  (forall good : (list page -> list page) -> Prop,
      (forall chunk_id v, good (set_embedding chunk_id v)) ->
      (forall chunk_id tsv, good (set_search_vector chunk_id tsv)) ->
      forall I,
        (forall rows pending change,
            good change -> I rows pending ->
            I rows (Some (change (match pending with
                                  | Some rows' => rows'
                                  | None => rows
                                  end)))) ->
        (forall rows pending,
            I rows pending ->
            I (match pending with Some rows' => rows' | None => rows end)
              None) ->
        (forall rows pending, I rows pending -> I rows None) ->
        (forall rows pending change,
            good change -> I rows pending -> I (change rows) pending) ->
        preserves I m) ->
  preserves (content_kept rows0) m.
Proof.
  intros H.
  apply (H (fun change =>
              forall rows, map content (change rows) = map content rows)).
  - intros; apply content_set_embedding.
  - intros; apply content_set_search_vector.
  - intros rows [rows'|] change Hgood [Hrows Hpending]; split; auto;
      rewrite Hgood; assumption.
  - intros rows [rows'|] [Hrows Hpending]; split; auto.
  - intros rows pending [Hrows _]; split; auto.
  - intros rows pending change Hgood [Hrows Hpending]; split; auto.
    rewrite Hgood; assumption.
Qed.

(** C3, as stated, fails: the pass of final_fix_rest_api.py writes the
    augmented text back as the content of the chunk.  Input: the store
    [Sample.one_document] with the services [Sample.steady]: the content
    [requirements] of chunk 1 becomes the search prefix of PRD.md followed
    by [requirements]. *)
Lemma final_fix_overwrites_content :
  ~ (forall w : world,
        map content (pages (snd (FinalFixRestApi.main w)))
        = map content (pages w)).
Proof.
  intros H. specialize (H (connect Sample.steady Sample.one_document)).
  vm_compute in H. discriminate H.
Qed.

(** C3, amended: the passes that write embeddings — [reembed_project_docs]
    of reembed_archon.py, [main] of fix_embeddings_properly.py and
    [fix_everything] of fix_search_properly_final.py — leave the content of
    every row as it was.  The pass of final_fix_rest_api.py is the exception
    by design: [update_chunk_content] replaces the content of the chunk, when
    the gateway answers 204, by the text [create_searchable_content] built,
    which is a search prefix followed by the content the chunk had. *)
Theorem embedding_passes_keep_content (w : world) :
  txn w = None ->
  map content (pages (snd (ReembedArchon.reembed_project_docs w)))
  = map content (pages w)
  /\ map content (pages (snd (FixEmbeddingsProperly.main w)))
     = map content (pages w)
  /\ map content (pages (snd (FixSearchProperlyFinal.fix_everything w)))
     = map content (pages w)
  /\ (forall chunk_id new_content,
         pages (snd (FinalFixRestApi.update_chunk_content chunk_id
                                                          new_content w))
         = match rest_patch (env w) (now w) chunk_id with
           | Return status =>
               if status =? 204
               then set_content (to_tsvector (env w)) chunk_id new_content
                                (pages w)
               else pages w
           | Raise _ => pages w
           end)
  /\ (forall chunk new_content,
         FinalFixRestApi.create_searchable_content chunk
         = Return new_content ->
         exists search_prefix,
           new_content = (search_prefix ++ c_content chunk)%string).
Proof.
  intros Htxn.
  assert (Hstart : content_kept (pages w) (pages w) (txn w))
    by (rewrite Htxn; split; auto).
  split; [|split; [|split; [|split]]].
  - refine (proj1 (content_kept_preserved _ (pages w) _ w Hstart)).
    intros. apply preserves_reembed_project_docs with (good := good); auto.
  - refine (proj1 (content_kept_preserved _ (pages w) _ w Hstart)).
    intros. apply preserves_fix_embeddings_main with (good := good); auto.
  - refine (proj1 (content_kept_preserved _ (pages w) _ w Hstart)).
    intros. apply preserves_fix_everything with (good := good); auto.
  - intros chunk_id new_content.
    unfold FinalFixRestApi.update_chunk_content, bind, ask, requests_patch,
      ret.
    cbn [env].
    destruct (rest_patch _ _ _) as [status|e]; cbn [fst snd pages]; auto.
    destruct (status =? 204); reflexivity.
  - intros chunk new_content.
    unfold FinalFixRestApi.create_searchable_content.
    destruct (c_source_display_name chunk); [|discriminate].
    intros [= <-]. eexists. reflexivity.
Qed.

Lemma embedding_passes_keep_content_witness :
  map content
      (pages (snd (FixSearchProperlyFinal.fix_everything
                     (connect Sample.steady Sample.one_document))))
  = ["requirements"].
Proof.
  apply (embedding_passes_keep_content
           (connect Sample.steady Sample.one_document) eq_refl).
Defined.

(* ================================================================== *)
(** * Index Writer: embedding and search vector together *)
(* ================================================================== *)

Lemma both_or_neither_refl (sv : services) (rows0 rows : list page) :
  Forall2 (both_or_neither sv rows0) rows rows.
Proof.
  induction rows as [|p rows IH]; constructor; auto.
  split; auto.
Qed.

Lemma both_or_neither_update (sv : services) (rows0 : list page) (p1 : page)
  (text : string) (v : vector) (t : nat) :
  In p1 rows0 ->
  FixSearchProperlyFinal.create_MAXIMUM_contextual_content (select_columns p1)
  = Return text ->
  embeddings_create sv t (Py.slice_to 8000%Z text) = Return v ->
  forall before rows,
    Forall2 (both_or_neither sv rows0) before rows ->
    Forall2 (both_or_neither sv rows0) before
            (set_search_vector (id p1) (to_tsvector sv text)
                               (set_embedding (id p1) v rows)).
Proof.
  intros Hin Htext Hv. induction 1 as [|p0 p before rows Hp Hrest IH]; simpl;
    constructor; auto.
  destruct Hp as [Hcols Hfields].
  assert (Hid : id p = id p0) by (injection Hcols; auto).
  destruct (id p =? id p1)%Z eqn:Heq; simpl; rewrite Heq.
  - apply Z.eqb_eq in Heq. split; [exact Hcols|]. right.
    exists p1, text, v, t. simpl. repeat split; auto. congruence.
  - split; assumption.
Qed.

Lemma fix_chunk_both_or_neither (sv : services) (rows0 : list page)
  (n i : nat) (p1 : page) (counts : nat * nat) (w : world) :
  In p1 rows0 ->
  env w = sv -> txn w = None ->
  forall before,
    Forall2 (both_or_neither sv rows0) before (pages w) ->
    let w' := snd (FixSearchProperlyFinal.fix_chunk
                     n (i, select_columns p1) counts w) in
    env w' = sv /\ txn w' = None
    /\ Forall2 (both_or_neither sv rows0) before (pages w').
Proof.
  intros Hin Henv Htxn before Hbefore.
  destruct w as [sv' rows pending tr out]. simpl in Henv, Htxn, Hbefore.
  subst sv' pending. destruct counts as [s f].
  unfold FixSearchProperlyFinal.fix_chunk.
  unfold bind, try_except, print, lift, client_embeddings_create,
    cur_execute, ask, conn_commit, conn_rollback, ret, view, record, now.
  cbn [env pages txn trace stdout fst snd c_id select_columns].
  destruct (FixSearchProperlyFinal.create_MAXIMUM_contextual_content _)
    as [text|e] eqn:Htext; cbn [env pages txn trace stdout fst snd]; auto.
  destruct (embeddings_create sv _ _) as [v|e] eqn:Hv;
    cbn [env pages txn trace stdout fst snd]; auto.
  destruct (pg_fault sv _ (UpdateEmbedding _));
    cbn [env pages txn trace stdout fst snd];
    [destruct (pg_fault sv _ Rollback);
     cbn [env pages txn trace stdout fst snd]; auto|].
  destruct (pg_fault sv _ (UpdateSearchVector _));
    cbn [env pages txn trace stdout fst snd];
    [destruct (pg_fault sv _ Rollback);
     cbn [env pages txn trace stdout fst snd]; auto|].
  destruct (pg_fault sv _ Commit);
    cbn [env pages txn trace stdout fst snd];
    [destruct (pg_fault sv _ Rollback);
     cbn [env pages txn trace stdout fst snd]; auto|].
  repeat split; auto.
  eapply both_or_neither_update; eauto.
Qed.

Lemma fix_loop_both_or_neither (sv : services) (rows0 : list page) (n : nat) :
  forall (source : list page) (i : nat) (counts : nat * nat) (w : world),
    (forall p1, In p1 source -> In p1 rows0) ->
    env w = sv -> txn w = None ->
    forall before,
      Forall2 (both_or_neither sv rows0) before (pages w) ->
      let w' := snd (for_each
                       (combine (seq i (List.length source))
                                (map select_columns source))
                       (FixSearchProperlyFinal.fix_chunk n) counts w) in
      env w' = sv /\ txn w' = None
      /\ Forall2 (both_or_neither sv rows0) before (pages w').
Proof.
  induction source as [|p1 source IH];
    intros i counts w Hsource Henv Htxn before Hbefore.
  - simpl. auto.
  - cbn [List.length seq map combine for_each]. rewrite bind_run.
    destruct (fix_chunk_both_or_neither sv rows0 n i p1 counts w)
      with (before := before) as (Henv1 & Htxn1 & Hrows1); auto.
    { apply Hsource. left. reflexivity. }
    destruct (FixSearchProperlyFinal.fix_chunk n (i, select_columns p1)
                                               counts w)
      as [[counts1|e] w1]; cbn [snd] in *; auto.
    apply IH; auto. intros p Hp. apply Hsource. right. exact Hp.
Qed.

Lemma search_vector_set_embedding (chunk_id : Z) (v : vector)
  (rows : list page) :
  map content_search_vector (set_embedding chunk_id v rows)
  = map content_search_vector rows.
Proof.
  unfold set_embedding. rewrite map_map. apply map_ext.
  intros p. destruct (id p =? chunk_id)%Z; reflexivity.
Qed.

(** C2, as stated, fails: after the pass of reembed_archon.py the embedding
    of a chunk comes from its augmented text while its search vector is the
    one it had, computed from the raw content.  Input: the store
    [Sample.one_document] with the services [Sample.steady]: chunk 1 ends
    with the embedding of its 79 characters of augmented text and the search
    vector of [requirements]. *)
Lemma reembed_archon_leaves_search_vector_behind :
  ~ (forall w : world,
        txn w = None ->
        Forall2
          (fun p0 p =>
             (embedding p = embedding p0
              /\ content_search_vector p = content_search_vector p0)
             \/ exists text v,
                 ReembedArchon.create_contextual_content (select_columns p0)
                 = Return text
                 /\ embedding p = Some v
                 /\ content_search_vector p
                    = Some (to_tsvector (env w) text))
          (pages w)
          (pages (snd (ReembedArchon.reembed_project_docs w)))).
Proof.
  intros H.
  specialize (H (connect Sample.steady Sample.one_document) eq_refl).
  vm_compute in H.
  inversion H as [|p0 p rows0 rows Hp _]; subst.
  destruct Hp as [[Hemb _]|(text & v & Htext & _ & Hcsv)].
  - discriminate Hemb.
  - injection Htext as <-. discriminate Hcsv.
Qed.

(** C2, amended: [fix_everything] of fix_search_properly_final.py writes the
    embedding and the search vector of a chunk in one transaction.  After the
    pass no transaction is open and every committed row has either both
    fields as they were or both from the augmented text of its chunk (the
    embedding from the first 8000 characters of that text, the search vector
    from all of it); no other column differs.  [update_embedding] of
    reembed_archon.py writes the embedding alone: the search vector of every
    row stays as it was. *)
Theorem fix_everything_writes_both_or_neither (w : world) :
  txn w = None ->
  txn (snd (FixSearchProperlyFinal.fix_everything w)) = None
  /\ Forall2 (both_or_neither (env w) (pages w)) (pages w)
             (pages (snd (FixSearchProperlyFinal.fix_everything w)))
  /\ (forall chunk_id v,
         map content_search_vector
             (pages (snd (ReembedArchon.update_embedding chunk_id v w)))
         = map content_search_vector (pages w)).
Proof.
  intros Htxn. rewrite <- and_assoc. split.
  - remember (FixSearchProperlyFinal.fix_everything w) as r eqn:Hr.
    unfold FixSearchProperlyFinal.fix_everything in Hr.
    rewrite bind_run in Hr. unfold print at 1 in Hr.
    match type of Hr with
    | context [bind FixSearchProperlyFinal.fetch ?k ?w1] =>
        set (w0 := w1) in Hr
    end.
    change (env w) with (env w0). change (pages w) with (pages w0).
    assert (Htxn0 : txn w0 = None) by exact Htxn.
    clearbody w0. clear Htxn w.
    unfold FixSearchProperlyFinal.fetch in Hr.
    rewrite !bind_run in Hr. unfold ask at 1 in Hr.
    unfold cur_fetchall at 1 in Hr.
    destruct (pg_fault (env w0) (now w0) Select);
      [subst r; split; [exact Htxn0 | apply both_or_neither_refl]|].
    rewrite bind_run in Hr. unfold print at 1 in Hr. rewrite bind_run in Hr.
    unfold view in Hr. rewrite Htxn0 in Hr. unfold Py.enumerate in Hr.
    rewrite length_map in Hr.
    match type of Hr with
    | context [for_each (combine (seq 0 (List.length ?src)) _) ?body ?c ?w1]
      => destruct (fix_loop_both_or_neither
                     (env w0) (pages w0)
                     (List.length (map select_columns src)) src 0 c w1)
           with (before := pages w0) as (_ & Hnone & Hrows);
         [intros p Hp; apply in_order_by, filter_In in Hp; tauto
         |reflexivity|exact Htxn0|apply both_or_neither_refl|];
         rewrite length_map in Hnone, Hrows;
         destruct (for_each (combine (seq 0 (List.length src)) _) body c w1)
           as [[counts|e] w2]
    end; cbn [snd] in *.
    + rewrite bind_run in Hr. unfold print at 1 in Hr.
      destruct (0 <? snd counts); subst r; split; assumption.
    + subst r. split; assumption.
  - intros chunk_id v. destruct w as [sv rows pending tr out].
    simpl in Htxn. subst pending.
    unfold ReembedArchon.update_embedding, try_except, bind, cur_execute,
      conn_commit, conn_rollback, print, ret, view, record, now.
    cbn [env pages txn trace stdout fst snd].
    destruct (pg_fault sv _ (UpdateEmbedding _));
      cbn [env pages txn trace stdout fst snd];
      [destruct (pg_fault sv _ Rollback);
       cbn [env pages txn trace stdout fst snd]; auto|].
    destruct (pg_fault sv _ Commit);
      cbn [env pages txn trace stdout fst snd];
      [destruct (pg_fault sv _ Rollback);
       cbn [env pages txn trace stdout fst snd]; auto|].
    apply search_vector_set_embedding.
Qed.

Lemma fix_everything_writes_both_or_neither_witness :
  Forall2 (both_or_neither Sample.steady Sample.one_document)
          Sample.one_document
          (pages (snd (FixSearchProperlyFinal.fix_everything
                         (connect Sample.steady Sample.one_document)))).
Proof.
  apply (fix_everything_writes_both_or_neither
           (connect Sample.steady Sample.one_document) eq_refl).
Defined.

(* ================================================================== *)
(** * Re-Embedding Orchestrator: running a pass twice *)
(* ================================================================== *)

Lemma reembed_archon_chunk_run (sv : services) (c : chunk)
  (counts : nat * nat) (w : world) :
  time_independent sv -> env w = sv -> txn w = None ->
  match attempt sv c with
  | None =>
      exists e w',
        ReembedArchon.reembed_chunk c counts w = (Raise e, w')
        /\ env w' = sv /\ txn w' = None /\ pages w' = pages w
  | Some o =>
      exists counts' w',
        ReembedArchon.reembed_chunk c counts w = (Return counts', w')
        /\ env w' = sv /\ txn w' = None
        /\ pages w' = match o with
                      | Some v => set_embedding (c_id c) v (pages w)
                      | None => pages w
                      end
  end.
Proof.
  intros (Hemb & Hpg & _) Henv Htxn.
  destruct w as [sv' rows pending tr out]. simpl in Henv, Htxn.
  subst sv' pending. destruct counts as [s f].
  unfold attempt, ReembedArchon.reembed_chunk,
    ReembedArchon.generate_embedding, ReembedArchon.update_embedding.
  unfold bind, try_except, print, lift, client_embeddings_create,
    cur_execute, conn_commit, conn_rollback, sleep, ret, view, record, now.
  cbn [env pages txn trace stdout fst snd].
  destruct (ReembedArchon.create_contextual_content c) as [text|e];
    [|do 2 eexists; split; [reflexivity|]; auto].
  rewrite (Hemb (List.length tr) 0).
  destruct (embeddings_create sv 0 _) as [[|x v]|e];
    cbn [env pages txn trace stdout fst snd truthy];
    try (do 2 eexists; split; [reflexivity|]; auto).
  repeat match goal with
         | |- context [pg_fault sv (List.length ?l) ?s] =>
             rewrite (Hpg (List.length l) 0 s)
         end.
  destruct (pg_fault sv 0 (UpdateEmbedding _));
    cbn [env pages txn trace stdout fst snd].
  { repeat match goal with
           | |- context [pg_fault sv (List.length ?l) ?s] =>
               rewrite (Hpg (List.length l) 0 s)
           end.
    destruct (pg_fault sv 0 Rollback);
      cbn [env pages txn trace stdout fst snd];
      do 2 eexists; (split; [reflexivity|]); auto. }
  repeat match goal with
         | |- context [pg_fault sv (List.length ?l) ?s] =>
             rewrite (Hpg (List.length l) 0 s)
         end.
  destruct (pg_fault sv 0 Commit);
    cbn [env pages txn trace stdout fst snd].
  { repeat match goal with
           | |- context [pg_fault sv (List.length ?l) ?s] =>
               rewrite (Hpg (List.length l) 0 s)
           end.
    destruct (pg_fault sv 0 Rollback);
      cbn [env pages txn trace stdout fst snd];
      do 2 eexists; (split; [reflexivity|]); auto. }
  do 2 eexists; (split; [reflexivity|]); auto.
Qed.

Lemma reembed_archon_loop_pages (sv : services) :
  time_independent sv ->
  forall (chunks : list chunk) (counts : nat * nat) (w : world),
    env w = sv -> txn w = None ->
    let w' := snd (for_each chunks ReembedArchon.reembed_chunk counts w) in
    env w' = sv /\ txn w' = None
    /\ pages w'
       = map (fun p => patch_embedding (last_write sv chunks (id p)) p)
             (pages w).
Proof.
  intros Hsv. induction chunks as [|c chunks IH]; intros counts w Henv Htxn.
  - simpl. repeat split; auto. rewrite map_id. reflexivity.
  - cbn [for_each last_write]. rewrite bind_run.
    pose proof (reembed_archon_chunk_run sv c counts w Hsv Henv Htxn) as Hc.
    destruct (attempt sv c) as [o|].
    + destruct Hc as (counts' & w1 & Hrun & Henv1 & Htxn1 & Hpages1).
      rewrite Hrun.
      destruct (IH counts' w1 Henv1 Htxn1) as (Henv' & Htxn' & Hpages').
      repeat split; auto. rewrite Hpages', Hpages1.
      destruct o as [v|].
      * unfold set_embedding. rewrite map_map. apply map_ext.
        intros p. destruct (id p =? c_id c)%Z eqn:Hid; cbn [id];
          destruct (last_write sv chunks (id p)); reflexivity.
      * apply map_ext. intros p.
        destruct (last_write sv chunks (id p)); [reflexivity|].
        destruct (id p =? c_id c)%Z; reflexivity.
    + destruct Hc as (e & w1 & Hrun & Henv1 & Htxn1 & Hpages1).
      rewrite Hrun. cbn [snd].
      repeat split; auto. rewrite Hpages1, map_id. reflexivity.
Qed.

Section KeysKept.

(** A change of rows that touches no column a fetch reads. *)
Variable g : page -> page.
Hypothesis g_columns : forall p, select_columns (g p) = select_columns p.

Lemma g_id (p : page) : id (g p) = id p.
Proof. pose proof (g_columns p) as H. injection H. auto. Qed.

Lemma g_source_url (p : page) : source_url (g p) = source_url p.
Proof. pose proof (g_columns p) as H. injection H. auto. Qed.

Lemma g_source_display_name (p : page) :
  source_display_name (g p) = source_display_name p.
Proof. pose proof (g_columns p) as H. injection H. auto. Qed.

Lemma g_chunk_number (p : page) : chunk_number (g p) = chunk_number p.
Proof. pose proof (g_columns p) as H. injection H. auto. Qed.

Lemma filter_kept (pred : page -> bool) (rows : list page) :
  (forall p, pred (g p) = pred p) ->
  filter pred (map g rows) = map g (filter pred rows).
Proof.
  intros Hpred. induction rows as [|p rows IH]; simpl; auto.
  rewrite Hpred. destruct (pred p); simpl; rewrite IH; reflexivity.
Qed.

Lemma insert_kept (leb : page -> page -> bool) (x : page) (rows : list page) :
  (forall a b, leb (g a) (g b) = leb a b) ->
  Sql.insert leb (g x) (map g rows) = map g (Sql.insert leb x rows).
Proof.
  intros Hleb. induction rows as [|p rows IH]; simpl; auto.
  rewrite Hleb. destruct (leb x p); simpl; [reflexivity|].
  rewrite IH. reflexivity.
Qed.

Lemma order_by_kept (leb : page -> page -> bool) (rows : list page) :
  (forall a b, leb (g a) (g b) = leb a b) ->
  Sql.order_by leb (map g rows) = map g (Sql.order_by leb rows).
Proof.
  intros Hleb. induction rows as [|p rows IH]; simpl; auto.
  rewrite IH. apply insert_kept. exact Hleb.
Qed.

Lemma project_docs_kept (sv : services) (rows : list page) :
  map select_columns
      (Sql.order_by (ReembedArchon.doc_order sv)
                    (filter ReembedArchon.is_project_doc (map g rows)))
  = map select_columns
        (Sql.order_by (ReembedArchon.doc_order sv)
                      (filter ReembedArchon.is_project_doc rows)).
Proof.
  rewrite filter_kept, order_by_kept, map_map.
  - apply map_ext. exact g_columns.
  - intros a b. unfold ReembedArchon.doc_order.
    rewrite !g_source_display_name, !g_chunk_number. reflexivity.
  - intros p. unfold ReembedArchon.is_project_doc.
    rewrite g_source_url. reflexivity.
Qed.

End KeysKept.

Lemma patch_embedding_columns (f : Z -> option vector) (p : page) :
  select_columns (patch_embedding (f (id p)) p) = select_columns p.
Proof. destruct (f (id p)); reflexivity. Qed.

Lemma patch_embedding_twice (f : Z -> option vector) (p : page) :
  patch_embedding (f (id (patch_embedding (f (id p)) p)))
                  (patch_embedding (f (id p)) p)
  = patch_embedding (f (id p)) p.
Proof.
  destruct (f (id p)) as [v|] eqn:Hf; cbn [patch_embedding id].
  - rewrite Hf. reflexivity.
  - rewrite Hf. reflexivity.
Qed.

Lemma reembed_effect_idempotent (sv : services) (rows : list page) :
  reembed_effect sv (reembed_effect sv rows) = reembed_effect sv rows.
Proof.
  unfold reembed_effect at 2.
  destruct (pg_fault sv 0 Select) eqn:Hselect.
  { unfold reembed_effect. rewrite Hselect. reflexivity. }
  set (chunks := map select_columns
                     (Sql.order_by (ReembedArchon.doc_order sv)
                                   (filter ReembedArchon.is_project_doc
                                           rows))).
  destruct chunks as [|c chunks'] eqn:Hchunks.
  { unfold reembed_effect. rewrite Hselect. fold chunks. rewrite Hchunks.
    reflexivity. }
  destruct (negb (String.eqb (Py.lower (stdin sv 0)) "y")) eqn:Hanswer.
  { unfold reembed_effect. rewrite Hselect. fold chunks.
    rewrite Hchunks, Hanswer. reflexivity. }
  unfold reembed_effect. rewrite Hselect.
  rewrite (project_docs_kept
             (fun p => patch_embedding (last_write sv (c :: chunks') (id p)) p)
             (fun p => patch_embedding_columns _ p) sv rows).
  fold chunks. rewrite Hchunks, Hanswer.
  rewrite map_map. apply map_ext. intros p.
  apply (patch_embedding_twice (last_write sv (c :: chunks'))).
Qed.

Lemma reembed_project_docs_effect (w : world) :
  time_independent (env w) -> txn w = None ->
  let w' := snd (ReembedArchon.reembed_project_docs w) in
  env w' = env w /\ txn w' = None
  /\ pages w' = reembed_effect (env w) (pages w).
Proof.
  intros Hsv Htxn. pose proof Hsv as (_ & Hpg & Hin). cbv zeta.
  remember (ReembedArchon.reembed_project_docs w) as r eqn:Hr.
  unfold ReembedArchon.reembed_project_docs, ReembedArchon.get_project_docs
    in Hr.
  rewrite !bind_run in Hr. unfold ask at 1 in Hr.
  unfold cur_fetchall at 1 in Hr.
  rewrite (Hpg (now w) 0 Select) in Hr. unfold view in Hr.
  rewrite Htxn in Hr. unfold reembed_effect.
  destruct (pg_fault (env w) 0 Select); [subst r; auto|].
  destruct (map select_columns _) as [|c chunks] eqn:Hchunks;
    [subst r; auto|].
  rewrite bind_run in Hr. unfold print at 1 in Hr.
  rewrite bind_run in Hr. unfold print at 1 in Hr. rewrite bind_run in Hr.
  rewrite (print_each_run (fun nc => Source_count (fst nc) (snd nc))) in Hr.
  rewrite bind_run in Hr. unfold input at 1 in Hr. cbn [env record] in Hr.
  rewrite (Hin _ 0) in Hr.
  destruct (negb (String.eqb (Py.lower (stdin (env w) 0)) "y"));
    [subst r; auto|].
  rewrite bind_run in Hr.
  match type of Hr with
  | context [for_each (c :: chunks) ReembedArchon.reembed_chunk ?cnt ?w0] =>
      destruct (reembed_archon_loop_pages (env w) Hsv (c :: chunks) cnt w0
                                          eq_refl Htxn)
        as (Henv' & Htxn' & Hpages');
      destruct (for_each (c :: chunks) ReembedArchon.reembed_chunk cnt w0)
        as [[counts|e] w1]
  end; cbn [snd] in *.
  - rewrite bind_run in Hr. unfold print at 1 in Hr.
    destruct (0 <? snd counts); subst r; cbn [snd env pages txn]; auto.
  - subst r. auto.
Qed.

(** C8, as stated, fails: the pass of final_fix_rest_api.py builds on what
    its previous run wrote.  Run twice on an unchanged store, it prepends the
    search prefix twice, so the stored state after the second run is not the
    one after the first.  Input: the store [Sample.one_document] with the
    services [Sample.steady]. *)
Lemma searchable_prefix_accumulates :
  ~ (forall w : world,
        time_independent (env w) ->
        pages (snd (FinalFixRestApi.main (snd (FinalFixRestApi.main w))))
        = pages (snd (FinalFixRestApi.main w))).
Proof.
  intros H. specialize (H (connect Sample.steady Sample.one_document)).
  assert (Hsteady : time_independent Sample.steady)
    by (repeat split; reflexivity).
  specialize (H Hsteady). vm_compute in H. discriminate H.
Qed.

(** The same accumulation reaches the embedding when the two REST scripts
    are run one after the other, final_fix_rest_api.py then
    fix_embeddings_properly.py: a second round embeds a longer text than the
    first ([Sample.steady] answers with the length of the text it is given). *)
Example second_round_embeds_the_prefixed_content :
  let round w :=
    snd (FixEmbeddingsProperly.main (snd (FinalFixRestApi.main w))) in
  let w := connect Sample.steady Sample.one_document in
  map embedding (pages (round w)) = [Some [1492%Q]]
  /\ map embedding (pages (round (round w))) = [Some [1738%Q]]
  /\ map embedding
         (pages (snd (FixEmbeddingsProperly.main
                        (snd (FixEmbeddingsProperly.main w)))))
     = map embedding (pages (snd (FixEmbeddingsProperly.main w))).
Proof. vm_compute. repeat split. Qed.

(** C8, amended: with services whose answers do not depend on the time of
    the call, running [reembed_project_docs] of reembed_archon.py a second
    time leaves every committed row as the first run left it.  A pass writes
    for each chunk the vector of its augmented raw content in place of the
    stored one, and reads nothing a pass writes.  The pass of
    final_fix_rest_api.py is outside this: it rewrites the content. *)
Theorem reembed_twice_is_reembed_once (w : world) :
  time_independent (env w) ->
  txn w = None ->
  pages (snd (ReembedArchon.reembed_project_docs
                (snd (ReembedArchon.reembed_project_docs w))))
  = pages (snd (ReembedArchon.reembed_project_docs w)).
Proof.
  intros Hsv Htxn.
  destruct (reembed_project_docs_effect w Hsv Htxn)
    as (Henv1 & Htxn1 & Hpages1).
  rewrite <- Henv1 in Hsv.
  destruct (reembed_project_docs_effect _ Hsv Htxn1) as (_ & _ & Hpages2).
  rewrite Hpages2, Hpages1, Henv1. apply reembed_effect_idempotent.
Qed.

Lemma reembed_twice_is_reembed_once_witness :
  pages (snd (ReembedArchon.reembed_project_docs
                (snd (ReembedArchon.reembed_project_docs
                        (connect Sample.steady Sample.one_document)))))
  = pages (snd (ReembedArchon.reembed_project_docs
                  (connect Sample.steady Sample.one_document))).
Proof.
  apply (reembed_twice_is_reembed_once
           (connect Sample.steady Sample.one_document)).
  - repeat split; reflexivity.
  - reflexivity.
Defined.

(* ================================================================== *)
(** * The other loops *)
(* ================================================================== *)

(** X2: the loop of [reembed_project_docs] in reembed_archon.py counts
    every chunk it goes through once, as a success or as an error, whatever
    the provider answers and whichever statements the store refuses, as long
    as the rollbacks go through.  It stops early, raising, in two cases
    only: with [TypeError] at a chunk whose source has no display name, or
    with what the rollback of [update_embedding] raised after a refused
    [UPDATE] or commit; that rollback is then the last call made. *)
Lemma reembed_archon_loop_counts :
  forall (chunks : list chunk) (s f : nat) (w : world),
    match fst (for_each chunks ReembedArchon.reembed_chunk (s, f) w) with
    | Return (s', f') => s' + f' = s + f + List.length chunks
    | Raise e =>
        (e = TypeError
         /\ exists c, In c chunks /\ c_source_display_name c = None)
        \/ rollback_raised
             (env w)
             (trace (snd (for_each chunks ReembedArchon.reembed_chunk
                                   (s, f) w)))
             e
    end.
Proof.
  induction chunks as [|c chunks IH]; intros s f w.
  - simpl. lia.
  - cbn [for_each]. rewrite bind_run.
    destruct (reembed_archon_chunk_counts c s f w) as [Henv Hc].
    destruct (ReembedArchon.reembed_chunk c (s, f) w) as [[[s1 f1]|e] w1];
      cbn [fst snd] in *.
    + specialize (IH s1 f1 w1). rewrite Henv in IH.
      destruct (for_each chunks ReembedArchon.reembed_chunk (s1, f1) w1)
        as [[[s2 f2]|e] w2]; cbn [fst snd] in *.
      * cbn [List.length]. lia.
      * destruct IH as [(He & c' & Hin & Hnone)|Hroll]; [left|right; auto].
        split; auto. exists c'. split; [right|]; assumption.
    + destruct Hc as [(He & Hnone)|Hroll]; [left|right; auto].
      split; auto. exists c. split; [left|]; auto.
Qed.

(** X16: on the retrieval path the count handed to the reranker is the count
    the pool was fetched for: a pool that is not empty means a count of at
    least 1, so a failing reranker leaves the first [match_count] candidates
    of the pool, and at least one. *)
Lemma retrieval_degrades_when_rerank_fails (query : string) (match_count : Z)
  (w : world) (q : vector) (pool : list ArchonReembeddingPlan.candidate)
  (e : exn) :
  embeddings_create (env w) (now w)
    ("Search for project documentation about: " ++ query)%string
  = Return q ->
  pg_fault (env w) (S (now w)) Select = None ->
  ArchonReembeddingPlan.ranked_results (env w) q (match_count * 3)%Z (pages w)
  = Return pool ->
  cohere_rerank (env w) (S (S (now w))) query
                (map ArchonReembeddingPlan.cand_content pool)
                (Z.min match_count (Z.of_nat (List.length pool)))
  = Raise e ->
  fst (ArchonReembeddingPlan.enhanced_rag_search query match_count w)
  = Return (firstn (Z.to_nat match_count) pool)
  /\ (pool <> [] -> firstn (Z.to_nat match_count) pool <> []).
Proof.
  intros Hq Hselect Hpool Hrerank.
  assert (Hcount : (0 <= match_count)%Z).
  { unfold ArchonReembeddingPlan.ranked_results in Hpool.
    destruct (Z.ltb_spec (match_count * 3) 0); [discriminate|lia]. }
  split.
  - unfold ArchonReembeddingPlan.enhanced_rag_search.
    rewrite bind_run. unfold client_embeddings_create at 1. rewrite Hq.
    rewrite bind_run. unfold ask at 1. rewrite bind_run.
    unfold ArchonReembeddingPlan.connect_fetchall at 1.
    replace (now (record _ w)) with (S (now w))
      by (unfold now, record; cbn [trace]; rewrite length_app; simpl; lia).
    cbn [env record pages]. rewrite Hselect, Hpool.
    destruct pool as [|d pool'] eqn:Hd.
    + rewrite firstn_nil. reflexivity.
    + rewrite <- Hd in *.
      rewrite (rerank_results_raise_run query pool match_count _ e).
      * cbn [fst]. unfold Py.take.
        destruct (Z.ltb_spec match_count 0); [lia|]. reflexivity.
      * rewrite Hd. discriminate.
      * cbn [env]. rewrite <- Hrerank. f_equal.
        unfold now, record. cbn [trace]. rewrite !length_app. simpl. lia.
  - intros Hne. apply firstn_nonempty; [assumption|].
    unfold ArchonReembeddingPlan.ranked_results in Hpool.
    destruct (Z.ltb_spec (match_count * 3) 0); [discriminate|].
    injection Hpool as Hpool.
    destruct (Z.to_nat match_count) eqn:Hk; [|lia].
    assert (match_count = 0)%Z by lia. subst match_count.
    simpl in Hpool. congruence.
Qed.

(* ================================================================== *)
(** * Further properties: the writers *)
(* ================================================================== *)

(** X1: [update_embedding] of reembed_archon.py, called with no transaction
    open.  When neither the [UPDATE] nor the commit is refused it returns
    [True] and the committed rows are the old ones with the embedding of
    that chunk replaced.  When one of them is refused the committed rows are
    untouched and the handler rolls back: the function returns [False] if
    the rollback goes through, and raises what the rollback raised
    otherwise, the call to [conn.rollback()] being outside any [try].  In
    every case no transaction is left open. *)
Theorem reembed_archon_update_commits_or_rolls_back (chunk_id : Z)
  (v : vector) (w : world) :
  txn w = None ->
  exists (o : outcome bool) (w' : world),
    ReembedArchon.update_embedding chunk_id v w = (o, w')
    /\ txn w' = None
    /\ env w' = env w
    /\ match pg_fault (env w) (now w) (UpdateEmbedding chunk_id) with
       | Some _ =>
           pages w' = pages w
           /\ o = match pg_fault (env w) (S (now w)) Rollback with
                  | None => Return false
                  | Some e => Raise e
                  end
       | None =>
           match pg_fault (env w) (S (now w)) Commit with
           | Some _ =>
               pages w' = pages w
               /\ o = match pg_fault (env w) (S (S (now w))) Rollback with
                      | None => Return false
                      | Some e => Raise e
                      end
           | None =>
               pages w' = set_embedding chunk_id v (pages w)
               /\ o = Return true
           end
       end.
Proof.
  intros Htxn. destruct w as [sv rows pending tr out].
  simpl in Htxn. subst pending.
  unfold ReembedArchon.update_embedding, try_except, bind, cur_execute,
    conn_commit, conn_rollback, print, ret, view, record, now.
  cbn [env pages txn trace stdout fst snd].
  destruct (pg_fault sv (List.length tr) (UpdateEmbedding chunk_id));
    cbn [env pages txn trace stdout fst snd].
  - rewrite length_app. cbn [List.length]. rewrite Nat.add_1_r.
    destruct (pg_fault sv (S (List.length tr)) Rollback);
      do 2 eexists; (split; [reflexivity|]); auto.
  - rewrite length_app. cbn [List.length]. rewrite Nat.add_1_r.
    destruct (pg_fault sv (S (List.length tr)) Commit);
      cbn [env pages txn trace stdout fst snd].
    + rewrite !length_app. cbn [List.length]. rewrite !Nat.add_1_r.
      destruct (pg_fault sv (S (S (List.length tr))) Rollback);
        do 2 eexists; (split; [reflexivity|]); auto.
    + do 2 eexists. split; [reflexivity|]. auto.
Qed.

Lemma reembed_archon_update_commits_or_rolls_back_witness :
  exists (o : outcome bool) (w' : world),
    ReembedArchon.update_embedding
      1 [7%Q] (connect Sample.steady Sample.one_document) = (o, w')
    /\ txn w' = None
    /\ env w' = Sample.steady
    /\ pages w' = set_embedding 1 [7%Q] Sample.one_document
       /\ o = Return true.
Proof.
  exact (reembed_archon_update_commits_or_rolls_back
           1%Z [7%Q] (connect Sample.steady Sample.one_document) eq_refl).
Defined.

(* ================================================================== *)
(** * Further properties: the other loops *)
(* ================================================================== *)

Lemma fix_chunk_counts (n i : nat) (c : chunk) (s f : nat) (w : world) :
  env (snd (FixSearchProperlyFinal.fix_chunk n (i, c) (s, f) w)) = env w
  /\ match fst (FixSearchProperlyFinal.fix_chunk n (i, c) (s, f) w) with
     | Return (s', f') => s' + f' = S (s + f)
     | Raise e =>
         (e = TypeError /\ c_source_display_name c = None)
         \/ rollback_raised
              (env w)
              (trace (snd (FixSearchProperlyFinal.fix_chunk
                             n (i, c) (s, f) w)))
              e
     end.
Proof.
  remember (FixSearchProperlyFinal.fix_chunk n (i, c) (s, f) w) as r eqn:Hr.
  destruct w as [sv rows pending tr out].
  unfold FixSearchProperlyFinal.fix_chunk,
    FixSearchProperlyFinal.create_MAXIMUM_contextual_content in Hr.
  destruct (c_source_display_name c) as [name|];
    [|subst r; unfold bind, lift, print; cbn [fst snd env]; auto].
  unfold bind, try_except, print, lift, client_embeddings_create,
    cur_execute, ask, conn_commit, conn_rollback, ret, record, now in Hr.
  cbn [env pages txn trace stdout fst snd] in Hr.
  destruct (embeddings_create _ _ _) as [v|e];
    cbn [env pages txn trace stdout fst snd] in Hr;
    [|subst r; cbn [fst snd env]; split; [reflexivity|lia]].
  destruct (pg_fault sv _ (UpdateEmbedding _)) as [e0|] eqn:Hupdate;
    cbn [env pages txn trace stdout fst snd] in Hr.
  { destruct (pg_fault sv _ Rollback) as [e|] eqn:Hrollback;
      cbn [env pages txn trace stdout fst snd] in Hr;
      subst r; cbn [fst snd env trace]; (split; [reflexivity|]); [|lia].
    right. eexists _, _, e0. rewrite <- app_assoc.
    split; [reflexivity|]. split; [discriminate|].
    split; [exact Hupdate|].
    rewrite length_app, Nat.add_1_r in Hrollback. exact Hrollback. }
  destruct (pg_fault sv _ (UpdateSearchVector _)) as [e0|] eqn:Hvector;
    cbn [env pages txn trace stdout fst snd] in Hr.
  { destruct (pg_fault sv _ Rollback) as [e|] eqn:Hrollback;
      cbn [env pages txn trace stdout fst snd] in Hr;
      subst r; cbn [fst snd env trace]; (split; [reflexivity|]); [|lia].
    right. eexists _, _, e0. rewrite <- app_assoc.
    split; [reflexivity|]. split; [discriminate|].
    split; [exact Hvector|].
    rewrite length_app, Nat.add_1_r in Hrollback. exact Hrollback. }
  destruct (pg_fault sv _ Commit) as [e0|] eqn:Hcommit;
    cbn [env pages txn trace stdout fst snd] in Hr.
  { destruct (pg_fault sv _ Rollback) as [e|] eqn:Hrollback;
      cbn [env pages txn trace stdout fst snd] in Hr;
      subst r; cbn [fst snd env trace]; (split; [reflexivity|]); [|lia].
    right. eexists _, _, e0. rewrite <- app_assoc.
    split; [reflexivity|]. split; [discriminate|].
    split; [exact Hcommit|].
    rewrite length_app, Nat.add_1_r in Hrollback. exact Hrollback. }
  subst r. cbn [fst snd env]. split; [reflexivity|lia].
Qed.

(** X3: the loop of [fix_everything] in fix_search_properly_final.py counts
    every chunk it goes through once, as a success or as a failure, whatever
    the provider answers and whichever statements the store refuses, as long
    as the rollbacks go through.  It stops early, raising, in two cases
    only: the contextualizer, called outside both [try] blocks, raises
    [TypeError] on a chunk whose source has no display name; or the
    rollback of the second handler, itself outside any [try], raises after
    a refused statement, and is then the last call made. *)
Theorem fix_everything_loop_counts (n : nat) :
  forall (chunks : list chunk) (i s f : nat) (w : world),
    match fst (for_each (combine (seq i (List.length chunks)) chunks)
                        (FixSearchProperlyFinal.fix_chunk n) (s, f) w) with
    | Return (s', f') => s' + f' = s + f + List.length chunks
    | Raise e =>
        (e = TypeError
         /\ exists c, In c chunks /\ c_source_display_name c = None)
        \/ rollback_raised
             (env w)
             (trace (snd (for_each
                            (combine (seq i (List.length chunks)) chunks)
                            (FixSearchProperlyFinal.fix_chunk n) (s, f) w)))
             e
    end.
Proof.
  induction chunks as [|c chunks IH]; intros i s f w.
  - simpl. lia.
  - cbn [List.length seq combine for_each]. rewrite bind_run.
    destruct (fix_chunk_counts n i c s f w) as [Henv Hc].
    destruct (FixSearchProperlyFinal.fix_chunk n (i, c) (s, f) w)
      as [[[s1 f1]|e] w1]; cbn [fst snd] in *.
    + specialize (IH (S i) s1 f1 w1). rewrite Henv in IH.
      destruct (for_each (combine (seq (S i) (List.length chunks)) chunks)
                         (FixSearchProperlyFinal.fix_chunk n) (s1, f1) w1)
        as [[[s2 f2]|e] w2]; cbn [fst snd] in *.
      * lia.
      * destruct IH as [(He & c' & Hin & Hnone)|Hroll]; [left|right; auto].
        split; auto. exists c'. split; [right|]; assumption.
    + destruct Hc as [(He & Hnone)|Hroll]; [left|right; auto].
      split; auto. exists c. split; [left|]; auto.
Qed.

Lemma embedding_set_content (to_tsv : string -> tsvector) (chunk_id : Z)
  (text : string) (rows : list page) :
  map embedding (set_content to_tsv chunk_id text rows) = map embedding rows.
Proof.
  unfold set_content. rewrite map_map. apply map_ext.
  intros p. destruct (id p =? chunk_id)%Z; reflexivity.
Qed.

Lemma final_fix_update_chunk_run (n i : nat) (c : chunk) (s f : nat)
  (w : world) :
  exists s' f' w',
    FinalFixRestApi.update_chunk n (i, c) (s, f) w = (Return (s', f'), w')
    /\ s' + f' = S (s + f)
    /\ s <= s'
    /\ map embedding (pages w') = map embedding (pages w)
    /\ (s' = s -> pages w' = pages w).
Proof.
  unfold FinalFixRestApi.update_chunk,
    FinalFixRestApi.create_searchable_content,
    FinalFixRestApi.update_chunk_content.
  destruct (c_source_display_name c) as [name|].
  2:{ do 3 eexists. split; [reflexivity|]. cbn [pages snd].
      repeat split; auto; lia. }
  unfold bind, try_except, print, lift, ask, requests_patch, sleep, record,
    ret.
  cbn [env pages txn trace stdout fst snd].
  destruct (rest_patch _ _ _) as [status|e];
    cbn [env pages txn trace stdout fst snd status_code].
  2:{ do 3 eexists. split; [reflexivity|]. cbn [pages].
      repeat split; auto; lia. }
  destruct (status =? 204); cbn [env pages txn trace stdout fst snd];
    do 3 eexists; (split; [reflexivity|]); cbn [pages].
  - repeat split; try lia. apply embedding_set_content.
  - repeat split; auto; lia.
Qed.

(** X4: the loop of [main] in final_fix_rest_api.py never raises, whatever
    the gateway answers and whatever the rows hold: every chunk is counted
    once, as a success or as a failure.  It sends contents only: the
    embeddings of the store are those from before the loop.  When no chunk
    is counted as a success the store has not changed at all. *)
Theorem final_fix_loop_counts_every_chunk (n : nat) :
  forall (chunks : list chunk) (i s f : nat) (w : world),
  exists s' f' w',
    for_each (combine (seq i (List.length chunks)) chunks)
             (FinalFixRestApi.update_chunk n) (s, f) w
    = (Return (s', f'), w')
    /\ s' + f' = s + f + List.length chunks
    /\ s <= s'
    /\ map embedding (pages w') = map embedding (pages w)
    /\ (s' = s -> pages w' = pages w).
Proof.
  induction chunks as [|c chunks IH]; intros i s f w.
  - exists s, f, w. simpl. repeat split; auto; lia.
  - cbn [List.length seq combine for_each]. rewrite bind_run.
    destruct (final_fix_update_chunk_run n i c s f w)
      as (s1 & f1 & w1 & Hrun & Hsum & Hle & Hemb & Hsame).
    rewrite Hrun.
    destruct (IH (S i) s1 f1 w1)
      as (s2 & f2 & w2 & Hrun2 & Hsum2 & Hle2 & Hemb2 & Hsame2).
    exists s2, f2, w2. rewrite Hrun2. repeat split.
    + lia.
    + lia.
    + congruence.
    + intros Heq. assert (s1 = s) by lia. assert (s2 = s1) by lia.
      rewrite Hsame2, Hsame; auto.
Qed.

Lemma reembed_all_chunk_run (n i : nat) (c : chunk) (s f : nat) (w : world) :
  exists s' f' w',
    ReembedAllProjectDocs.reembed_chunk n (i, c) (s, f) w
    = (Return (s', f'), w')
    /\ s' + f' = S (s + f)
    /\ s <= s'
    /\ (s' = s -> pages w' = pages w).
Proof.
  unfold ReembedAllProjectDocs.reembed_chunk,
    ReembedAllProjectDocs.create_contextual_content,
    ReembedAllProjectDocs.generate_embedding,
    ReembedAllProjectDocs.update_embedding.
  destruct (c_source_display_name c) as [name|].
  2:{ do 3 eexists. split; [reflexivity|]. cbn [pages snd].
      repeat split; auto; lia. }
  unfold bind, try_except, print, lift, client_embeddings_create, sleep,
    record, ret.
  cbn [env pages txn trace stdout fst snd].
  destruct (embeddings_create _ _ _) as [[|x v]|e];
    cbn [env pages txn trace stdout fst snd truthy].
  1,3: do 3 eexists; (split; [reflexivity|]); cbn [pages];
       repeat split; auto; lia.
  unfold requests_patch, record. cbn [env pages txn trace stdout fst snd].
  destruct (rest_patch _ _ _) as [status|e];
    cbn [env pages txn trace stdout fst snd status_code].
  2:{ do 3 eexists. split; [reflexivity|]. cbn [pages].
      repeat split; auto; lia. }
  destruct (status =? 204); cbn [env pages txn trace stdout fst snd];
    do 3 eexists; (split; [reflexivity|]); cbn [pages];
    repeat split; auto; lia.
Qed.

Lemma reembed_all_loop_run (n : nat) :
  forall (chunks : list chunk) (i s f : nat) (w : world),
  exists s' f' w',
    for_each (combine (seq i (List.length chunks)) chunks)
             (ReembedAllProjectDocs.reembed_chunk n) (s, f) w
    = (Return (s', f'), w')
    /\ s' + f' = s + f + List.length chunks
    /\ s <= s'
    /\ (s' = s -> pages w' = pages w).
Proof.
  induction chunks as [|c chunks IH]; intros i s f w.
  - exists s, f, w. simpl. repeat split; auto; lia.
  - cbn [List.length seq combine for_each]. rewrite bind_run.
    destruct (reembed_all_chunk_run n i c s f w)
      as (s1 & f1 & w1 & Hrun & Hsum & Hle & Hsame).
    rewrite Hrun.
    destruct (IH (S i) s1 f1 w1)
      as (s2 & f2 & w2 & Hrun2 & Hsum2 & Hle2 & Hsame2).
    exists s2, f2, w2. rewrite Hrun2. repeat split; try lia.
    intros Heq. assert (s1 = s) by lia. assert (s2 = s1) by lia.
    rewrite Hsame2, Hsame; auto.
Qed.

Lemma reembed_all_fetch_keeps_pages (w : world) :
  pages (snd (ReembedAllProjectDocs.get_project_documents w)) = pages w.
Proof.
  pose (I := fun (rows : list page) (_ : option (list page)) =>
               rows = pages w).
  cut (preserves I ReembedAllProjectDocs.get_project_documents).
  { intros H. apply (H w). reflexivity. }
  unfold ReembedAllProjectDocs.get_project_documents.
  apply preserves_bind; [apply preserves_print|]. intros _.
  apply preserves_bind.
  { apply preserves_for_each. intros pattern acc.
    apply preserves_bind; [apply preserves_requests_get|].
    intros r. destruct (status_code r =? 200); apply preserves_ret. }
  intros [[|c chunks] status]; cbn [fst snd].
  - apply preserves_bind; [apply preserves_print|].
    intros; apply preserves_ret.
  - apply preserves_bind; [apply preserves_print|]. intros _.
    apply preserves_bind.
    { apply preserves_for_each. intros; apply preserves_print. }
    intros; apply preserves_ret.
Qed.

(** X5: every outcome of [reembed_all_project_docs] of
    reembed_all_project_docs.py other than [True] means that the store was
    not written: when the function returns [False] (no chunk fetched, the
    operator declined, or no chunk counted as a success) or when a fetch
    raises, the committed rows are those from before the call. *)
Theorem reembed_all_unchanged_unless_true (w : world) :
  fst (ReembedAllProjectDocs.reembed_all_project_docs w) <> Return true ->
  pages (snd (ReembedAllProjectDocs.reembed_all_project_docs w)) = pages w.
Proof.
  remember (ReembedAllProjectDocs.reembed_all_project_docs w) as r eqn:Hr.
  unfold ReembedAllProjectDocs.reembed_all_project_docs in Hr.
  rewrite bind_run in Hr.
  pose proof (reembed_all_fetch_keeps_pages w) as Hfetch.
  destruct (ReembedAllProjectDocs.get_project_documents w)
    as [[[[|c chunks]|]|e] w1]; cbn [fst snd] in Hfetch;
    try (subst r; intros _; exact Hfetch).
  rewrite bind_run in Hr. unfold input at 1 in Hr.
  destruct (negb _).
  { subst r. intros _. exact Hfetch. }
  rewrite bind_run in Hr. unfold print at 1 in Hr. rewrite bind_run in Hr.
  unfold Py.enumerate in Hr.
  match type of Hr with
  | context [for_each _ _ _ ?w0] =>
      destruct (reembed_all_loop_run (List.length (c :: chunks))
                                     (c :: chunks) 0 0 0 w0)
        as (s' & f' & w' & Hrun & _ & _ & Hsame);
      rewrite Hrun in Hr
  end.
  rewrite bind_run in Hr. unfold print at 1 in Hr. rewrite bind_run in Hr.
  cbn [fst snd] in Hr.
  destruct (0 <? f'); unfold print, ret in Hr; subst r;
    cbn [fst snd pages env txn trace stdout] in *;
    (destruct s' as [|s']; [intros _|intros H; exfalso; apply H; reflexivity]);
    rewrite Hsame by reflexivity; exact Hfetch.
Qed.

Lemma reembed_all_unchanged_unless_true_witness :
  pages (snd (ReembedAllProjectDocs.reembed_all_project_docs
                (connect Sample.locked_out Sample.two_documents)))
  = Sample.two_documents.
Proof.
  apply (reembed_all_unchanged_unless_true
           (connect Sample.locked_out Sample.two_documents)).
  vm_compute. discriminate.
Defined.

(* ================================================================== *)
(** * Further properties: where the cut falls *)
(* ================================================================== *)

Lemma substring_app_prefix (a b : string) :
  forall n : nat,
    String.length a <= n ->
    String.substring 0 n (a ++ b)
    = (a ++ String.substring 0 (n - String.length a) b)%string.
Proof.
  induction a as [|c a IH]; intros n Hn; simpl in *.
  - rewrite Nat.sub_0_r. reflexivity.
  - destruct n as [|n]; [lia|]. simpl. rewrite IH by lia. reflexivity.
Qed.

Lemma slice_to_app (stop : Z) (a b : string) :
  (Z.of_nat (String.length a) <= stop)%Z ->
  Py.slice_to stop (a ++ b)
  = (a ++ Py.slice_to (stop - Z.of_nat (String.length a)) b)%string.
Proof.
  intros H. unfold Py.slice_to.
  destruct (Z.ltb_spec stop 0); [lia|].
  destruct (Z.ltb_spec (stop - Z.of_nat (String.length a)) 0); [lia|].
  rewrite substring_app_prefix by lia.
  do 2 f_equal. lia.
Qed.

Lemma cut_after_prefix (prefix content closing : string) (w : world) :
  (Z.of_nat (String.length prefix) <= 1225)%Z ->
  trace (snd (FixEmbeddingsProperly.generate_embedding
                (prefix ++ content ++ closing) w))
  = trace w
    ++ [EmbeddingsCreate
          (prefix ++ Py.slice_to (8000 - Z.of_nat (String.length prefix))
                                 (content ++ closing))]
  /\ ((Z.of_nat (String.length content) <= 6775)%Z ->
      exists rest : string,
        Py.slice_to (8000 - Z.of_nat (String.length prefix))
                    (content ++ closing)
        = (content ++ rest)%string).
Proof.
  intros Hlen. split.
  - rewrite fix_embeddings_generate_embedding_run.
    rewrite slice_to_app by lia.
    destruct (embeddings_create _ _ _); reflexivity.
  - intros Hc. rewrite slice_to_app by lia. eexists. reflexivity.
Qed.

(** X6: in fix_embeddings_properly.py the 8000-character cut of
    [generate_embedding] never reaches the keyword prefix that
    [create_AGGRESSIVE_contextual_content] puts before the content.  The
    prefix is one of five fixed texts of at most 1225 characters; the text
    sent to the provider is that prefix, whole, followed by the first
    characters of the content and the closing line.  A content of up to 6775
    characters is sent whole. *)
Theorem aggressive_prefix_survives_the_cut (chunk : chunk) (text : string)
  (w : world) :
  FixEmbeddingsProperly.create_AGGRESSIVE_contextual_content chunk
  = Return text ->
  exists prefix sent : string,
    In prefix [FixEmbeddingsProperly.prd_prefix;
               FixEmbeddingsProperly.claude_prefix;
               FixEmbeddingsProperly.kb_prefix;
               FixEmbeddingsProperly.apis_prefix;
               FixEmbeddingsProperly.default_prefix]
    /\ (Z.of_nat (String.length prefix) <= 1225)%Z
    /\ trace (snd (FixEmbeddingsProperly.generate_embedding text w))
       = trace w ++ [EmbeddingsCreate (prefix ++ sent)]
    /\ sent = Py.slice_to (8000 - Z.of_nat (String.length prefix))
                          (c_content chunk
                           ++ FixEmbeddingsProperly.closing)
    /\ ((Z.of_nat (String.length (c_content chunk)) <= 6775)%Z ->
        exists rest : string, sent = (c_content chunk ++ rest)%string).
Proof.
  unfold FixEmbeddingsProperly.create_AGGRESSIVE_contextual_content.
  destruct (c_source_display_name chunk) as [name|]; [|discriminate].
  intros H. injection H as <-.
  assert (Hall : forall prefix,
             (Z.of_nat (String.length prefix) <=? 1225)%Z = true ->
             In prefix [FixEmbeddingsProperly.prd_prefix;
                        FixEmbeddingsProperly.claude_prefix;
                        FixEmbeddingsProperly.kb_prefix;
                        FixEmbeddingsProperly.apis_prefix;
                        FixEmbeddingsProperly.default_prefix] ->
             exists prefix' sent : string,
               In prefix' [FixEmbeddingsProperly.prd_prefix;
                           FixEmbeddingsProperly.claude_prefix;
                           FixEmbeddingsProperly.kb_prefix;
                           FixEmbeddingsProperly.apis_prefix;
                           FixEmbeddingsProperly.default_prefix]
               /\ (Z.of_nat (String.length prefix') <= 1225)%Z
               /\ trace (snd (FixEmbeddingsProperly.generate_embedding
                                (prefix ++ c_content chunk
                                 ++ FixEmbeddingsProperly.closing) w))
                  = trace w ++ [EmbeddingsCreate (prefix' ++ sent)]
               /\ sent = Py.slice_to
                           (8000 - Z.of_nat (String.length prefix'))
                           (c_content chunk
                            ++ FixEmbeddingsProperly.closing)
               /\ ((Z.of_nat (String.length (c_content chunk)) <= 6775)%Z ->
                   exists rest : string,
                     sent = (c_content chunk ++ rest)%string)).
  { intros prefix Hlen Hin. apply Z.leb_le in Hlen.
    destruct (cut_after_prefix prefix (c_content chunk)
                               FixEmbeddingsProperly.closing w Hlen)
      as [Htrace Hwhole].
    exists prefix. eexists. repeat split; eauto. }
  destruct (Py.contains "PRD.md" name);
    [apply (Hall FixEmbeddingsProperly.prd_prefix);
     [vm_compute; reflexivity | simpl; auto]|].
  destruct (Py.contains "CLAUDE.md" name);
    [apply (Hall FixEmbeddingsProperly.claude_prefix);
     [vm_compute; reflexivity | simpl; auto]|].
  destruct (Py.contains "knowledge_base_roofing" name);
    [apply (Hall FixEmbeddingsProperly.kb_prefix);
     [vm_compute; reflexivity | simpl; auto]|].
  destruct (Py.contains "roofing_industry_apis" name);
    [apply (Hall FixEmbeddingsProperly.apis_prefix);
     [vm_compute; reflexivity | simpl; auto]|].
  apply (Hall FixEmbeddingsProperly.default_prefix);
    [vm_compute; reflexivity | simpl; auto 6].
Qed.

Lemma aggressive_prefix_survives_the_cut_witness :
  exists prefix sent : string,
    In prefix [FixEmbeddingsProperly.prd_prefix;
               FixEmbeddingsProperly.claude_prefix;
               FixEmbeddingsProperly.kb_prefix;
               FixEmbeddingsProperly.apis_prefix;
               FixEmbeddingsProperly.default_prefix]
    /\ (Z.of_nat (String.length prefix) <= 1225)%Z
    /\ trace (snd (FixEmbeddingsProperly.generate_embedding
                     (FixEmbeddingsProperly.prd_prefix ++ "requirements"
                      ++ FixEmbeddingsProperly.closing)
                     (connect Sample.steady Sample.two_documents)))
       = trace (connect Sample.steady Sample.two_documents)
         ++ [EmbeddingsCreate (prefix ++ sent)]
    /\ sent = Py.slice_to (8000 - Z.of_nat (String.length prefix))
                          (c_content
                             (select_columns
                                (Sample.prd_page 1 "requirements"))
                           ++ FixEmbeddingsProperly.closing)
    /\ ((Z.of_nat (String.length
                     (c_content
                        (select_columns
                           (Sample.prd_page 1 "requirements"))))
         <= 6775)%Z ->
        exists rest : string,
          sent = (c_content (select_columns
                               (Sample.prd_page 1 "requirements"))
                  ++ rest)%string).
Proof.
  apply (aggressive_prefix_survives_the_cut
           (select_columns (Sample.prd_page 1 "requirements"))
           (FixEmbeddingsProperly.prd_prefix ++ "requirements"
            ++ FixEmbeddingsProperly.closing)
           (connect Sample.steady Sample.two_documents)).
  reflexivity.
Defined.

(* ================================================================== *)
(** * Further properties: the summary before the confirmation *)
(* ================================================================== *)

Lemma tally_key_test (k name : option string) :
  match k, name with
  | Some a, Some b => String.eqb a b
  | None, None => true
  | _, _ => false
  end = true <-> k = name.
Proof.
  destruct k as [a|], name as [b|]; try (split; congruence).
  rewrite String.eqb_eq. split; congruence.
Qed.

Lemma tally_add_sum (name : option string)
  (counts : list (option string * nat)) :
  list_sum (map snd (tally_add name counts))
  = S (list_sum (map snd counts)).
Proof.
  induction counts as [|[k n] counts IH]; simpl; auto.
  destruct (match k, name with
            | Some a, Some b => String.eqb a b
            | None, None => true
            | _, _ => false
            end); simpl; lia.
Qed.

Lemma tally_add_keys (name k' : option string)
  (counts : list (option string * nat)) :
  In k' (map fst (tally_add name counts))
  <-> k' = name \/ In k' (map fst counts).
Proof.
  induction counts as [|[k n] counts IH]; simpl.
  - intuition.
  - destruct (match k, name with
              | Some a, Some b => String.eqb a b
              | None, None => true
              | _, _ => false
              end) eqn:Htest; simpl.
    + apply tally_key_test in Htest. subst k. intuition.
    + rewrite IH. intuition.
Qed.

Lemma tally_add_nodup (name : option string)
  (counts : list (option string * nat)) :
  NoDup (map fst counts) -> NoDup (map fst (tally_add name counts)).
Proof.
  induction counts as [|[k n] counts IH]; simpl; intros Hnd.
  - constructor; [tauto|constructor].
  - inversion Hnd as [|? ? Hnotin Hnd']; subst.
    destruct (match k, name with
              | Some a, Some b => String.eqb a b
              | None, None => true
              | _, _ => false
              end) eqn:Htest; simpl.
    + constructor; assumption.
    + constructor; [|auto].
      rewrite tally_add_keys. intros [Heq|Hin]; [|contradiction].
      apply tally_key_test in Heq. congruence.
Qed.

(** X7: the grouping printed before the confirmation prompt
    ([sources[name] += 1] over the batch, in reembed_archon.py,
    fix_embeddings_properly.py and reembed_all_project_docs.py) loses no
    chunk and repeats no document: its counts add up to the size of the
    batch, every display name of the batch is listed, once, and nothing
    else is. *)
Theorem tally_accounts_for_every_chunk (chunks : list chunk) :
  list_sum (map snd (tally chunks)) = List.length chunks
  /\ NoDup (map fst (tally chunks))
  /\ (forall name : option string,
         In name (map fst (tally chunks))
         <-> In name (map c_source_display_name chunks)).
Proof.
  unfold tally.
  cut (forall acc : list (option string * nat),
          NoDup (map fst acc) ->
          let r := fold_left
                     (fun counts c =>
                        tally_add (c_source_display_name c) counts)
                     chunks acc in
          list_sum (map snd r) = list_sum (map snd acc) + List.length chunks
          /\ NoDup (map fst r)
          /\ (forall name,
                 In name (map fst r)
                 <-> In name (map fst acc)
                     \/ In name (map c_source_display_name chunks))).
  { intros H. destruct (H [] (NoDup_nil _)) as (Hsum & Hnd & Hkeys).
    split; [exact Hsum|]. split; [exact Hnd|].
    intros name. rewrite Hkeys. simpl. tauto. }
  induction chunks as [|c chunks IH]; intros acc Hnd; cbn [fold_left].
  - simpl. split; [lia|]. split; [assumption|]. intros name. tauto.
  - destruct (IH (tally_add (c_source_display_name c) acc)
                 (tally_add_nodup _ _ Hnd)) as (Hsum & Hnd' & Hkeys).
    cbv zeta in *. split; [|split].
    + rewrite Hsum, tally_add_sum. simpl. lia.
    + assumption.
    + intros name. rewrite Hkeys, tally_add_keys. simpl.
      intuition congruence.
Qed.

(* ================================================================== *)
(** * Further properties: the statistics and the test query *)
(* ================================================================== *)

Lemma like_first_character (p : ascii) (pattern s : string) :
  Ascii.eqb p "%"%char = false ->
  Ascii.eqb p "_"%char = false ->
  Sql.like (String p pattern) s = true ->
  exists s', s = String p s'.
Proof.
  intros Hany Hone Hlike. destruct s as [|c s]; simpl in Hlike;
    rewrite Hany in Hlike; [discriminate|].
  rewrite Hone in Hlike. apply andb_prop in Hlike. destruct Hlike as [Hc _].
  apply Ascii.eqb_eq in Hc. subst c. exists s. reflexivity.
Qed.

Lemma file_url_is_not_web (s : string) :
  Sql.like "file://%" s = true -> Sql.like "http%" s = false.
Proof.
  intros Hfile.
  destruct (like_first_character "f"%char "ile://%" s eq_refl eq_refl Hfile)
    as (s' & ->).
  reflexivity.
Qed.

Lemma length_filter_le {A : Type} (p : A -> bool) (l : list A) :
  List.length (filter p l) <= List.length l.
Proof.
  induction l as [|a l IH]; simpl; auto. destruct (p a); simpl; lia.
Qed.

Lemma length_filter_disjoint {A : Type} (p q : A -> bool) (l : list A) :
  (forall a, p a = true -> q a = false) ->
  List.length (filter p l) + List.length (filter q l) <= List.length l.
Proof.
  intros Hpq. induction l as [|a l IH]; simpl; auto.
  destruct (p a) eqn:Hp.
  - rewrite (Hpq a Hp). simpl. lia.
  - destruct (q a); simpl; lia.
Qed.

(** X8: the counts of [get_stats] in reembed_archon.py are consistent: the
    chunks with an embedding are at most the total, and no chunk is counted
    both as a file chunk and as a web chunk, since no address matches both
    [file://%] and [http%], so those two counts together are at most the
    total.  The call reads the rows the connection sees and leaves the store
    as it was. *)
Theorem get_stats_counts_are_consistent (w w' : world)
  (st : ReembedArchon.stats) :
  ReembedArchon.get_stats w = (Return st, w') ->
  ReembedArchon.total_chunks st = List.length (view w)
  /\ ReembedArchon.chunks_with_embeddings st <= ReembedArchon.total_chunks st
  /\ ReembedArchon.file_chunks st + ReembedArchon.web_chunks st
     <= ReembedArchon.total_chunks st
  /\ pages w' = pages w /\ txn w' = txn w.
Proof.
  unfold ReembedArchon.get_stats, cur_fetchone.
  destruct (pg_fault _ _ _); [discriminate|].
  intros H. injection H as <- <-. unfold ReembedArchon.count_stats.
  cbn [ReembedArchon.total_chunks ReembedArchon.chunks_with_embeddings
       ReembedArchon.file_chunks ReembedArchon.web_chunks pages txn record].
  repeat split.
  - apply length_filter_le.
  - apply length_filter_disjoint. intros p. apply file_url_is_not_web.
Qed.

Lemma get_stats_counts_are_consistent_witness :
  ReembedArchon.total_chunks (ReembedArchon.count_stats Sample.mixed_store)
  = List.length (view (connect Sample.steady Sample.mixed_store))
  /\ ReembedArchon.chunks_with_embeddings
       (ReembedArchon.count_stats Sample.mixed_store)
     <= ReembedArchon.total_chunks
          (ReembedArchon.count_stats Sample.mixed_store)
  /\ ReembedArchon.file_chunks (ReembedArchon.count_stats Sample.mixed_store)
     + ReembedArchon.web_chunks (ReembedArchon.count_stats Sample.mixed_store)
     <= ReembedArchon.total_chunks
          (ReembedArchon.count_stats Sample.mixed_store)
  /\ pages (snd (ReembedArchon.get_stats
                   (connect Sample.steady Sample.mixed_store)))
     = pages (connect Sample.steady Sample.mixed_store)
  /\ txn (snd (ReembedArchon.get_stats
                 (connect Sample.steady Sample.mixed_store)))
     = txn (connect Sample.steady Sample.mixed_store).
Proof.
  apply (get_stats_counts_are_consistent
           (connect Sample.steady Sample.mixed_store)
           (snd (ReembedArchon.get_stats
                   (connect Sample.steady Sample.mixed_store)))
           (ReembedArchon.count_stats Sample.mixed_store)).
  reflexivity.
Defined.

Lemma sorted_app_le {A : Type} (R : A -> A -> Prop) (l1 l2 : list A)
  (a b : A) :
  StronglySorted R (l1 ++ l2) -> In a l1 -> In b l2 -> R a b.
Proof.
  induction l1 as [|x l1 IH]; simpl; intros Hsorted Ha Hb; [contradiction|].
  inversion Hsorted as [|? ? Hsorted' Hall]; subst.
  destruct Ha as [->|Ha]; [|auto].
  rewrite Forall_forall in Hall. apply Hall, in_or_app. auto.
Qed.

Lemma length_reembed_archon_embedded (sv : services) (q : vector)
  (rows : list page) :
  List.length (ReembedArchon.embedded sv q rows)
  = List.length (filter has_embedding rows).
Proof.
  unfold ReembedArchon.embedded, has_embedding.
  induction rows as [|p rows IH]; simpl; auto.
  destruct (embedding p); simpl; auto.
Qed.

(** X9: the query of [test_search] in reembed_archon.py lists the ten
    nearest embedded rows: it returns ten hits, or as many as there are rows
    with an embedding when there are fewer, in ascending order of distance to
    the query; and a row with an embedding is either among the hits or at
    least as far from the query as every hit. *)
Theorem test_search_lists_the_ten_nearest (sv : services) (q : vector)
  (rows : list page) (p : page) (v : vector) :
  In p rows ->
  embedding p = Some v ->
  List.length (ReembedArchon.nearest sv q rows)
  = Nat.min 10 (List.length (filter has_embedding rows))
  /\ StronglySorted
       (fun a b => (ReembedArchon.distance a <= ReembedArchon.distance b)%Q)
       (ReembedArchon.nearest sv q rows)
  /\ ((exists h, In h (ReembedArchon.nearest sv q rows)
                 /\ ReembedArchon.hit_id h = id p
                 /\ ReembedArchon.distance h = cosine_distance sv v q)
      \/ (forall h, In h (ReembedArchon.nearest sv q rows) ->
                    (ReembedArchon.distance h <= cosine_distance sv v q)%Q)).
Proof.
  intros Hp Hv. unfold ReembedArchon.nearest.
  set (leb := fun a b : page * Q => Qle_bool (snd a) (snd b)).
  set (sorted := Sql.order_by leb (ReembedArchon.embedded sv q rows)).
  assert (Hsorted : StronglySorted (fun a b => leb a b = true) sorted).
  { apply order_by_sorted.
    - intros a b. apply Qle_bool_total.
    - intros a b c. apply Qle_bool_trans. }
  split; [|split].
  - rewrite length_map, length_firstn. unfold sorted.
    rewrite length_order_by, length_reembed_archon_embedded. reflexivity.
  - assert (Hcut := StronglySorted_firstn _ 10 _ Hsorted).
    induction Hcut as [|a l Hl IH Hall]; simpl; constructor; auto.
    rewrite Forall_forall in *. intros h Hh.
    apply in_map_iff in Hh. destruct Hh as (b & <- & Hb).
    cbn [ReembedArchon.distance]. apply Qle_bool_iff. apply (Hall b Hb).
  - assert (Hin : In (p, cosine_distance sv v q) sorted).
    { apply in_order_by. unfold ReembedArchon.embedded.
      apply in_flat_map. exists p. split; [assumption|].
      rewrite Hv. left. reflexivity. }
    rewrite <- (firstn_skipn 10 sorted) in Hin, Hsorted.
    apply in_app_or in Hin. destruct Hin as [Hin|Hin].
    + left. eexists. split; [apply in_map; exact Hin|]. split; reflexivity.
    + right. intros h Hh. apply in_map_iff in Hh.
      destruct Hh as (b & <- & Hb). cbn [ReembedArchon.distance].
      apply Qle_bool_iff.
      apply (sorted_app_le _ _ _ b (p, cosine_distance sv v q) Hsorted Hb Hin).
Qed.

Lemma test_search_lists_the_ten_nearest_witness :
  List.length (ReembedArchon.nearest Sample.steady [4%Q] Sample.mixed_store)
  = Nat.min 10 (List.length (filter has_embedding Sample.mixed_store))
  /\ StronglySorted
       (fun a b => (ReembedArchon.distance a <= ReembedArchon.distance b)%Q)
       (ReembedArchon.nearest Sample.steady [4%Q] Sample.mixed_store)
  /\ ((exists h,
          In h (ReembedArchon.nearest Sample.steady [4%Q] Sample.mixed_store)
          /\ ReembedArchon.hit_id h
             = id (Sample.web_page 3 "flashing" (Some [5%Q]))
          /\ ReembedArchon.distance h
             = cosine_distance Sample.steady [5%Q] [4%Q])
      \/ (forall h,
             In h (ReembedArchon.nearest Sample.steady [4%Q]
                                         Sample.mixed_store) ->
             (ReembedArchon.distance h
              <= cosine_distance Sample.steady [5%Q] [4%Q])%Q)).
Proof.
  apply (test_search_lists_the_ten_nearest
           Sample.steady [4%Q] Sample.mixed_store
           (Sample.web_page 3 "flashing" (Some [5%Q])) [5%Q]).
  - simpl. auto.
  - reflexivity.
Defined.

(** X10: when the provider gives no usable vector for the query of
    [test_search] (the call raises, or the vector is empty), the search
    sends nothing to the store: the only call made is the one to the
    provider, the failure message is printed last, and the function returns
    normally with the store as it was. *)
Theorem test_search_without_vector_skips_the_store (query : string)
  (w : world) :
  truthy (match embeddings_create (env w) (now w)
                  (Py.slice_to 8000%Z
                     ("Search for roofing project documentation about: "
                      ++ query))
          with
          | Return v => Some v
          | Raise _ => None
          end) = false ->
  exists w',
    ReembedArchon.test_search query w = (Return tt, w')
    /\ trace w'
       = trace w
         ++ [EmbeddingsCreate
               (Py.slice_to 8000%Z
                  ("Search for roofing project documentation about: "
                   ++ query))]
    /\ last (stdout w') Check_mark = Failed_to_generate_query_embedding
    /\ pages w' = pages w /\ txn w' = txn w.
Proof.
  destruct (embeddings_create _ _ _) as [[|x v]|e] eqn:Hemb;
    cbn [truthy]; intros Hfalse; try discriminate Hfalse;
    unfold ReembedArchon.test_search;
    rewrite bind_run; unfold print at 1; rewrite bind_run;
    rewrite reembed_archon_generate_embedding_run;
    unfold now in *; cbn [env trace pages txn stdout]; rewrite Hemb;
    (eexists; split; [reflexivity|]);
    cbn [truthy print record trace stdout pages txn env fst snd];
    rewrite last_last; auto.
Qed.

Lemma test_search_without_vector_skips_the_store_witness :
  exists w',
    ReembedArchon.test_search
      "shingles" (connect Sample.locked_out Sample.mixed_store)
    = (Return tt, w')
    /\ trace w'
       = trace (connect Sample.locked_out Sample.mixed_store)
         ++ [EmbeddingsCreate
               (Py.slice_to 8000%Z
                  ("Search for roofing project documentation about: "
                   ++ "shingles"))]
    /\ last (stdout w') Check_mark = Failed_to_generate_query_embedding
    /\ pages w' = pages (connect Sample.locked_out Sample.mixed_store)
    /\ txn w' = txn (connect Sample.locked_out Sample.mixed_store).
Proof.
  apply (test_search_without_vector_skips_the_store
           "shingles" (connect Sample.locked_out Sample.mixed_store)).
  reflexivity.
Defined.

(* ================================================================== *)
(** * Further properties: the reranker and the retrieval path *)
(* ================================================================== *)

Lemma rerank_loop_run (documents : list ArchonReembeddingPlan.candidate) :
  forall (results : list (Z * Q))
         (acc : list ArchonReembeddingPlan.candidate) (w : world),
    (exists tail,
        for_each results
                 (fun result reranked =>
                    match Py.index documents (fst result) with
                    | None => throw IndexError
                    | Some doc =>
                        ret (reranked
                             ++ [ArchonReembeddingPlan.with_score
                                   doc (snd result)])
                    end)
                 acc w
        = (Return (acc ++ tail), w)
        /\ Forall2 (fun r d =>
                      exists doc,
                        Py.index documents (fst r) = Some doc
                        /\ d = ArchonReembeddingPlan.with_score doc (snd r))
                   results tail)
    \/ (for_each results
                 (fun result reranked =>
                    match Py.index documents (fst result) with
                    | None => throw IndexError
                    | Some doc =>
                        ret (reranked
                             ++ [ArchonReembeddingPlan.with_score
                                   doc (snd result)])
                    end)
                 acc w
        = (Raise IndexError, w)
        /\ Exists (fun r => Py.index documents (fst r) = None) results).
Proof.
  set (body := fun (result : Z * Q)
                   (reranked : list ArchonReembeddingPlan.candidate) =>
                 match Py.index documents (fst result) with
                 | None => throw IndexError
                 | Some doc =>
                     ret (reranked
                          ++ [ArchonReembeddingPlan.with_score
                                doc (snd result)])
                 end).
  induction results as [|r results IH]; intros acc w.
  - left. exists []. rewrite app_nil_r. split; [reflexivity|constructor].
  - destruct (Py.index documents (fst r)) as [doc|] eqn:Hdoc.
    + assert (Hstep :
               for_each (r :: results) body acc w
               = for_each results body
                   (acc ++ [ArchonReembeddingPlan.with_score doc (snd r)])
                   w).
      { cbn [for_each]. rewrite bind_run. unfold body at 1.
        rewrite Hdoc. reflexivity. }
      rewrite Hstep.
      destruct (IH (acc ++ [ArchonReembeddingPlan.with_score doc (snd r)]) w)
        as [(tail & Hrun & Hall)|(Hrun & Hbad)].
      * left. exists (ArchonReembeddingPlan.with_score doc (snd r) :: tail).
        rewrite Hrun, <- app_assoc. split; [reflexivity|].
        constructor; [|assumption]. exists doc. auto.
      * right. rewrite Hrun. split; [reflexivity|].
        apply Exists_cons_tl. assumption.
    + right. split; [|apply Exists_cons_hd; assumption].
      cbn [for_each]. rewrite bind_run. unfold body at 1.
      rewrite Hdoc. reflexivity.
Qed.

(** X11: what [rerank_results] of archon_reembedding_plan.py makes of an
    answer of the reranking provider.  When every index of the answer names
    a document, the result follows the answer: one document per entry, in
    the order of the answer, each with the score of its entry attached, and
    nothing is printed.  When one index names no document, the whole answer
    is dropped, its valid entries too: the [IndexError] is caught, the
    failure is printed and the first [top_n] documents are returned as they
    were given. *)
Theorem rerank_follows_the_answer_or_drops_it (query : string)
  (documents : list ArchonReembeddingPlan.candidate) (top_n : Z) (w : world)
  (results : list (Z * Q)) :
  documents <> [] ->
  cohere_rerank (env w) (now w) query
                (map ArchonReembeddingPlan.cand_content documents)
                (Z.min top_n (Z.of_nat (List.length documents)))
  = Return results ->
  exists reranked w',
    ArchonReembeddingPlan.rerank_results query documents top_n w
    = (Return reranked, w')
    /\ ((Forall2 (fun r d =>
                    exists doc,
                      Py.index documents (fst r) = Some doc
                      /\ d = ArchonReembeddingPlan.with_score doc (snd r))
                 results reranked
         /\ stdout w' = stdout w)
        \/ (Exists (fun r => Py.index documents (fst r) = None) results
            /\ reranked = Py.take top_n documents
            /\ stdout w' = stdout w ++ [Reranking_failed IndexError])).
Proof.
  intros Hne Hanswer. unfold ArchonReembeddingPlan.rerank_results.
  destruct documents as [|d documents]; [congruence|].
  set (docs := d :: documents) in *.
  unfold try_except. rewrite bind_run.
  unfold ArchonReembeddingPlan.client_rerank at 1. rewrite Hanswer.
  destruct (rerank_loop_run docs results []
              (record (Rerank query
                         (map ArchonReembeddingPlan.cand_content docs)
                         (Z.min top_n (Z.of_nat (List.length docs)))) w))
    as [(tail & Hrun & Hall)|(Hrun & Hbad)]; rewrite Hrun.
  - do 2 eexists. split; [reflexivity|]. left. split; [exact Hall|].
    reflexivity.
  - do 2 eexists. split; [reflexivity|]. right. split; [exact Hbad|].
    split; reflexivity.
Qed.

Lemma rerank_follows_the_answer_or_drops_it_witness :
  exists reranked w',
    ArchonReembeddingPlan.rerank_results
      "ridge" [Sample.file_candidate; Sample.web_candidate] 1
      (connect Sample.steady Sample.two_classes)
    = (Return reranked, w')
    /\ ((Forall2 (fun r d =>
                    exists doc,
                      Py.index [Sample.file_candidate; Sample.web_candidate]
                               (fst r) = Some doc
                      /\ d = ArchonReembeddingPlan.with_score doc (snd r))
                 [(0%Z, 1%Q)] reranked
         /\ stdout w' = stdout (connect Sample.steady Sample.two_classes))
        \/ (Exists (fun r =>
                      Py.index [Sample.file_candidate; Sample.web_candidate]
                               (fst r) = None)
                   [(0%Z, 1%Q)]
            /\ reranked
               = Py.take 1 [Sample.file_candidate; Sample.web_candidate]
            /\ stdout w'
               = stdout (connect Sample.steady Sample.two_classes)
                 ++ [Reranking_failed IndexError])).
Proof.
  apply (rerank_follows_the_answer_or_drops_it
           "ridge" [Sample.file_candidate; Sample.web_candidate] 1%Z
           (connect Sample.steady Sample.two_classes) [(0%Z, 1%Q)]).
  - discriminate.
  - reflexivity.
Defined.

Lemma rerank_results_returns (query : string)
  (documents : list ArchonReembeddingPlan.candidate) (top_n : Z) (w : world) :
  exists reranked w',
    ArchonReembeddingPlan.rerank_results query documents top_n w
    = (Return reranked, w').
Proof.
  unfold ArchonReembeddingPlan.rerank_results.
  destruct documents as [|d documents]; [do 2 eexists; reflexivity|].
  unfold try_except.
  match goal with
  | |- context [match ?m w with _ => _ end] =>
      destruct (m w) as [[reranked|e] w1]
  end; do 2 eexists; reflexivity.
Qed.

(** X12: [enhanced_rag_search] of archon_reembedding_plan.py raises in
    three cases only, all of them before the reranker is reached: the
    provider refuses the embedding of the query (the call is not wrapped),
    the store refuses the query, or the count is negative, which makes the
    [LIMIT] negative.  Nothing the reranker does makes the search raise. *)
Theorem enhanced_search_raises_only_before_reranking (query : string)
  (match_count : Z) (w : world) (e : exn) :
  fst (ArchonReembeddingPlan.enhanced_rag_search query match_count w)
  = Raise e
  <-> (embeddings_create (env w) (now w)
         ("Search for project documentation about: " ++ query)%string
       = Raise e
       \/ exists q,
            embeddings_create (env w) (now w)
              ("Search for project documentation about: " ++ query)%string
            = Return q
            /\ (pg_fault (env w) (S (now w)) Select = Some e
                \/ (pg_fault (env w) (S (now w)) Select = None
                    /\ (match_count * 3 < 0)%Z
                    /\ e = DatabaseError "LIMIT must not be negative"))).
Proof.
  unfold ArchonReembeddingPlan.enhanced_rag_search.
  rewrite bind_run. unfold client_embeddings_create at 1.
  destruct (embeddings_create _ _ _) as [q|e0] eqn:Hq.
  2:{ cbn [fst]. split.
      - intros [= <-]. left. reflexivity.
      - intros [[= <-]|(q & Hq' & _)]; [reflexivity|discriminate]. }
  rewrite bind_run. unfold ask at 1. rewrite bind_run.
  unfold ArchonReembeddingPlan.connect_fetchall at 1.
  replace (now (record _ w)) with (S (now w))
    by (unfold now, record; cbn [trace]; rewrite length_app; simpl; lia).
  cbn [env record pages].
  destruct (pg_fault (env w) (S (now w)) Select) as [e1|] eqn:Hselect.
  { cbn [fst]. split.
    - intros [= <-]. right. exists q. auto.
    - intros [Hraise|(q' & _ & [[= <-]|(Hnone & _)])];
        [discriminate|reflexivity|discriminate]. }
  unfold ArchonReembeddingPlan.ranked_results.
  destruct (Z.ltb_spec (match_count * 3) 0) as [Hneg|Hpos].
  { cbn [fst]. split.
    - intros [= <-]. right. exists q. auto.
    - intros [Hraise|(q' & _ & [Hsome|(_ & _ & ->)])];
        [discriminate|discriminate|reflexivity]. }
  match goal with
  | |- context [ArchonReembeddingPlan.rerank_results ?a ?b ?c ?w0] =>
      destruct (rerank_results_returns a b c w0) as (reranked & w' & Hrun);
      rewrite Hrun
  end.
  cbn [fst]. split; [discriminate|].
  intros [Hraise|(q' & _ & [Hsome|(_ & Hneg & _)])];
    [discriminate|discriminate|lia].
Qed.

Lemma enhanced_search_raises_only_before_reranking_witness :
  fst (ArchonReembeddingPlan.enhanced_rag_search
         "flashing" 1 (connect Sample.locked_out Sample.mixed_store))
  = Raise (APIError AuthFailure "invalid api key").
Proof.
  apply (proj2 (enhanced_search_raises_only_before_reranking
                  "flashing" 1 (connect Sample.locked_out Sample.mixed_store)
                  (APIError AuthFailure "invalid api key"))).
  left. reflexivity.
Defined.

(* ================================================================== *)
(** * Further properties: the planned re-embedding run *)
(* ================================================================== *)





Lemma StronglySorted_map {A B : Type} (f : A -> B) (R : B -> B -> Prop)
  (l : list A) :
  StronglySorted (fun a b => R (f a) (f b)) l -> StronglySorted R (map f l).
Proof.
  induction 1 as [|a l Hsorted IH Hall]; simpl; constructor; auto.
  rewrite Forall_forall in *. intros b Hb.
  apply in_map_iff in Hb. destruct Hb as (x & <- & Hx). auto.
Qed.

Lemma file_url_contains_scheme (s : string) :
  Sql.like "file://%" s = true -> Py.contains "file://" s = true.
Proof.
  intros H.
  destruct (like_first_character "f"%char _ s eq_refl eq_refl H) as (s1 & ->).
  assert (H1 : Sql.like "ile://%" s1 = true) by exact H. clear H.
  destruct (like_first_character "i"%char _ s1 eq_refl eq_refl H1)
    as (s2 & ->).
  assert (H2 : Sql.like "le://%" s2 = true) by exact H1. clear H1.
  destruct (like_first_character "l"%char _ s2 eq_refl eq_refl H2)
    as (s3 & ->).
  assert (H3 : Sql.like "e://%" s3 = true) by exact H2. clear H2.
  destruct (like_first_character "e"%char _ s3 eq_refl eq_refl H3)
    as (s4 & ->).
  assert (H4 : Sql.like "://%" s4 = true) by exact H3. clear H3.
  destruct (like_first_character ":"%char _ s4 eq_refl eq_refl H4)
    as (s5 & ->).
  assert (H5 : Sql.like "//%" s5 = true) by exact H4. clear H4.
  destruct (like_first_character "/"%char _ s5 eq_refl eq_refl H5)
    as (s6 & ->).
  assert (H6 : Sql.like "/%" s6 = true) by exact H5. clear H5.
  destruct (like_first_character "/"%char _ s6 eq_refl eq_refl H6)
    as (s7 & ->).
  destruct s7; reflexivity.
Qed.

(** X14: the batch of [re_embed_project_docs_only] in
    archon_reembedding_plan.py.  [get_chunks_to_embed] with the filter
    [file://%] returns, in ascending order of identifier, rows whose source
    address starts with [file://]; so the test of the contextualizer on
    [file://] never fails on them: no chunk of that batch is embedded from
    its bare content.  Each gets one of the five prefixes, or the
    contextualizer raises [TypeError] because the source has no display
    name. *)
Theorem project_docs_batch_always_gets_context (w w' : world)
  (chunks : list chunk) :
  ArchonReembeddingPlan.get_chunks_to_embed (Some "file://%") w
  = (Return chunks, w') ->
  StronglySorted (fun a b => (c_id a <= c_id b)%Z) chunks
  /\ forall c,
       In c chunks ->
       Sql.like "file://%" (c_source_url c) = true
       /\ match ArchonReembeddingPlan.create_contextual_content c with
          | Return text =>
              exists prefix,
                In prefix ["Project Requirements Document (PRD): ";
                           "Project Implementation Guide: ";
                           "Technical Knowledge Base: ";
                           "Roofing Industry Documentation: ";
                           "Project Documentation: "]
                /\ text = (prefix ++ c_content c)%string
          | Raise e => e = TypeError /\ c_source_display_name c = None
          end.
Proof.
  unfold ArchonReembeddingPlan.get_chunks_to_embed, cur_fetchall.
  destruct (pg_fault _ _ _); [discriminate|].
  intros H. injection H as <- _. split.
  - apply StronglySorted_map. cbn [select_columns c_id].
    eapply StronglySorted_impl;
      [|apply (order_by_sorted (fun a b : page => (id a <=? id b)%Z))].
    + intros a b Hab. apply Z.leb_le. exact Hab.
    + intros a b Hab. apply Z.leb_gt in Hab. apply Z.leb_le. lia.
    + intros a b c Hab Hbc. apply Z.leb_le in Hab, Hbc. apply Z.leb_le. lia.
  - intros c Hc. apply in_map_iff in Hc. destruct Hc as (p & <- & Hp).
    apply in_order_by, filter_In in Hp. destruct Hp as [_ Hlike].
    cbn [select_columns c_source_url]. split; [exact Hlike|].
    unfold ArchonReembeddingPlan.create_contextual_content.
    cbn [select_columns c_source_url c_source_display_name c_content].
    rewrite (file_url_contains_scheme _ Hlike).
    destruct (source_display_name p) as [name|]; [|auto].
    destruct (Py.contains "PRD" name);
      [eexists; split; [|reflexivity]; simpl; auto|].
    destruct (Py.contains "CLAUDE" name);
      [eexists; split; [|reflexivity]; simpl; auto|].
    destruct (Py.contains "knowledge_base" name);
      [eexists; split; [|reflexivity]; simpl; auto|].
    destruct (Py.contains "roofing" (Py.lower name));
      eexists; (split; [|reflexivity]); simpl; auto 6.
Qed.

Lemma project_docs_batch_always_gets_context_witness :
  StronglySorted (fun a b => (c_id a <= c_id b)%Z)
                 [select_columns (Sample.file_page 1 "shingles" (Some [3%Q]))]
  /\ forall c,
       In c [select_columns (Sample.file_page 1 "shingles" (Some [3%Q]))] ->
       Sql.like "file://%" (c_source_url c) = true
       /\ match ArchonReembeddingPlan.create_contextual_content c with
          | Return text =>
              exists prefix,
                In prefix ["Project Requirements Document (PRD): ";
                           "Project Implementation Guide: ";
                           "Technical Knowledge Base: ";
                           "Roofing Industry Documentation: ";
                           "Project Documentation: "]
                /\ text = (prefix ++ c_content c)%string
          | Raise e => e = TypeError /\ c_source_display_name c = None
          end.
Proof.
  apply (project_docs_batch_always_gets_context
           (connect Sample.steady Sample.mixed_store)
           (snd (ArchonReembeddingPlan.get_chunks_to_embed
                   (Some "file://%")
                   (connect Sample.steady Sample.mixed_store)))).
  reflexivity.
Defined.

(** X15: with no candidate, [enhanced_rag_search] does not call the
    reranker.  When the count is 0, or when no committed row has an
    embedding, a search that returns returns the empty list, and the only
    calls it made are the embedding of the query and the query of the
    store. *)
Theorem empty_pool_skips_the_reranker (query : string) (match_count : Z)
  (w w' : world) (results : list ArchonReembeddingPlan.candidate) :
  ArchonReembeddingPlan.enhanced_rag_search query match_count w
  = (Return results, w') ->
  match_count = 0%Z \/ filter has_embedding (pages w) = [] ->
  results = []
  /\ trace w'
     = trace w
       ++ [EmbeddingsCreate
             ("Search for project documentation about: " ++ query);
           Execute Select].
Proof.
  intros Hrun Hempty.
  unfold ArchonReembeddingPlan.enhanced_rag_search in Hrun.
  rewrite bind_run in Hrun. unfold client_embeddings_create at 1 in Hrun.
  destruct (embeddings_create _ _ _) as [q|e]; [|discriminate].
  rewrite bind_run in Hrun. unfold ask at 1 in Hrun.
  rewrite bind_run in Hrun.
  unfold ArchonReembeddingPlan.connect_fetchall at 1 in Hrun.
  destruct (pg_fault _ _ _); [discriminate|].
  cbn [pages record env] in Hrun.
  unfold ArchonReembeddingPlan.ranked_results in Hrun.
  destruct (match_count * 3 <? 0)%Z; [discriminate|].
  assert (Hpool :
           firstn (Z.to_nat (match_count * 3))
                  (Sql.order_by
                     (fun a b =>
                        Qle_bool (ArchonReembeddingPlan.score a)
                                 (ArchonReembeddingPlan.score b))
                     (ArchonReembeddingPlan.embedded (env w) q (pages w)))
           = []).
  { destruct Hempty as [->|Hnone]; [reflexivity|].
    apply length_zero_iff_nil.
    rewrite length_firstn, length_order_by, length_embedded, Hnone.
    simpl. lia. }
  rewrite Hpool in Hrun. cbn [ArchonReembeddingPlan.rerank_results] in Hrun.
  unfold ret in Hrun. injection Hrun as <- <-.
  unfold record. cbn [trace]. rewrite <- app_assoc. auto.
Qed.

Lemma empty_pool_skips_the_reranker_witness :
  fst (ArchonReembeddingPlan.enhanced_rag_search
         "flashing" 0 (connect Sample.steady Sample.mixed_store)) = Return []
  /\ trace (snd (ArchonReembeddingPlan.enhanced_rag_search
                   "flashing" 0 (connect Sample.steady Sample.mixed_store)))
     = trace (connect Sample.steady Sample.mixed_store)
       ++ [EmbeddingsCreate
             ("Search for project documentation about: " ++ "flashing");
           Execute Select].
Proof.
  destruct (empty_pool_skips_the_reranker
              "flashing" 0 (connect Sample.steady Sample.mixed_store)
              (snd (ArchonReembeddingPlan.enhanced_rag_search
                      "flashing" 0
                      (connect Sample.steady Sample.mixed_store)))
              [] eq_refl (or_introl eq_refl)) as [_ Htrace].
  split; [reflexivity|exact Htrace].
Defined.

Lemma retrieval_degrades_when_rerank_fails_witness :
  fst (ArchonReembeddingPlan.enhanced_rag_search
         "flashing" 1 (connect Sample.no_rerank Sample.mixed_store))
  = Return
      (firstn (Z.to_nat 1)
         (firstn (Z.to_nat (1 * 3))
            (Sql.order_by
               (fun a b =>
                  Qle_bool (ArchonReembeddingPlan.score a)
                           (ArchonReembeddingPlan.score b))
               (ArchonReembeddingPlan.embedded
                  Sample.no_rerank
                  (Sample.length_embedding
                     ("Search for project documentation about: "
                      ++ "flashing"))
                  Sample.mixed_store))))
  /\ (firstn (Z.to_nat (1 * 3))
         (Sql.order_by
            (fun a b =>
               Qle_bool (ArchonReembeddingPlan.score a)
                        (ArchonReembeddingPlan.score b))
            (ArchonReembeddingPlan.embedded
               Sample.no_rerank
               (Sample.length_embedding
                  ("Search for project documentation about: "
                   ++ "flashing"))
               Sample.mixed_store)) <> [] ->
      firstn (Z.to_nat 1)
         (firstn (Z.to_nat (1 * 3))
            (Sql.order_by
               (fun a b =>
                  Qle_bool (ArchonReembeddingPlan.score a)
                           (ArchonReembeddingPlan.score b))
               (ArchonReembeddingPlan.embedded
                  Sample.no_rerank
                  (Sample.length_embedding
                     ("Search for project documentation about: "
                      ++ "flashing"))
                  Sample.mixed_store))) <> []).
Proof.
  apply (retrieval_degrades_when_rerank_fails
           "flashing" 1 (connect Sample.no_rerank Sample.mixed_store)
           (Sample.length_embedding
              ("Search for project documentation about: " ++ "flashing"))
           _ (APIError RateLimited "quota")); reflexivity.
Defined.

(** X17: [get_project_documents] of reembed_all_project_docs.py tells an
    empty batch from a failed fetch by nothing: when the four fetches are
    answered and no row came back, it returns [None] and prints the failure
    line with the status of the last response, whatever that status is, 200
    included. *)
Theorem empty_batch_is_reported_as_failed_fetch (w : world)
  (statuses : list nat) :
  List.length statuses = List.length doc_patterns ->
  (forall k pattern status,
      nth_error doc_patterns k = Some pattern ->
      nth_error statuses k = Some status ->
      rest_get (env w) (now w + k) pattern = Return status) ->
  flat_map (fun ps => if snd ps =? 200
                      then rest_select (fst ps) (pages w) else [])
           (combine doc_patterns statuses) = [] ->
  exists w',
    ReembedAllProjectDocs.get_project_documents w = (Return None, w')
    /\ stdout w'
       = stdout w
         ++ [Message "Fetching project documentation from Archon DB...";
             Failed_to_fetch_documents (last statuses 0)]
    /\ pages w' = pages w.
Proof.
  intros Hlen Hget Hnone.
  unfold ReembedAllProjectDocs.get_project_documents.
  rewrite bind_run. unfold print at 1. rewrite bind_run.
  rewrite (fetch_status_loop_run doc_patterns statuses [] 0); auto.
  cbn [fst snd app pages]. rewrite Hnone.
  rewrite bind_run. unfold print at 1. unfold ret.
  eexists. split; [reflexivity|].
  cbn [stdout pages]. rewrite <- app_assoc. auto.
Qed.

Lemma empty_batch_is_reported_as_failed_fetch_witness :
  exists w',
    ReembedAllProjectDocs.get_project_documents
      (connect Sample.steady Sample.mixed_store) = (Return None, w')
    /\ stdout w'
       = stdout (connect Sample.steady Sample.mixed_store)
         ++ [Message "Fetching project documentation from Archon DB...";
             Failed_to_fetch_documents (last [200; 200; 200; 200] 0)]
    /\ pages w' = pages (connect Sample.steady Sample.mixed_store).
Proof.
  apply (empty_batch_is_reported_as_failed_fetch
           (connect Sample.steady Sample.mixed_store) [200; 200; 200; 200]).
  - reflexivity.
  - intros [|[|[|[|k]]]] pattern status Hp Hs; simpl in Hp, Hs;
      try (destruct k; discriminate);
      inversion Hp; inversion Hs; reflexivity.
  - vm_compute. reflexivity.
Defined.
